(** * Household expense tracker: persistence layer

    A shallow embedding of the server side of the repository:

    - [server/config/database.js]  the [DatabaseManager] singleton,
    - [server/models/Transaction.js] and [server/models/Category.js],
    - [server/scripts/migrate.js]  the schema (tables, defaults, triggers)
                                   and [runMigrations],
    - [server/scripts/seed.js]     [checkExistingData],
    - [server/index.js]            the error middleware, the routes of the
                                   two resources and of the monthly report,
                                   the order in which the GET routes are
                                   registered, and [initializeDatabase].

    The JavaScript of the models builds SQL text and hands it to the
    driver.  SQL text is embedded as the list of clauses the source
    concatenates, in the order it concatenates them; the engine parses
    that list with the grammar of a SELECT statement and runs it on the
    tables.  Asynchronous functions become functions of the [World]
    (manager fields, driver handle, tables) that return either a value or
    a thrown JavaScript error together with the new world.

    Amounts are held in cents (two decimal places, as the schema's
    DECIMAL(12,2)), calendar dates as year/month/day (ISO form). *)

From Stdlib Require Import ZArith List String Ascii Bool Lia.
From Stdlib Require Import Sorting.Sorted Sorting.Permutation.
From Stdlib Require Import Numbers.DecimalString.
From Stdlib Require DecimalZ DecimalPos.
Import ListNotations.
Open Scope string_scope.
Open Scope Z_scope.

(** ** Strings and numbers as JavaScript and SQL see them *)

(** Strings are UTF-8 byte strings.  JavaScript's [length] counts UTF-16
    code units: one per character of up to three bytes, two for a
    four-byte character; continuation bytes count for nothing. *)
Definition utf16_units (c : ascii) : nat :=
  let n := nat_of_ascii c in
  if (n <? 128)%nat then 1%nat
  else if (n <? 192)%nat then 0%nat
  else if (n <? 240)%nat then 1%nat
  else 2%nat.

Fixpoint js_length (s : string) : nat :=
  match s with
  | EmptyString => 0%nat
  | String c r => (utf16_units c + js_length r)%nat
  end.

(** SQL's [VARCHAR(n)] counts characters: every byte but the continuation
    bytes starts one. *)
Definition starts_char (c : ascii) : bool :=
  let n := nat_of_ascii c in (n <? 128)%nat || (192 <=? n)%nat.

Fixpoint char_length (s : string) : nat :=
  match s with
  | EmptyString => 0%nat
  | String c r => ((if starts_char c then 1 else 0) + char_length r)%nat
  end.

(** Template literal [`${n}`] of an integer. *)
Definition js_of_Z (z : Z) : string :=
  NilZero.string_of_int (Z.to_int z).

(** A decimal integer literal read back ([None] when the text is not one). *)
Definition Z_of_text (s : string) : option Z :=
  option_map Z.of_int (NilZero.int_of_string s).

(** Zero-padded rendering on [w] digits, as [strftime] prints fields. *)
Fixpoint pad_left (w : nat) (s : string) : string :=
  match w with
  | O => s
  | S w' => if (String.length s <? w)%nat then pad_left w' ("0" ++ s) else s
  end.

Definition digits (w : nat) (z : Z) : string := pad_left w (js_of_Z z).

(** Calendar dates. *)
Record Date := mkDate { year : Z; month : Z; day : Z }.

Definition Date_compare (a b : Date) : comparison :=
  match year a ?= year b with
  | Eq => match month a ?= month b with
          | Eq => day a ?= day b
          | c => c
          end
  | c => c
  end.

Definition iso (d : Date) : string :=
  digits 4 (year d) ++ "-" ++ digits 2 (month d) ++ "-" ++ digits 2 (day d).


(** ** Values, result rows and errors *)

(** What a column holds, what a parameter binds and what a result row
    carries.  [VNum] is an integer: an id, a count, a year, or an amount
    in cents. *)
Inductive Value :=
| VNull
| VNum (z : Z)
| VText (s : string)
| VDate (d : Date).

(** A result row as the drivers return it: an object keyed by column name. *)
Definition Obj := list (string * Value).

Fixpoint field (k : string) (o : Obj) : option Value :=
  match o with
  | [] => None
  | (k', v) :: r => if String.eqb k k' then Some v else field k r
  end.

(** [new Error(message)], with the [name] and [code] properties the error
    middleware looks at. *)
Record JsError := mkError {
  name : string;
  message : string;
  code : option string
}.

Definition Error (msg : string) : JsError := mkError "Error" msg None.

(** An error raised by a driver, with the driver's error code. *)
Definition DriverError (c msg : string) : JsError := mkError "Error" msg (Some c).

Inductive Outcome (A : Type) :=
| Ok (a : A)
| Throw (e : JsError).
Arguments Ok {A} a.
Arguments Throw {A} e.

(** ** The schema of [migrate.js] *)

Inductive DbType := sqlite | postgresql.

Module Tx.
(** A row of table [transactions]. *)
Record row := mk {
  id : Z;
  type : string;
  amount : Z;
  description : string;
  category : string;
  date : Date;
  created_at : Z;
  updated_at : Z
}.

Definition to_obj (r : row) : Obj :=
  [("id", VNum (id r)); ("type", VText (type r)); ("amount", VNum (amount r));
   ("description", VText (description r)); ("category", VText (category r));
   ("date", VDate (date r)); ("created_at", VNum (created_at r));
   ("updated_at", VNum (updated_at r))].

(** Assignment of one column, as INSERT and UPDATE do it.  [None]: the
    value does not fit the column (NOT NULL, or not of the column's type). *)
Definition set (c : string) (v : Value) (r : row) : option row :=
  match v with
  | VNum z =>
      if String.eqb c "id" then Some (mk z (type r) (amount r) (description r) (category r) (date r) (created_at r) (updated_at r))
      else if String.eqb c "amount" then Some (mk (id r) (type r) z (description r) (category r) (date r) (created_at r) (updated_at r))
      else if String.eqb c "created_at" then Some (mk (id r) (type r) (amount r) (description r) (category r) (date r) z (updated_at r))
      else if String.eqb c "updated_at" then Some (mk (id r) (type r) (amount r) (description r) (category r) (date r) (created_at r) z)
      else None
  | VText s =>
      if String.eqb c "type" then Some (mk (id r) s (amount r) (description r) (category r) (date r) (created_at r) (updated_at r))
      else if String.eqb c "description" then Some (mk (id r) (type r) (amount r) s (category r) (date r) (created_at r) (updated_at r))
      else if String.eqb c "category" then Some (mk (id r) (type r) (amount r) (description r) s (date r) (created_at r) (updated_at r))
      else None
  | VDate d =>
      if String.eqb c "date" then Some (mk (id r) (type r) (amount r) (description r) (category r) d (created_at r) (updated_at r))
      else None
  | VNull => None
  end.

(** The columns an INSERT must supply: those declared NOT NULL without a
    default. *)
Definition required : list string :=
  ["type"; "amount"; "description"; "category"; "date"].

(** [CHECK(type IN ('income', 'expense'))] and [CHECK(amount > 0)]. *)
Definition check (r : row) : bool :=
  (String.eqb (type r) "income" || String.eqb (type r) "expense") && (0 <? amount r).

(** PostgreSQL column sizes: VARCHAR(10), DECIMAL(12,2) (ten digits
    before the point), VARCHAR(255), VARCHAR(100).  SQLite does not
    enforce declared sizes. *)
Definition fits (r : row) : bool :=
  (char_length (type r) <=? 10)%nat && (amount r <? 10 ^ 12)
  && (char_length (description r) <=? 255)%nat && (char_length (category r) <=? 100)%nat.
End Tx.

Module Cat.
(** A row of table [categories]. *)
Record row := mk {
  id : Z;
  name : string;
  type : string;
  description : option string;
  color : option string;
  icon : option string;
  created_at : Z;
  updated_at : Z
}.

Definition nullable (o : option string) : Value :=
  match o with Some s => VText s | None => VNull end.

Definition to_obj (r : row) : Obj :=
  [("id", VNum (id r)); ("name", VText (name r)); ("type", VText (type r));
   ("description", nullable (description r)); ("color", nullable (color r));
   ("icon", nullable (icon r)); ("created_at", VNum (created_at r));
   ("updated_at", VNum (updated_at r))].

Definition text_or_null (v : Value) : option (option string) :=
  match v with
  | VText s => Some (Some s)
  | VNull => Some None
  | _ => None
  end.

Definition set (c : string) (v : Value) (r : row) : option row :=
  if String.eqb c "id" then
    match v with VNum z => Some (mk z (name r) (type r) (description r) (color r) (icon r) (created_at r) (updated_at r)) | _ => None end
  else if String.eqb c "name" then
    match v with VText s => Some (mk (id r) s (type r) (description r) (color r) (icon r) (created_at r) (updated_at r)) | _ => None end
  else if String.eqb c "type" then
    match v with VText s => Some (mk (id r) (name r) s (description r) (color r) (icon r) (created_at r) (updated_at r)) | _ => None end
  else if String.eqb c "description" then
    option_map (fun o => mk (id r) (name r) (type r) o (color r) (icon r) (created_at r) (updated_at r)) (text_or_null v)
  else if String.eqb c "color" then
    option_map (fun o => mk (id r) (name r) (type r) (description r) o (icon r) (created_at r) (updated_at r)) (text_or_null v)
  else if String.eqb c "icon" then
    option_map (fun o => mk (id r) (name r) (type r) (description r) (color r) o (created_at r) (updated_at r)) (text_or_null v)
  else if String.eqb c "created_at" then
    match v with VNum z => Some (mk (id r) (name r) (type r) (description r) (color r) (icon r) z (updated_at r)) | _ => None end
  else if String.eqb c "updated_at" then
    match v with VNum z => Some (mk (id r) (name r) (type r) (description r) (color r) (icon r) (created_at r) z) | _ => None end
  else None.

Definition required : list string := ["name"; "type"].

(** [CHECK(type IN ('income', 'expense'))]. *)
Definition check (r : row) : bool :=
  String.eqb (type r) "income" || String.eqb (type r) "expense".

Definition fits_opt (n : nat) (o : option string) : bool :=
  match o with Some s => (char_length s <=? n)%nat | None => true end.

(** PostgreSQL column sizes: VARCHAR(100), VARCHAR(10), TEXT, VARCHAR(7),
    VARCHAR(50). *)
Definition fits (r : row) : bool :=
  (char_length (name r) <=? 100)%nat && (char_length (type r) <=? 10)%nat
  && fits_opt 7 (color r) && fits_opt 50 (icon r).
End Cat.

(** ** SQL text

    A statement is the sequence of clauses the source writes into the query
    string.  [Qm] is the placeholder [?] of the SQLite branch, [Dollar n]
    the placeholder [$n] of the PostgreSQL branch. *)

Inductive Expr :=
| Col (c : string)
| Qm
| Dollar (n : nat)
| Str (s : string)
| Int (z : Z)
| Bound (v : Value)
| LOWER (e : Expr)
| STRFTIME (f : string) (e : Expr)
| EXTRACT (f : string) (e : Expr)
| CAST_INTEGER (e : Expr)
| NOW
| SELECT_name_FROM_categories_WHERE_id (e : Expr).

Inductive CmpOp := EQ | GE | LE.

Inductive Cond :=
| Cmp (a : Expr) (op : CmpOp) (b : Expr)
| BETWEEN (e lo hi : Expr).

Inductive SelExpr :=
| Scalar (e : Expr)
| SUM (e : Expr)
| COUNT_STAR
| COALESCE (a : SelExpr) (b : Expr).

Inductive SelItem :=
| Star
| Item (e : SelExpr) (alias : string).

Inductive Dir := ASC | DESC.

Inductive Clause :=
| SELECT (items : list SelItem)
| FROM (t : string)
| WHERE (c : Cond)
| AND (c : Cond)
| GROUP_BY (es : list Expr)
| ORDER_BY (ks : list (string * Dir))
| LIMIT (e : Expr).

Inductive Sql :=
| Query (cl : list Clause)
| INSERT_INTO (t : string) (cols : list string) (vals : list Expr) (returning : bool)
| UPDATE (t : string) (sets : list (string * Expr)) (w : Cond) (returning : bool)
| DELETE_FROM (t : string) (w : Cond) (returning : bool)
| CREATE_TABLE_IF_NOT_EXISTS (t : string)
| CREATE_INDEX_IF_NOT_EXISTS (i : string)
| CREATE_FUNCTION_update_updated_at_column
| CREATE_TRIGGER_update_updated_at (t : string).

(** The statement the grammar recognises in a clause list:
    SELECT items FROM t [WHERE c {AND c}] [GROUP BY es] [ORDER BY ks] [LIMIT e]. *)
Record SelectStmt := mkSelect {
  sel_items : list SelItem;
  sel_table : string;
  sel_where : list Cond;
  sel_group : option (list Expr);
  sel_order : list (string * Dir);
  sel_limit : option Expr
}.

Fixpoint take_ands (cl : list Clause) : list Cond * list Clause :=
  match cl with
  | AND c :: r => let (cs, r') := take_ands r in (c :: cs, r')
  | _ => ([], cl)
  end.

Definition take_where (cl : list Clause) : list Cond * list Clause :=
  match cl with
  | WHERE c :: r => let (cs, r') := take_ands r in (c :: cs, r')
  | _ => ([], cl)
  end.

Definition take_group (cl : list Clause) : option (list Expr) * list Clause :=
  match cl with
  | GROUP_BY es :: r => (Some es, r)
  | _ => (None, cl)
  end.

Definition take_order (cl : list Clause) : list (string * Dir) * list Clause :=
  match cl with
  | ORDER_BY ks :: r => (ks, r)
  | _ => ([], cl)
  end.

Definition take_limit (cl : list Clause) : option Expr * list Clause :=
  match cl with
  | LIMIT e :: r => (Some e, r)
  | _ => (None, cl)
  end.

(** [None] is the engine's syntax error: a clause out of place, such as a
    second WHERE. *)
Definition parse (cl : list Clause) : option SelectStmt :=
  match cl with
  | SELECT items :: FROM t :: rest =>
      let (w, r1) := take_where rest in
      let (g, r2) := take_group r1 in
      let (o, r3) := take_order r2 in
      let (l, r4) := take_limit r3 in
      match r4 with
      | [] => Some (mkSelect items t w g o l)
      | _ => None
      end
  | _ => None
  end.

(** ** Binding parameters

    SQLite numbers the [?] in the order they stand in the text; PostgreSQL
    looks [$n] up by its number.  The counter is the number of [?] met so
    far (SQLite) or the largest [$n] met so far (PostgreSQL).  Each engine
    refuses the other's placeholder; the source never sends it. *)

Fixpoint bind_expr (dt : DbType) (params : list Value) (e : Expr) (k : nat)
  : option (Expr * nat) :=
  match e with
  | Qm =>
      match dt with
      | sqlite => Some (Bound (nth k params VNull), S k)
      | postgresql => None
      end
  | Dollar n =>
      match dt, n with
      | postgresql, S i =>
          match nth_error params i with
          | Some v => Some (Bound v, Nat.max k n)
          | None => None
          end
      | _, _ => None
      end
  | LOWER a => option_map (fun p => (LOWER (fst p), snd p)) (bind_expr dt params a k)
  | STRFTIME f a => option_map (fun p => (STRFTIME f (fst p), snd p)) (bind_expr dt params a k)
  | EXTRACT f a => option_map (fun p => (EXTRACT f (fst p), snd p)) (bind_expr dt params a k)
  | CAST_INTEGER a => option_map (fun p => (CAST_INTEGER (fst p), snd p)) (bind_expr dt params a k)
  | SELECT_name_FROM_categories_WHERE_id a =>
      option_map (fun p => (SELECT_name_FROM_categories_WHERE_id (fst p), snd p))
                 (bind_expr dt params a k)
  | Col _ | Str _ | Int _ | Bound _ | NOW => Some (e, k)
  end.

Definition bind_cond (dt : DbType) (params : list Value) (c : Cond) (k : nat)
  : option (Cond * nat) :=
  match c with
  | Cmp a op b =>
      match bind_expr dt params a k with
      | Some (a', k1) =>
          match bind_expr dt params b k1 with
          | Some (b', k2) => Some (Cmp a' op b', k2)
          | None => None
          end
      | None => None
      end
  | BETWEEN e lo hi =>
      match bind_expr dt params e k with
      | Some (e', k1) =>
          match bind_expr dt params lo k1 with
          | Some (lo', k2) =>
              match bind_expr dt params hi k2 with
              | Some (hi', k3) => Some (BETWEEN e' lo' hi', k3)
              | None => None
              end
          | None => None
          end
      | None => None
      end
  end.

Fixpoint bind_conds (dt : DbType) (params : list Value) (cs : list Cond) (k : nat)
  : option (list Cond * nat) :=
  match cs with
  | [] => Some ([], k)
  | c :: r =>
      match bind_cond dt params c k with
      | Some (c', k1) =>
          match bind_conds dt params r k1 with
          | Some (r', k2) => Some (c' :: r', k2)
          | None => None
          end
      | None => None
      end
  end.

Fixpoint bind_exprs (dt : DbType) (params : list Value) (es : list Expr) (k : nat)
  : option (list Expr * nat) :=
  match es with
  | [] => Some ([], k)
  | e :: r =>
      match bind_expr dt params e k with
      | Some (e', k1) =>
          match bind_exprs dt params r k1 with
          | Some (r', k2) => Some (e' :: r', k2)
          | None => None
          end
      | None => None
      end
  end.

(** Every supplied parameter must have its placeholder; SQLite leaves a
    placeholder without a parameter NULL. *)
Definition params_match (dt : DbType) (params : list Value) (k : nat) : bool :=
  match dt with
  | sqlite => (List.length params <=? k)%nat
  | postgresql => (List.length params =? k)%nat
  end.

(** ** The database behind the connection *)

Record Database := mkDatabase {
  transactions : list Tx.row;
  transactions_seq : Z;          (* last id handed out by AUTOINCREMENT / SERIAL *)
  categories : list Cat.row;
  categories_seq : Z;
  triggers : list string;        (* tables carrying the updated_at trigger *)
  clock : Z                      (* CURRENT_TIMESTAMP / NOW() *)
}.

(** The engine's own case folding.  SQLite's [lower()] folds the ASCII
    letters only; PostgreSQL's follows the locale of the database. *)
Class SqlFunctions := { sql_lower : string -> string }.

Section Engine.
Context `{SqlFunctions}.

(** *** Comparison *)

Inductive Affinity := NUMERIC | TEXT | NONE.

(** Declared types: INTEGER, REAL and DATETIME columns have numeric
    affinity, TEXT columns text affinity. *)
Definition column_affinity (c : string) : Affinity :=
  if String.eqb c "id" || String.eqb c "amount"
     || String.eqb c "created_at" || String.eqb c "updated_at"
  then NUMERIC else TEXT.

(** SQLite: a column reference has the affinity of the column, a CAST that
    of its type, a scalar subquery that of its result column; any other
    expression, a parameter included, has none. *)
Definition affinity (e : Expr) : Affinity :=
  match e with
  | Col c => column_affinity c
  | CAST_INTEGER _ => NUMERIC
  | SELECT_name_FROM_categories_WHERE_id _ => TEXT
  | _ => NONE
  end.

Definition to_numeric (v : Value) : Value :=
  match v with
  | VText s => match Z_of_text s with Some z => VNum z | None => v end
  | _ => v
  end.

Definition to_text (v : Value) : Value :=
  match v with
  | VNum z => VText (js_of_Z z)
  | _ => v
  end.

(** SQLite converts an operand before comparing only towards the affinity
    of the other operand: towards NUMERIC when the other side is numeric
    and this side is not; towards TEXT when the other side is TEXT and this
    side has no affinity. *)
Definition sqlite_convert (mine other : Affinity) (v : Value) : Value :=
  match other, mine with
  | NUMERIC, TEXT | NUMERIC, NONE => to_numeric v
  | TEXT, NONE => to_text v
  | _, _ => v
  end.

(** Comparison by storage class: a number sorts before any text; two
    calendar dates in ISO form compare as text the way they compare as
    dates.  [None]: an operand is NULL. *)
Definition storage_compare (a b : Value) : option comparison :=
  match a, b with
  | VNull, _ | _, VNull => None
  | VNum x, VNum y => Some (x ?= y)
  | VNum _, _ => Some Lt
  | _, VNum _ => Some Gt
  | VText x, VText y => Some (String.compare x y)
  | VDate x, VDate y => Some (Date_compare x y)
  | VText x, VDate y => Some (String.compare x (iso y))
  | VDate x, VText y => Some (String.compare (iso x) y)
  end.

Definition is_param (e : Expr) : bool :=
  match e with Bound _ => true | _ => false end.

(** PostgreSQL is typed: a parameter travels as text and is read at the
    type of the other operand.  [None]: the text cannot be read at that
    type, or the operands have different types. *)
Definition pg_read_like (model v : Value) : option Value :=
  match model, v with
  | VNum _, VText s => option_map VNum (Z_of_text s)
  | VText _, VNum z => Some (VText (js_of_Z z))
  | VNum _, VNum _ | VText _, VText _ | VDate _, VDate _ => Some v
  | _, VNull | VNull, _ => Some v
  | _, _ => None
  end.

Definition same_type (a b : Value) : bool :=
  match a, b with
  | VNum _, VNum _ | VText _, VText _ | VDate _, VDate _ => true
  | VNull, _ | _, VNull => true
  | _, _ => false
  end.

(** Outer [None]: the engine reports an error.  Inner [None]: NULL. *)
Definition compare_values (dt : DbType) (ea eb : Expr) (va vb : Value)
  : option (option comparison) :=
  match dt with
  | sqlite =>
      Some (storage_compare (sqlite_convert (affinity ea) (affinity eb) va)
                            (sqlite_convert (affinity eb) (affinity ea) vb))
  | postgresql =>
      if is_param eb then option_map (storage_compare va) (pg_read_like va vb)
      else if is_param ea then option_map (fun a => storage_compare a vb) (pg_read_like vb va)
      else if same_type va vb then Some (storage_compare va vb)
      else None
  end.

Definition holds (op : CmpOp) (c : option comparison) : bool :=
  match c, op with
  | Some Eq, _ => true
  | Some Gt, GE => true
  | Some Lt, LE => true
  | _, _ => false
  end.

(** *** Expressions *)

Definition is_id (dt : DbType) (k : Value) (r : Cat.row) : bool :=
  match compare_values dt (Col "id") (Bound k) (VNum (Cat.id r)) k with
  | Some c => holds EQ c
  | None => false
  end.

(** The value of an expression on a row.  [None]: the engine reports an
    error (unknown column or function, unbound placeholder, wrong type). *)
Fixpoint eval (dt : DbType) (d : Database) (row : Obj) (e : Expr) : option Value :=
  match e with
  | Col c => field c row
  | Qm | Dollar _ => None
  | Str s => Some (VText s)
  | Int z => Some (VNum z)
  | Bound v => Some v
  | LOWER a =>
      match eval dt d row a with
      | Some (VText s) => Some (VText (sql_lower s))
      | Some VNull => Some VNull
      | _ => None
      end
  | STRFTIME f a =>
      match dt, eval dt d row a with
      | sqlite, Some (VDate x) =>
          if String.eqb f "%Y" then Some (VText (digits 4 (year x)))
          else if String.eqb f "%m" then Some (VText (digits 2 (month x)))
          else None
      | sqlite, Some VNull => Some VNull
      | _, _ => None
      end
  | EXTRACT f a =>
      match dt, eval dt d row a with
      | postgresql, Some (VDate x) =>
          if String.eqb f "YEAR" then Some (VNum (year x))
          else if String.eqb f "MONTH" then Some (VNum (month x))
          else None
      | postgresql, Some VNull => Some VNull
      | _, _ => None
      end
  | CAST_INTEGER a =>
      match eval dt d row a with
      | Some (VNum z) => Some (VNum z)
      | Some (VText s) => Some (VNum (match Z_of_text s with Some z => z | None => 0 end))
      | Some VNull => Some VNull
      | _ => None
      end
  | NOW =>
      match dt with
      | postgresql => Some (VNum (clock d))
      | sqlite => None
      end
  | SELECT_name_FROM_categories_WHERE_id a =>
      match eval dt d row a with
      | Some k =>
          match filter (is_id dt k) (categories d) with
          | r :: _ => Some (VText (Cat.name r))
          | [] => Some VNull
          end
      | None => None
      end
  end.

Definition eval_cond (dt : DbType) (d : Database) (row : Obj) (c : Cond) : option bool :=
  match c with
  | Cmp a op b =>
      match eval dt d row a, eval dt d row b with
      | Some va, Some vb => option_map (holds op) (compare_values dt a b va vb)
      | _, _ => None
      end
  | BETWEEN e lo hi =>
      match eval dt d row e, eval dt d row lo, eval dt d row hi with
      | Some v, Some vlo, Some vhi =>
          match compare_values dt e lo v vlo, compare_values dt e hi v vhi with
          | Some c1, Some c2 => Some (holds GE c1 && holds LE c2)
          | _, _ => None
          end
      | _, _, _ => None
      end
  end.

(** A WHERE clause: the conjunction of its conditions. *)
Fixpoint eval_where (dt : DbType) (d : Database) (row : Obj) (cs : list Cond) : option bool :=
  match cs with
  | [] => Some true
  | c :: r =>
      match eval_cond dt d row c, eval_where dt d row r with
      | Some b1, Some b2 => Some (b1 && b2)
      | _, _ => None
      end
  end.

(** The rows a WHERE clause keeps, in scan order. *)
Fixpoint keep {R : Type} (to_obj : R -> Obj) (dt : DbType) (d : Database)
         (cs : list Cond) (rows : list R) : option (list R) :=
  match rows with
  | [] => Some []
  | r :: rest =>
      match eval_where dt d (to_obj r) cs, keep to_obj dt d cs rest with
      | Some b, Some l => Some (if b then r :: l else l)
      | _, _ => None
      end
  end.

(** *** Aggregates, grouping, ordering, LIMIT *)

Fixpoint is_aggregate (se : SelExpr) : bool :=
  match se with
  | Scalar _ => false
  | SUM _ | COUNT_STAR => true
  | COALESCE a _ => is_aggregate a
  end.

Definition aggregates (items : list SelItem) : bool :=
  existsb (fun i => match i with Star => false | Item se _ => is_aggregate se end) items.

(** SUM: NULL when there is no non-NULL value to add.  Amounts are added
    as integers of cents; PostgreSQL adds its DECIMAL(12,2) that way, and
    SQLite, whose REAL column holds doubles, agrees on amounts that doubles
    add without rounding. *)
Fixpoint sum_values (vs : list Value) : option Value :=
  match vs with
  | [] => Some VNull
  | v :: r =>
      match v, sum_values r with
      | VNull, s => s
      | VNum z, Some VNull => Some (VNum z)
      | VNum z, Some (VNum t) => Some (VNum (z + t))
      | _, _ => None
      end
  end.

Fixpoint eval_all (dt : DbType) (d : Database) (e : Expr) (rows : list Obj)
  : option (list Value) :=
  match rows with
  | [] => Some []
  | r :: rest =>
      match eval dt d r e, eval_all dt d e rest with
      | Some v, Some l => Some (v :: l)
      | _, _ => None
      end
  end.

(** A select expression over one group of rows. *)
Fixpoint eval_sel (dt : DbType) (d : Database) (g : list Obj) (se : SelExpr)
  : option Value :=
  match se with
  | Scalar e =>
      match g with
      | r :: _ => eval dt d r e
      | [] => Some VNull
      end
  | SUM e =>
      match eval_all dt d e g with
      | Some vs => sum_values vs
      | None => None
      end
  | COUNT_STAR => Some (VNum (Z.of_nat (List.length g)))
  | COALESCE a b =>
      match eval_sel dt d g a with
      | Some VNull => eval dt d (hd [] g) b
      | r => r
      end
  end.

Fixpoint output_group (dt : DbType) (d : Database) (g : list Obj) (items : list SelItem)
  : option Obj :=
  match items with
  | [] => Some []
  | Star :: _ => None
  | Item se alias :: r =>
      match eval_sel dt d g se, output_group dt d g r with
      | Some v, Some o => Some ((alias, v) :: o)
      | _, _ => None
      end
  end.

Fixpoint output_row (dt : DbType) (d : Database) (row : Obj) (items : list SelItem)
  : option Obj :=
  match items with
  | [] => Some []
  | Star :: r => option_map (app row) (output_row dt d row r)
  | Item se alias :: r =>
      match eval_sel dt d [row] se, output_row dt d row r with
      | Some v, Some o => Some ((alias, v) :: o)
      | _, _ => None
      end
  end.

Fixpoint output_rows (dt : DbType) (d : Database) (items : list SelItem) (rows : list Obj)
  : option (list Obj) :=
  match rows with
  | [] => Some []
  | r :: rest =>
      match output_row dt d r items, output_rows dt d items rest with
      | Some o, Some l => Some (o :: l)
      | _, _ => None
      end
  end.

Definition Value_eqb (a b : Value) : bool :=
  match a, b with
  | VNull, VNull => true
  | VNum x, VNum y => x =? y
  | VText x, VText y => String.eqb x y
  | VDate x, VDate y => match Date_compare x y with Eq => true | _ => false end
  | _, _ => false
  end.

Fixpoint key_eqb (a b : list Value) : bool :=
  match a, b with
  | [], [] => true
  | x :: a', y :: b' => Value_eqb x y && key_eqb a' b'
  | _, _ => false
  end.

Fixpoint eval_key (dt : DbType) (d : Database) (row : Obj) (es : list Expr)
  : option (list Value) :=
  match es with
  | [] => Some []
  | e :: r =>
      match eval dt d row e, eval_key dt d row r with
      | Some v, Some l => Some (v :: l)
      | _, _ => None
      end
  end.

(** Groups in order of first appearance, rows of a group in scan order. *)
Fixpoint add_to_group {K A : Type} (eqb : K -> K -> bool) (k : K) (x : A)
         (gs : list (K * list A)) : list (K * list A) :=
  match gs with
  | [] => [(k, [x])]
  | (k', xs) :: t =>
      if eqb k k' then (k', (xs ++ [x])%list) :: t
      else (k', xs) :: add_to_group eqb k x t
  end.

Fixpoint group_rows (dt : DbType) (d : Database) (es : list Expr) (rows : list Obj)
         (gs : list (list Value * list Obj)) : option (list (list Value * list Obj)) :=
  match rows with
  | [] => Some gs
  | r :: rest =>
      match eval_key dt d r es with
      | Some k => group_rows dt d es rest (add_to_group key_eqb k r gs)
      | None => None
      end
  end.

Fixpoint output_groups (dt : DbType) (d : Database) (items : list SelItem)
         (gs : list (list Value * list Obj)) : option (list Obj) :=
  match gs with
  | [] => Some []
  | (_, g) :: rest =>
      match output_group dt d g items, output_groups dt d items rest with
      | Some o, Some l => Some (o :: l)
      | _, _ => None
      end
  end.

(** ORDER BY: NULL first, then numbers, then text. *)
Definition sort_compare (a b : Value) : comparison :=
  match a, b with
  | VNull, VNull => Eq
  | VNull, _ => Lt
  | _, VNull => Gt
  | _, _ => match storage_compare a b with Some c => c | None => Eq end
  end.

Definition sort_key (k : string) (o : Obj) : Value :=
  match field k o with Some v => v | None => VNull end.

Fixpoint order_compare (ks : list (string * Dir)) (a b : Obj) : comparison :=
  match ks with
  | [] => Eq
  | (k, dir) :: r =>
      match sort_compare (sort_key k a) (sort_key k b) with
      | Eq => order_compare r a b
      | c => match dir with ASC => c | DESC => CompOpp c end
      end
  end.

Definition order_leb (ks : list (string * Dir)) (a b : Obj) : bool :=
  match order_compare ks a b with Gt => false | _ => true end.

Fixpoint insert_by {A : Type} (leb : A -> A -> bool) (x : A) (l : list A) : list A :=
  match l with
  | [] => [x]
  | y :: r => if leb x y then x :: l else y :: insert_by leb x r
  end.

Fixpoint sort_by {A : Type} (leb : A -> A -> bool) (l : list A) : list A :=
  match l with
  | [] => []
  | x :: r => insert_by leb x (sort_by leb r)
  end.

(** Every ORDER BY key must name a column of the result. *)
Definition order_keys_known (ks : list (string * Dir)) (out : list Obj) : bool :=
  forallb (fun o => forallb (fun k => match field (fst k) o with Some _ => true | None => false end) ks) out.

(** LIMIT n: the first n rows.  A negative n means no limit to SQLite and
    is an error to PostgreSQL. *)
Definition apply_limit {A : Type} (dt : DbType) (n : Value) (l : list A) : option (list A) :=
  match n with
  | VNum z =>
      if 0 <=? z then Some (firstn (Z.to_nat z) l)
      else match dt with sqlite => Some l | postgresql => None end
  | _ => None
  end.

(** *** SELECT *)

Definition scan (t : string) (d : Database) : option (list Obj) :=
  if String.eqb t "transactions" then Some (map Tx.to_obj (transactions d))
  else if String.eqb t "categories" then Some (map Cat.to_obj (categories d))
  else None.

Definition bind_select (dt : DbType) (params : list Value) (s : SelectStmt)
  : option SelectStmt :=
  match bind_conds dt params (sel_where s) 0 with
  | Some (w, k1) =>
      match sel_limit s with
      | None =>
          if params_match dt params k1
          then Some (mkSelect (sel_items s) (sel_table s) w (sel_group s) (sel_order s) None)
          else None
      | Some e =>
          match bind_expr dt params e k1 with
          | Some (e', k2) =>
              if params_match dt params k2
              then Some (mkSelect (sel_items s) (sel_table s) w (sel_group s) (sel_order s) (Some e'))
              else None
          | None => None
          end
      end
  | None => None
  end.

Definition select_output (dt : DbType) (d : Database) (s : SelectStmt) (kept : list Obj)
  : option (list Obj) :=
  match sel_group s with
  | Some es =>
      match group_rows dt d es kept [] with
      | Some gs => output_groups dt d (sel_items s) gs
      | None => None
      end
  | None =>
      if aggregates (sel_items s)
      then option_map (fun o => [o]) (output_group dt d kept (sel_items s))
      else output_rows dt d (sel_items s) kept
  end.

Definition order_and_limit (dt : DbType) (d : Database) (s : SelectStmt) (out : list Obj)
  : option (list Obj) :=
  if order_keys_known (sel_order s) out then
    match sel_limit s with
    | None => Some (sort_by (order_leb (sel_order s)) out)
    | Some e =>
        match eval dt d [] e with
        | Some n => apply_limit dt n (sort_by (order_leb (sel_order s)) out)
        | None => None
        end
    end
  else None.

Definition run_select (dt : DbType) (d : Database) (s : SelectStmt) : option (list Obj) :=
  match scan (sel_table s) d with
  | Some rows =>
      match keep (fun o => o) dt d (sel_where s) rows with
      | Some kept =>
          match select_output dt d s kept with
          | Some out => order_and_limit dt d s out
          | None => None
          end
      | None => None
      end
  | None => None
  end.

(** *** INSERT, UPDATE, DELETE *)

Inductive SqlError :=
| Malformed        (* syntax error, unknown name, datatype mismatch *)
| NotNull
| Unique
| Check
| OutOfRange.      (* PostgreSQL: value too long or numeric field overflow *)

Inductive Res (A : Type) :=
| Done (a : A)
| Fail (e : SqlError).
Arguments Done {A} a.
Arguments Fail {A} e.

(** What the engine needs to know of a table. *)
Record Table (R : Type) := mkTable {
  t_obj : R -> Obj;
  t_set : string -> Value -> R -> option R;
  t_blank : Z -> Z -> R;            (* the defaults: next id, timestamps *)
  t_required : list string;
  t_check : R -> bool;
  t_fits : R -> bool;
  t_unique : list string
}.
Arguments t_obj {R} _. Arguments t_set {R} _. Arguments t_blank {R} _.
Arguments t_required {R} _. Arguments t_check {R} _. Arguments t_fits {R} _.
Arguments t_unique {R} _.

Definition transactions_table : Table Tx.row :=
  mkTable Tx.row Tx.to_obj Tx.set
          (fun i now => Tx.mk i "" 0 "" "" (mkDate 0 0 0) now now)
          Tx.required Tx.check Tx.fits ["id"].

Definition categories_table : Table Cat.row :=
  mkTable Cat.row Cat.to_obj Cat.set
          (fun i now => Cat.mk i "" "" None None None now now)
          Cat.required Cat.check Cat.fits ["id"; "name"].

Fixpoint assign {R : Type} (T : Table R) (cvs : list (string * Value)) (r : R) : option R :=
  match cvs with
  | [] => Some r
  | (c, v) :: rest =>
      match t_set T c v r with
      | Some r' => assign T rest r'
      | None => None
      end
  end.

Fixpoint eval_list (dt : DbType) (d : Database) (row : Obj) (es : list Expr)
  : option (list Value) :=
  match es with
  | [] => Some []
  | e :: r =>
      match eval dt d row e, eval_list dt d row r with
      | Some v, Some l => Some (v :: l)
      | _, _ => None
      end
  end.

(** A NOT NULL column without default is named and not bound to NULL. *)
Definition supplied (cvs : list (string * Value)) (c : string) : bool :=
  match field c cvs with
  | Some VNull | None => false
  | Some _ => true
  end.

Definition taken {R : Type} (T : Table R) (rows : list R) (r : R) (c : string) : bool :=
  existsb (fun r' => match field c (t_obj T r'), field c (t_obj T r) with
                     | Some a, Some b => Value_eqb a b
                     | _, _ => false
                     end) rows.

Definition sized {R : Type} (T : Table R) (dt : DbType) (r : R) : bool :=
  match dt with sqlite => true | postgresql => t_fits T r end.

Definition insert_row {R : Type} (T : Table R) (dt : DbType) (d : Database)
           (cols : list string) (vals : list Expr) (rows : list R) (seq : Z)
  : Res (R * list R * Z) :=
  if negb (List.length cols =? List.length vals)%nat then Fail Malformed else
  match eval_list dt d [] vals with
  | None => Fail Malformed
  | Some vs =>
      let cvs := combine cols vs in
      if negb (forallb (supplied cvs) (t_required T)) then Fail NotNull else
      match assign T cvs (t_blank T (seq + 1) (clock d)) with
      | None => Fail Malformed
      | Some r =>
          if existsb (taken T rows r) (t_unique T) then Fail Unique
          else if negb (t_check T r) then Fail Check
          else if negb (sized T dt r) then Fail OutOfRange
          else Done (r, (rows ++ [r])%list, seq + 1)
      end
  end.

Fixpoint eval_sets (dt : DbType) (d : Database) (row : Obj) (sets : list (string * Expr))
  : option (list (string * Value)) :=
  match sets with
  | [] => Some []
  | (c, e) :: r =>
      match eval dt d row e, eval_sets dt d row r with
      | Some v, Some l => Some ((c, v) :: l)
      | _, _ => None
      end
  end.

(** The BEFORE UPDATE trigger of the PostgreSQL migration:
    NEW.updated_at = NOW(). *)
Definition fire {R : Type} (T : Table R) (trig : bool) (now : Z) (r : R) : option R :=
  if trig then t_set T "updated_at" (VNum now) r else Some r.

(** One row under UPDATE: [inl r'] rewritten, [inr r] left alone. *)
Definition update_row {R : Type} (T : Table R) (dt : DbType) (d : Database)
           (sets : list (string * Expr)) (w : Cond) (trig : bool) (r : R)
  : Res (R + R) :=
  match eval_where dt d (t_obj T r) [w] with
  | None => Fail Malformed
  | Some false => Done (inr r)
  | Some true =>
      match eval_sets dt d (t_obj T r) sets with
      | None => Fail Malformed
      | Some cvs =>
          if existsb (fun cv => match snd cv with VNull => existsb (String.eqb (fst cv)) (t_required T) | _ => false end) cvs
          then Fail NotNull else
          match assign T cvs r with
          | None => Fail Malformed
          | Some r1 =>
              match fire T trig (clock d) r1 with
              | None => Fail Malformed
              | Some r2 =>
                  if negb (t_check T r2) then Fail Check
                  else if negb (sized T dt r2) then Fail OutOfRange
                  else Done (inl r2)
              end
          end
      end
  end.

(** The table after UPDATE and the rows it rewrote. *)
Fixpoint update_rows {R : Type} (T : Table R) (dt : DbType) (d : Database)
         (sets : list (string * Expr)) (w : Cond) (trig : bool) (rows : list R)
  : Res (list R * list R) :=
  match rows with
  | [] => Done ([], [])
  | r :: rest =>
      match update_row T dt d sets w trig r with
      | Fail e => Fail e
      | Done x =>
          match update_rows T dt d sets w trig rest with
          | Fail e => Fail e
          | Done (all, changed) =>
              match x with
              | inl r' => Done (r' :: all, r' :: changed)
              | inr r0 => Done (r0 :: all, changed)
              end
          end
      end
  end.

Fixpoint distinct (vs : list (option Value)) : bool :=
  match vs with
  | [] => true
  | v :: r =>
      negb (existsb (fun v' => match v, v' with
                               | Some a, Some b => Value_eqb a b
                               | _, _ => false
                               end) r) && distinct r
  end.

(** A UNIQUE column written by the UPDATE still holds distinct values. *)
Definition still_unique {R : Type} (T : Table R) (sets : list (string * Expr))
           (rows : list R) : bool :=
  forallb (fun c => negb (existsb (fun s => String.eqb (fst s) c) sets)
                    || distinct (map (fun r => field c (t_obj T r)) rows))
          (t_unique T).

(** The rows DELETE removes and the rows it leaves. *)
Fixpoint delete_rows {R : Type} (T : Table R) (dt : DbType) (d : Database)
         (w : Cond) (rows : list R) : option (list R * list R) :=
  match rows with
  | [] => Some ([], [])
  | r :: rest =>
      match eval_where dt d (t_obj T r) [w], delete_rows T dt d w rest with
      | Some b, Some (gone, rest') => Some (if b then (r :: gone, rest') else (gone, r :: rest'))
      | _, _ => None
      end
  end.

(** *** Statements *)

(** What the driver hands back: the rows of a read, or the descriptor
    [{ lastID, changes }] of a statement run by SQLite. *)
Inductive QueryResult :=
| Rows (l : list Obj)
| RunResult (lastID changes : Z).

(** SQLite's [run] reports counts; PostgreSQL returns [result.rows], which
    a write fills only through RETURNING. *)
Definition write_result (dt : DbType) (returning : bool) (rows : list Obj)
           (lastID changes : Z) : QueryResult :=
  match dt with
  | sqlite => RunResult lastID changes
  | postgresql => Rows (if returning then rows else [])
  end.

Definition set_transactions (d : Database) (rows : list Tx.row) (seq : Z) : Database :=
  mkDatabase rows seq (categories d) (categories_seq d) (triggers d) (clock d).

Definition set_categories (d : Database) (rows : list Cat.row) (seq : Z) : Database :=
  mkDatabase (transactions d) (transactions_seq d) rows seq (triggers d) (clock d).

Definition add_trigger (d : Database) (t : string) : Database :=
  mkDatabase (transactions d) (transactions_seq d) (categories d) (categories_seq d)
             (if existsb (String.eqb t) (triggers d) then triggers d else t :: triggers d)
             (clock d).

Definition has_trigger (d : Database) (t : string) : bool :=
  existsb (String.eqb t) (triggers d).

Definition run_insert {R : Type} (T : Table R) (dt : DbType) (d : Database)
           (cols : list string) (vals : list Expr) (returning : bool)
           (rows : list R) (seq : Z) (put : list R -> Z -> Database)
  : Res (QueryResult * Database) :=
  match insert_row T dt d cols vals rows seq with
  | Done (r, rows', seq') =>
      Done (write_result dt returning [t_obj T r] seq' 1, put rows' seq')
  | Fail e => Fail e
  end.

Definition run_update {R : Type} (T : Table R) (dt : DbType) (d : Database)
           (sets : list (string * Expr)) (w : Cond) (returning : bool) (trig : bool)
           (rows : list R) (put : list R -> Database)
  : Res (QueryResult * Database) :=
  match update_rows T dt d sets w trig rows with
  | Done (rows', changed) =>
      if still_unique T sets rows'
      then Done (write_result dt returning (map (t_obj T) changed) 0
                              (Z.of_nat (List.length changed)), put rows')
      else Fail Unique
  | Fail e => Fail e
  end.

Definition run_delete {R : Type} (T : Table R) (dt : DbType) (d : Database)
           (w : Cond) (returning : bool) (rows : list R) (put : list R -> Database)
  : Res (QueryResult * Database) :=
  match delete_rows T dt d w rows with
  | Some (gone, rest) =>
      Done (write_result dt returning (map (t_obj T) gone) 0
                         (Z.of_nat (List.length gone)), put rest)
  | None => Fail Malformed
  end.

Definition bind_sets (dt : DbType) (params : list Value) (sets : list (string * Expr))
           (k : nat) : option (list (string * Expr) * nat) :=
  match bind_exprs dt params (map snd sets) k with
  | Some (es, k') => Some (combine (map fst sets) es, k')
  | None => None
  end.

Definition no_params (params : list Value) : bool :=
  match params with [] => true | _ => false end.

(** One statement against the database. *)
Definition execute (dt : DbType) (d : Database) (sql : Sql) (params : list Value)
  : Res (QueryResult * Database) :=
  match sql with
  | Query cl =>
      match parse cl with
      | Some s =>
          match bind_select dt params s with
          | Some s' =>
              match run_select dt d s' with
              | Some out => Done (Rows out, d)
              | None => Fail Malformed
              end
          | None => Fail Malformed
          end
      | None => Fail Malformed
      end
  | INSERT_INTO t cols vals returning =>
      match bind_exprs dt params vals 0 with
      | Some (vals', k) =>
          if negb (params_match dt params k) then Fail Malformed
          else if String.eqb t "transactions" then
            run_insert transactions_table dt d cols vals' returning
                       (transactions d) (transactions_seq d) (set_transactions d)
          else if String.eqb t "categories" then
            run_insert categories_table dt d cols vals' returning
                       (categories d) (categories_seq d) (set_categories d)
          else Fail Malformed
      | None => Fail Malformed
      end
  | UPDATE t sets w returning =>
      match bind_sets dt params sets 0 with
      | Some (sets', k1) =>
          match bind_cond dt params w k1 with
          | Some (w', k2) =>
              if negb (params_match dt params k2) then Fail Malformed
              else if String.eqb t "transactions" then
                run_update transactions_table dt d sets' w' returning (has_trigger d t)
                           (transactions d) (fun rows => set_transactions d rows (transactions_seq d))
              else if String.eqb t "categories" then
                run_update categories_table dt d sets' w' returning (has_trigger d t)
                           (categories d) (fun rows => set_categories d rows (categories_seq d))
              else Fail Malformed
          | None => Fail Malformed
          end
      | None => Fail Malformed
      end
  | DELETE_FROM t w returning =>
      match bind_cond dt params w 0 with
      | Some (w', k) =>
          if negb (params_match dt params k) then Fail Malformed
          else if String.eqb t "transactions" then
            run_delete transactions_table dt d w' returning
                       (transactions d) (fun rows => set_transactions d rows (transactions_seq d))
          else if String.eqb t "categories" then
            run_delete categories_table dt d w' returning
                       (categories d) (fun rows => set_categories d rows (categories_seq d))
          else Fail Malformed
      | None => Fail Malformed
      end
  | CREATE_TABLE_IF_NOT_EXISTS _ | CREATE_INDEX_IF_NOT_EXISTS _ =>
      if no_params params then Done (write_result dt false [] 0 0, d) else Fail Malformed
  | CREATE_FUNCTION_update_updated_at_column =>
      match dt with
      | postgresql => if no_params params then Done (Rows [], d) else Fail Malformed
      | sqlite => Fail Malformed
      end
  | CREATE_TRIGGER_update_updated_at t =>
      match dt with
      | postgresql => if no_params params then Done (Rows [], add_trigger d t) else Fail Malformed
      | sqlite => Fail Malformed
      end
  end.

(** ** database.js: the DatabaseManager singleton *)

(** The driver object held in [this.connection]: a [sqlite3.Database] or a
    [pg.Pool], open or closed. *)
Record Connection := mkConnection { closed : bool }.

Record DatabaseManager := mkManager {
  dbType : DbType;
  connection : option Connection;
  isConnected : bool
}.

Record World := mkWorld {
  dbManager : DatabaseManager;
  database : Database
}.

(** An asynchronous function: it settles with a value or a rejection and
    leaves a world behind. *)
Definition M (A : Type) := World -> Outcome A * World.

Definition ret {A : Type} (a : A) : M A := fun w => (Ok a, w).

Definition throw {A : Type} (e : JsError) : M A := fun w => (Throw e, w).

Definition bind {A B : Type} (m : M A) (f : A -> M B) : M B :=
  fun w => match m w with
           | (Ok a, w') => f a w'
           | (Throw e, w') => (Throw e, w')
           end.

(** [try { m } catch (error) { h error }] *)
Definition try_catch {A : Type} (m : M A) (h : JsError -> M A) : M A :=
  fun w => match m w with
           | (Ok a, w') => (Ok a, w')
           | (Throw e, w') => h e w'
           end.

(** [constructor()]: [dbType] is DATABASE_TYPE, SQLite unless it reads
    'postgresql'. *)
Definition new_DatabaseManager (DATABASE_TYPE : DbType) : DatabaseManager :=
  mkManager DATABASE_TYPE None false.

(** [connect()], the database taken to be reachable: a fresh driver object
    replaces [this.connection]. *)
Definition connect : M unit := fun w =>
  (Ok tt, mkWorld (mkManager (dbType (dbManager w)) (Some (mkConnection false)) true)
                  (database w)).

Definition getDatabaseType (w : World) : DbType := dbType (dbManager w).

Definition isConnectionActive (w : World) : bool := isConnected (dbManager w).

(** The error object a driver builds for an engine failure. *)
Definition driver_error (dt : DbType) (e : SqlError) : JsError :=
  match dt, e with
  | sqlite, Malformed => DriverError "SQLITE_ERROR" "SQLITE_ERROR"
  | sqlite, OutOfRange => DriverError "SQLITE_TOOBIG" "SQLITE_TOOBIG"
  | sqlite, _ => DriverError "SQLITE_CONSTRAINT" "SQLITE_CONSTRAINT"
  | postgresql, Malformed => DriverError "42601" "syntax error"
  | postgresql, NotNull => DriverError "23502" "not-null violation"
  | postgresql, Unique => DriverError "23505" "unique violation"
  | postgresql, Check => DriverError "23514" "check violation"
  | postgresql, OutOfRange => DriverError "22003" "numeric value out of range"
  end.

Definition closed_error (dt : DbType) : JsError :=
  match dt with
  | sqlite => DriverError "SQLITE_MISUSE" "SQLITE_MISUSE: Database is closed"
  | postgresql => Error "Cannot use a pool after calling end on the pool"
  end.

(** [query(query, params)] *)
Definition query (sql : Sql) (params : list Value) : M QueryResult := fun w =>
  if negb (isConnected (dbManager w)) then (Throw (Error "Base de datos no conectada"), w)
  else
    match connection (dbManager w) with
    | None => (Throw (mkError "TypeError" "Cannot read properties of null" None), w)
    | Some c =>
        if closed c then (Throw (closed_error (getDatabaseType w)), w)
        else
          match execute (getDatabaseType w) (database w) sql params with
          | Done (r, d') => (Ok r, mkWorld (dbManager w) d')
          | Fail e => (Throw (driver_error (getDatabaseType w) e), w)
          end
    end.

(** [close()].  The PostgreSQL branch awaits [pool.end()], which rejects
    when the pool was ended before, and then clears [isConnected].  The
    SQLite branch returns the promise of [connection.close(cb)]: an error
    of the driver is logged by the callback, the promise resolves, and the
    assignment below the branch is not reached.  [this.connection] keeps
    the driver object in both. *)
Definition close : M unit := fun w =>
  let m := dbManager w in
  match connection m with
  | Some c =>
      match dbType m with
      | postgresql =>
          if closed c then (Throw (Error "Called end on pool more than once"), w)
          else (Ok tt, mkWorld (mkManager (dbType m) (Some (mkConnection true)) false)
                               (database w))
      | sqlite =>
          (Ok tt, mkWorld (mkManager (dbType m) (Some (mkConnection true)) (isConnected m))
                          (database w))
      end
  | None => (Ok tt, w)
  end.

End Engine.

Arguments Done {A} a.
Arguments Fail {A} e.
Arguments t_obj {R} _.
Arguments t_set {R} _.
Arguments t_blank {R} _.
Arguments t_required {R} _.
Arguments t_check {R} _.
Arguments t_fits {R} _.
Arguments t_unique {R} _.

Notation "x <- m ;; k" := (bind m (fun x => k))
  (at level 61, m at next level, right associativity).

(** ** JavaScript on query results *)

(** [result.length > 0]: [undefined > 0] is false. *)
Definition length_gt_0 (r : QueryResult) : bool :=
  match r with
  | Rows l => (0 <? List.length l)%nat
  | RunResult _ _ => false
  end.

(** [result.changes > 0] and [result.changes === 0]. *)
Definition changes_gt_0 (r : QueryResult) : bool :=
  match r with
  | RunResult _ c => 0 <? c
  | Rows _ => false
  end.

Definition changes_is_0 (r : QueryResult) : bool :=
  match r with
  | RunResult _ c => c =? 0
  | Rows _ => false
  end.

(** [result[0]], [undefined] as [None]. *)
Definition index_0 (r : QueryResult) : option Obj :=
  match r with
  | Rows (o :: _) => Some o
  | _ => None
  end.

(** [result.lastID], [undefined] bound as NULL. *)
Definition lastID (r : QueryResult) : Value :=
  match r with
  | RunResult i _ => VNum i
  | Rows _ => VNull
  end.

(** [result || []] followed by [.map]: the rows of a read. *)
Definition rows_or_empty (r : QueryResult) : list Obj :=
  match r with
  | Rows l => l
  | RunResult _ _ => []
  end.

(** A JavaScript number. *)
Inductive Number := Num (z : Z) | NaN.

Definition parseFloat (v : option Value) : Number :=
  match v with
  | Some (VNum z) => Num z
  | Some (VText s) => match Z_of_text s with Some z => Num z | None => NaN end
  | _ => NaN
  end.

Definition parseInt (v : option Value) : Number := parseFloat v.

(** [v || 0] *)
Definition or_0 (v : option Value) : option Value :=
  match v with
  | None | Some VNull | Some (VNum 0) | Some (VText "") => Some (VNum 0)
  | _ => v
  end.

(** [a - b], in cents; JavaScript subtracts doubles, which agrees on whole
    amounts. *)
Definition minus (a b : Number) : Number :=
  match a, b with
  | Num x, Num y => Num (x - y)
  | _, _ => NaN
  end.

(** White space as [parseInt] skips it, in UTF-8: TAB, LF, VT, FF, CR and
    SP; U+00A0; U+1680; U+2000 to U+200A, U+2028, U+2029, U+202F; U+205F;
    U+3000; U+FEFF. *)
Fixpoint trim_start (s : string) : string :=
  match s with
  | String c r =>
      let n := nat_of_ascii c in
      if ((9 <=? n) && (n <=? 13) || (n =? 32))%nat then trim_start r
      else
        match r with
        | String c1 r1 =>
            let n1 := nat_of_ascii c1 in
            if ((n =? 194) && (n1 =? 160))%nat then trim_start r1
            else
              match r1 with
              | String c2 r2 =>
                  let n2 := nat_of_ascii c2 in
                  if ((n =? 225) && (n1 =? 154) && (n2 =? 128)
                      || (n =? 226) && (n1 =? 128)
                         && ((128 <=? n2) && (n2 <=? 138) || (n2 =? 168) || (n2 =? 169)
                             || (n2 =? 175))
                      || (n =? 226) && (n1 =? 129) && (n2 =? 159)
                      || (n =? 227) && (n1 =? 128) && (n2 =? 128)
                      || (n =? 239) && (n1 =? 187) && (n2 =? 191))%nat
                  then trim_start r2
                  else s
              | EmptyString => s
              end
        | EmptyString => s
        end
  | EmptyString => s
  end.

(** The value of a digit: 0-9, then a-z or A-Z for 10 to 35. *)
Definition digit_value (c : ascii) : option Z :=
  let n := nat_of_ascii c in
  if ((48 <=? n) && (n <=? 57))%nat then Some (Z.of_nat n - 48)
  else if ((97 <=? n) && (n <=? 122))%nat then Some (Z.of_nat n - 87)
  else if ((65 <=? n) && (n <=? 90))%nat then Some (Z.of_nat n - 55)
  else None.

(** The digits of the radix at the head of the text, read as a number;
    [acc] is what was read so far, [None] before the first digit. *)
Fixpoint read_digits (radix : Z) (acc : option Z) (s : string) : option Z :=
  match s with
  | String c r =>
      match digit_value c with
      | Some v =>
          if v <? radix
          then read_digits radix (Some (match acc with Some a => a * radix + v | None => v end)) r
          else acc
      | None => acc
      end
  | EmptyString => acc
  end.

(** [parseInt(string)], no radix given: white space is skipped, a sign is
    read, [0x] announces hexadecimal digits, and digits are read up to the
    first character that is not one; [NaN] when there is none.  The
    integer is the exact one; JavaScript rounds it beyond 2^53. *)
Definition parseInt_text (s : string) : Number :=
  let s1 := trim_start s in
  let (negative, s2) :=
    match s1 with
    | String "-" r => (true, r)
    | String "+" r => (false, r)
    | _ => (false, s1)
    end in
  let (radix, s3) :=
    match s2 with
    | String "0" (String "x" r) | String "0" (String "X" r) => (16, r)
    | _ => (10, s2)
    end in
  match read_digits radix None s3 with
  | Some z => Num (if negative then - z else z)
  | None => NaN
  end.

(** [parseInt(id)] of a route parameter or a number. *)
Definition parseInt_value (v : Value) : Number :=
  match v with
  | VNum z => Num z
  | VText s => parseInt_text s
  | VNull | VDate _ => NaN
  end.

(** [v !== n] for a column value and a number: strict inequality holds
    between values of different types and against [NaN]. *)
Definition strictly_differs (v : option Value) (n : Number) : bool :=
  match v, n with
  | Some (VNum a), Num b => negb (a =? b)
  | _, _ => true
  end.

(** A parameter the caller may leave [undefined]. *)
Definition js_text (o : option string) : Value :=
  match o with Some s => VText s | None => VNull end.

Definition js_num (o : option Z) : Value :=
  match o with Some z => VNum z | None => VNull end.

Definition js_date (o : option Date) : Value :=
  match o with Some d => VDate d | None => VNull end.

(** The placeholder a call site writes for the parameter numbered
    [paramIndex]: [$paramIndex] to PostgreSQL, [?] to SQLite. *)
Definition placeholder (dt : DbType) (paramIndex : nat) : Expr :=
  match dt with
  | postgresql => Dollar paramIndex
  | sqlite => Qm
  end.

Definition dquote : string := String (ascii_of_nat 34) EmptyString.

Definition quoted (s : string) : string := dquote ++ s ++ dquote.

(** Joi's ISO date: month 01-12, day 01-31, four-digit year. *)
Definition iso_date (d : Date) : bool :=
  (0 <=? year d) && (year d <=? 9999) && (1 <=? month d) && (month d <=? 12)
  && (1 <=? day d) && (day d <=? 31).

(** Number.MAX_SAFE_INTEGER, in cents. *)
Definition MAX_SAFE_CENTS : Z := (2 ^ 53 - 1) * 100.

(** ** Candidates, filters and results of the models *)

Module TxData.
(** The body of POST /api/transactions; an absent property is [None]. *)
Record t := mk {
  type : option string;
  amount : option Z;
  description : option string;
  category : option string;
  date : option Date
}.
End TxData.

Module CatData.
Record t := mk {
  name : option string;
  type : option string;
  description : option string;
  color : option string;
  icon : option string
}.
End CatData.

Module Filters.
(** [filters] of [Transaction.getAll] and [Transaction.getStatistics]. *)
Record t := mk {
  type : option string;
  category : option string;
  startDate : option Date;
  endDate : option Date;
  limit : option Z
}.
End Filters.

(** [{ category, total }] *)
Record CategoryTotal := mkCategoryTotal {
  ct_category : option Value;
  ct_total : Number
}.

Record Statistics := mkStatistics {
  totalIncome : Number;
  totalExpenses : Number;
  balance : Number;
  expensesByCategory : list CategoryTotal;
  incomeByCategory : list CategoryTotal
}.

(** [{ month, type, total }] *)
Record MonthlyEntry := mkMonthlyEntry {
  me_month : Number;
  me_type : option Value;
  me_total : Number
}.

(** Truthiness of a filter: [undefined] and the empty string are falsy, and
    so is the number 0. *)
Definition truthy_text (o : option string) : option Value :=
  match o with
  | Some "" | None => None
  | Some s => Some (VText s)
  end.

Definition truthy_date (o : option Date) : option Value :=
  option_map VDate o.

Definition truthy_num (o : option Z) : option Value :=
  match o with
  | Some 0 | None => None
  | Some z => Some (VNum z)
  end.

(** ** Joi schemas *)

(** One rule of a schema: the message it reports when it fails. *)
Definition rule (ok : bool) (msg : string) : list string :=
  if ok then [] else [msg].

Definition string_rules (label : string) (o : option string) (max : nat)
           (required too_long : string) : list string :=
  match o with
  | None => [required]
  | Some "" => [quoted label ++ " is not allowed to be empty"]
  | Some s => rule (js_length s <=? max)%nat too_long
  end.

Definition optional_string_rules (label : string) (o : option string) (max : nat)
           (too_long : string) : list string :=
  match o with
  | None => []
  | Some "" => [quoted label ++ " is not allowed to be empty"]
  | Some s => rule (js_length s <=? max)%nat too_long
  end.

Definition type_rules (o : option string) : list string :=
  match o with
  | None => ["El tipo es requerido"]
  | Some s =>
      rule (String.eqb s "income" || String.eqb s "expense")
           ("El tipo debe ser " ++ quoted "income" ++ " o " ++ quoted "expense")
  end.

Definition amount_rules (o : option Z) : list string :=
  match o with
  | None => ["El monto es requerido"]
  | Some z =>
      if MAX_SAFE_CENTS <? Z.abs z then [quoted "amount" ++ " must be a safe number"]
      else rule (0 <? z) "El monto debe ser mayor a 0"
  end.

Definition date_rules (o : option Date) : list string :=
  match o with
  | None => ["La fecha es requerida"]
  | Some d => rule (iso_date d) "La fecha debe estar en formato ISO (YYYY-MM-DD)"
  end.

(** [transactionSchema.validate(data, { abortEarly: false })]: the messages
    of [error.details] (none: no error); [value] is the candidate. *)
Definition transactionSchema (data : TxData.t) : list string :=
  (type_rules (TxData.type data)
   ++ amount_rules (TxData.amount data)
   ++ string_rules "description" (TxData.description data) 255
        "La descripción es requerida" "La descripción no puede exceder 255 caracteres"
   ++ string_rules "category" (TxData.category data) 100
        "La categoría es requerida" "La categoría no puede exceder 100 caracteres"
   ++ date_rules (TxData.date data))%list.

Definition hex_digit (c : ascii) : bool :=
  let n := nat_of_ascii c in
  ((48 <=? n) && (n <=? 57) || (65 <=? n) && (n <=? 70) || (97 <=? n) && (n <=? 102))%nat.

Fixpoint all_chars (p : ascii -> bool) (s : string) : bool :=
  match s with
  | EmptyString => true
  | String c r => p c && all_chars p r
  end.

(** [/^#[0-9A-F]{6}$/i] *)
Definition color_pattern (s : string) : bool :=
  match s with
  | String "#" r => (String.length r =? 6)%nat && all_chars hex_digit r
  | _ => false
  end.

Definition color_rules (o : option string) : list string :=
  match o with
  | None => []
  | Some "" => [quoted "color" ++ " is not allowed to be empty"]
  | Some s => rule (color_pattern s)
                   "El color debe ser un código hexadecimal válido (ej: #FF0000)"
  end.

Definition categorySchema (data : CatData.t) : list string :=
  (string_rules "name" (CatData.name data) 100
     "El nombre de la categoría es requerido"
     "El nombre de la categoría no puede exceder 100 caracteres"
   ++ type_rules (CatData.type data)
   ++ optional_string_rules "description" (CatData.description data) 255
        "La descripción no puede exceder 255 caracteres"
   ++ color_rules (CatData.color data)
   ++ optional_string_rules "icon" (CatData.icon data) 50
        "El icono no puede exceder 50 caracteres")%list.

(** [error.details.map(detail => detail.message).join(', ')] *)
Definition join_messages (details : list string) : string :=
  String.concat ", " details.

(** [result.length === 0] *)
Definition length_is_0 (r : QueryResult) : bool :=
  match r with
  | Rows l => (List.length l =? 0)%nat
  | RunResult _ _ => false
  end.

Definition ValidationError (msg : string) : JsError := mkError "ValidationError" msg None.

(** ** models/Transaction.js *)

Module Transaction.
Section Model.
Context `{SqlFunctions}.

(** [Transaction.validate(data)]: the messages of [error.details] and
    [value].  [value] carries the candidate's type, amount, description and
    category as they are.  Its [date] is the [Date] object Joi makes of the
    candidate's text; the model keeps the calendar date in its place.  What
    the drivers write into the [date] column for that object (node-sqlite3
    the text of its milliseconds, pg the day in the time zone of the
    process) is not a value of the typed column, so the statements on
    [create] and [update] leave the [date] column open. *)
Definition validate (data : TxData.t) : list string * TxData.t :=
  (transactionSchema data, data).

(** The query string, the parameter array and [paramIndex] while
    [getAll] builds them. *)
Record Builder := mkBuilder {
  b_query : list Clause;
  b_params : list Value;
  b_paramIndex : nat
}.

(** [if (filters.x) { query += ' AND col op ?'; params.push(filters.x);
    paramIndex++; }], the placeholder chosen by the backend. *)
Definition and_filter (dt : DbType) (col : string) (op : CmpOp) (x : option Value)
           (b : Builder) : Builder :=
  match x with
  | Some v =>
      mkBuilder (b_query b ++ [AND (Cmp (Col col) op (placeholder dt (b_paramIndex b)))])%list
                (b_params b ++ [v])%list
                (S (b_paramIndex b))
  | None => b
  end.

(** [if (filters.limit) { query += ' LIMIT ?'; params.push(filters.limit);
    paramIndex++; }] *)
Definition limit_filter (dt : DbType) (x : option Value) (b : Builder) : Builder :=
  match x with
  | Some v =>
      mkBuilder (b_query b ++ [LIMIT (placeholder dt (b_paramIndex b))])%list
                (b_params b ++ [v])%list
                (S (b_paramIndex b))
  | None => b
  end.

Definition order_by (ks : list (string * Dir)) (b : Builder) : Builder :=
  mkBuilder (b_query b ++ [ORDER_BY ks])%list (b_params b) (b_paramIndex b).

Definition getAll_query (dt : DbType) (filters : Filters.t) : Builder :=
  let b0 := mkBuilder [SELECT [Star]; FROM "transactions"; WHERE (Cmp (Int 1) EQ (Int 1))] [] 1 in
  let b1 := and_filter dt "type" EQ (truthy_text (Filters.type filters)) b0 in
  let b2 := and_filter dt "category" EQ (truthy_text (Filters.category filters)) b1 in
  let b3 := and_filter dt "date" GE (truthy_date (Filters.startDate filters)) b2 in
  let b4 := and_filter dt "date" LE (truthy_date (Filters.endDate filters)) b3 in
  let b5 := order_by [("date", DESC); ("created_at", DESC)] b4 in
  limit_filter dt (truthy_num (Filters.limit filters)) b5.

(** [Transaction.getAll(filters)] *)
Definition getAll (filters : Filters.t) : M QueryResult :=
  try_catch
    (fun w =>
       let b := getAll_query (getDatabaseType w) filters in
       (transactions <- query (Query (b_query b)) (b_params b) ;;
        ret transactions) w)
    (fun error => throw (Error "Error al obtener las transacciones")).

Definition by_id (dt : DbType) (t : string) : list Clause :=
  [SELECT [Star]; FROM t; WHERE (Cmp (Col "id") EQ (placeholder dt 1))].

(** [Transaction.getById(id)]: the row, or [null] as [None]. *)
Definition getById (id : Value) : M (option Obj) :=
  try_catch
    (fun w =>
       (transactions <- query (Query (by_id (getDatabaseType w) "transactions")) [id] ;;
        ret (if length_gt_0 transactions then index_0 transactions else None)) w)
    (fun error => throw (Error "Error al obtener la transacción")).

(** [const { type, amount, description, category, date } = value] as the
    parameter array. *)
Definition transaction_params (value : TxData.t) : list Value :=
  [js_text (TxData.type value); js_num (TxData.amount value);
   js_text (TxData.description value); js_text (TxData.category value);
   js_date (TxData.date value)].

Definition transaction_columns : list string :=
  ["type"; "amount"; "description"; "category"; "date"].

Definition insert_transaction (dt : DbType) : Sql :=
  match dt with
  | postgresql =>
      INSERT_INTO "transactions" (transaction_columns ++ ["created_at"])%list
                  [Dollar 1; Dollar 2; Dollar 3; Dollar 4; Dollar 5; NOW] true
  | sqlite =>
      INSERT_INTO "transactions" transaction_columns [Qm; Qm; Qm; Qm; Qm] false
  end.

(** [Transaction.create(data)] *)
Definition create (data : TxData.t) : M (option Obj) :=
  let (details, value) := validate data in
  match details with
  | _ :: _ => throw (ValidationError (join_messages details))
  | [] =>
      try_catch
        (fun w =>
           match getDatabaseType w with
           | postgresql =>
               (result <- query (insert_transaction postgresql) (transaction_params value) ;;
                ret (index_0 result)) w
           | sqlite =>
               (result <- query (insert_transaction sqlite) (transaction_params value) ;;
                getById (lastID result)) w
           end)
        (fun error => throw (Error "Error al crear la transacción"))
  end.

Definition update_transaction (dt : DbType) : Sql :=
  match dt with
  | postgresql =>
      UPDATE "transactions"
             [("type", Dollar 1); ("amount", Dollar 2); ("description", Dollar 3);
              ("category", Dollar 4); ("date", Dollar 5); ("updated_at", NOW)]
             (Cmp (Col "id") EQ (Dollar 6)) true
  | sqlite =>
      UPDATE "transactions"
             [("type", Qm); ("amount", Qm); ("description", Qm);
              ("category", Qm); ("date", Qm)]
             (Cmp (Col "id") EQ Qm) false
  end.

(** [Transaction.update(id, data)] *)
Definition update (id : Value) (data : TxData.t) : M (option Obj) :=
  let (details, value) := validate data in
  match details with
  | _ :: _ => throw (ValidationError (join_messages details))
  | [] =>
      try_catch
        (fun w =>
           match getDatabaseType w with
           | postgresql =>
               (result <- query (update_transaction postgresql)
                                (transaction_params value ++ [id])%list ;;
                if length_is_0 result
                then throw (Error "Transacción no encontrada")
                else ret (index_0 result)) w
           | sqlite =>
               (result <- query (update_transaction sqlite)
                                (transaction_params value ++ [id])%list ;;
                if changes_is_0 result
                then throw (Error "Transacción no encontrada")
                else getById id) w
           end)
        (fun error => throw error)
  end.

Definition delete_by_id (dt : DbType) (t : string) (returning : bool) : Sql :=
  DELETE_FROM t (Cmp (Col "id") EQ (placeholder dt 1)) returning.

(** [Transaction.delete(id)] *)
Definition delete (id : Value) : M bool :=
  try_catch
    (fun w =>
       match getDatabaseType w with
       | postgresql =>
           (result <- query (delete_by_id postgresql "transactions" true) [id] ;;
            ret (length_gt_0 result)) w
       | sqlite =>
           (result <- query (delete_by_id sqlite "transactions" false) [id] ;;
            ret (changes_gt_0 result)) w
       end)
    (fun error => throw (Error "Error al eliminar la transacción")).

(** [dateFilter]: empty unless both dates are given; then the text
    [' WHERE date BETWEEN ? AND ?'] and the two parameters. *)
Definition dateFilter (dt : DbType) (filters : Filters.t) : list Clause * list Value :=
  match truthy_date (Filters.startDate filters), truthy_date (Filters.endDate filters) with
  | Some startDate, Some endDate =>
      let paramIndex := 1%nat in
      match dt with
      | postgresql =>
          ([WHERE (BETWEEN (Col "date") (Dollar paramIndex) (Dollar (paramIndex + 1)))],
           [startDate; endDate])
      | sqlite =>
          ([WHERE (BETWEEN (Col "date") Qm Qm)], [startDate; endDate])
      end
  | _, _ => ([], [])
  end.

(** The four query strings of [getStatistics]; [${dateFilter}] is spliced
    in after the WHERE clause on [type]. *)
Definition total_query (alias kind : string) (dateFilter : list Clause) : Sql :=
  Query ([SELECT [Item (COALESCE (SUM (Col "amount")) (Int 0)) alias];
          FROM "transactions";
          WHERE (Cmp (Col "type") EQ (Str kind))] ++ dateFilter)%list.

Definition by_category_query (kind : string) (dateFilter : list Clause) : Sql :=
  Query ([SELECT [Item (Scalar (Col "category")) "category";
                  Item (SUM (Col "amount")) "total"];
          FROM "transactions";
          WHERE (Cmp (Col "type") EQ (Str kind))] ++ dateFilter
         ++ [GROUP_BY [Col "category"]; ORDER_BY [("total", DESC)]])%list.

Definition statistics_queries (dateFilter : list Clause) : list Sql :=
  [total_query "total_income" "income" dateFilter;
   total_query "total_expenses" "expense" dateFilter;
   by_category_query "expense" dateFilter;
   by_category_query "income" dateFilter].

(** [Promise.all(queries.map(query => dbManager.query(query, params)))] *)
Fixpoint query_all (queries : list Sql) (params : list Value) : M (list QueryResult) :=
  match queries with
  | [] => ret []
  | q :: rest =>
      r <- query q params ;;
      rs <- query_all rest params ;;
      ret (r :: rs)
  end.

(** [results[i]], [undefined] as [None]. *)
Definition result (results : list QueryResult) (i : nat) : option QueryResult :=
  nth_error results i.

(** [results[i][0]?.col] *)
Definition first_row_field (r : option QueryResult) (col : string) : option Value :=
  match r with
  | Some q => match index_0 q with Some o => field col o | None => None end
  | None => None
  end.

(** [item => ({ category: item.category, total: parseFloat(item.total) })] *)
Definition category_total (item : Obj) : CategoryTotal :=
  mkCategoryTotal (field "category" item) (parseFloat (field "total" item)).

Definition breakdown (r : option QueryResult) : list CategoryTotal :=
  match r with
  | Some q => map category_total (rows_or_empty q)
  | None => []
  end.

(** [Transaction.getStatistics(filters)] *)
Definition getStatistics (filters : Filters.t) : M Statistics :=
  try_catch
    (fun w =>
       let (dateFilter, params) := dateFilter (getDatabaseType w) filters in
       (results <- query_all (statistics_queries dateFilter) params ;;
        let totalIncome := parseFloat (or_0 (first_row_field (result results 0) "total_income")) in
        let totalExpenses := parseFloat (or_0 (first_row_field (result results 1) "total_expenses")) in
        ret (mkStatistics totalIncome totalExpenses (minus totalIncome totalExpenses)
                          (breakdown (result results 2))
                          (breakdown (result results 3)))) w)
    (fun error => throw (Error "Error al obtener las estadísticas")).

Definition monthly_query (dt : DbType) : Sql :=
  match dt with
  | postgresql =>
      Query [SELECT [Item (Scalar (EXTRACT "MONTH" (Col "date"))) "month";
                     Item (Scalar (Col "type")) "type";
                     Item (SUM (Col "amount")) "total"];
             FROM "transactions";
             WHERE (Cmp (EXTRACT "YEAR" (Col "date")) EQ (Dollar 1));
             GROUP_BY [EXTRACT "MONTH" (Col "date"); Col "type"];
             ORDER_BY [("month", ASC); ("type", ASC)]]
  | sqlite =>
      Query [SELECT [Item (Scalar (CAST_INTEGER (STRFTIME "%m" (Col "date")))) "month";
                     Item (Scalar (Col "type")) "type";
                     Item (SUM (Col "amount")) "total"];
             FROM "transactions";
             WHERE (Cmp (STRFTIME "%Y" (Col "date")) EQ Qm);
             GROUP_BY [STRFTIME "%m" (Col "date"); Col "type"];
             ORDER_BY [("month", ASC); ("type", ASC)]]
  end.

(** [item => ({ month: parseInt(item.month), type: item.type,
    total: parseFloat(item.total) })] *)
Definition monthly_entry (item : Obj) : MonthlyEntry :=
  mkMonthlyEntry (parseInt (field "month" item)) (field "type" item)
                 (parseFloat (field "total" item)).

(** [Transaction.getMonthlyData(year)], [year] a number. *)
Definition getMonthlyData (year : Z) : M (list MonthlyEntry) :=
  try_catch
    (fun w =>
       let params := [VNum year] in
       (results <- query (monthly_query (getDatabaseType w)) params ;;
        ret (map monthly_entry (rows_or_empty results))) w)
    (fun error => throw (Error "Error al obtener los datos mensuales")).

End Model.
End Transaction.

(** ** models/Category.js *)

Module Category.
Section Model.
Context `{SqlFunctions}.

(** [Category.validate(data)] *)
Definition validate (data : CatData.t) : list string * CatData.t :=
  (categorySchema data, data).

(** The query string and the parameter array of [Category.getAll]:
    [filters.type] is the one filter it reads. *)
Definition getAll_query (dt : DbType) (type : option string) : Transaction.Builder :=
  let b0 := Transaction.mkBuilder
              [SELECT [Star]; FROM "categories"; WHERE (Cmp (Int 1) EQ (Int 1))] [] 1 in
  let b1 := Transaction.and_filter dt "type" EQ (truthy_text type) b0 in
  Transaction.order_by [("name", ASC)] b1.

(** [Category.getAll(filters)], [type] standing for [filters.type]. *)
Definition getAll (type : option string) : M QueryResult :=
  try_catch
    (fun w =>
       let b := getAll_query (getDatabaseType w) type in
       (categories <- query (Query (Transaction.b_query b)) (Transaction.b_params b) ;;
        ret categories) w)
    (fun error => throw (Error "Error al obtener las categorías")).

(** [Category.getById(id)] *)
Definition getById (id : Value) : M (option Obj) :=
  try_catch
    (fun w =>
       (categories <- query (Query (Transaction.by_id (getDatabaseType w) "categories")) [id] ;;
        ret (if length_gt_0 categories then index_0 categories else None)) w)
    (fun error => throw (Error "Error al obtener la categoría")).

Definition by_name (dt : DbType) : list Clause :=
  [SELECT [Star]; FROM "categories";
   WHERE (Cmp (LOWER (Col "name")) EQ (LOWER (placeholder dt 1)))].

(** [Category.getByName(name)] *)
Definition getByName (name : Value) : M (option Obj) :=
  try_catch
    (fun w =>
       (categories <- query (Query (by_name (getDatabaseType w))) [name] ;;
        ret (if length_gt_0 categories then index_0 categories else None)) w)
    (fun error => throw (Error "Error al obtener la categoría")).

Definition category_params (value : CatData.t) : list Value :=
  [js_text (CatData.name value); js_text (CatData.type value);
   js_text (CatData.description value); js_text (CatData.color value);
   js_text (CatData.icon value)].

Definition category_columns : list string :=
  ["name"; "type"; "description"; "color"; "icon"].

Definition insert_category (dt : DbType) : Sql :=
  match dt with
  | postgresql =>
      INSERT_INTO "categories" (category_columns ++ ["created_at"])%list
                  [Dollar 1; Dollar 2; Dollar 3; Dollar 4; Dollar 5; NOW] true
  | sqlite =>
      INSERT_INTO "categories" category_columns [Qm; Qm; Qm; Qm; Qm] false
  end.

(** [Category.create(data)].  A validation failure is thrown as a plain
    [Error]; the catch block rethrows what it caught. *)
Definition create (data : CatData.t) : M (option Obj) :=
  let (details, value) := validate data in
  match details with
  | _ :: _ => throw (Error (join_messages details))
  | [] =>
      try_catch
        (existingCategory <- getByName (js_text (CatData.name value)) ;;
         match existingCategory with
         | Some _ => throw (Error "Ya existe una categoría con ese nombre")
         | None =>
             fun w =>
               match getDatabaseType w with
               | postgresql =>
                   (result <- query (insert_category postgresql) (category_params value) ;;
                    ret (index_0 result)) w
               | sqlite =>
                   (result <- query (insert_category sqlite) (category_params value) ;;
                    getById (lastID result)) w
               end
         end)
        (fun error => throw error)
  end.

Definition update_category (dt : DbType) : Sql :=
  match dt with
  | postgresql =>
      UPDATE "categories"
             [("name", Dollar 1); ("type", Dollar 2); ("description", Dollar 3);
              ("color", Dollar 4); ("icon", Dollar 5); ("updated_at", NOW)]
             (Cmp (Col "id") EQ (Dollar 6)) true
  | sqlite =>
      UPDATE "categories"
             [("name", Qm); ("type", Qm); ("description", Qm);
              ("color", Qm); ("icon", Qm)]
             (Cmp (Col "id") EQ Qm) false
  end.

(** [existingCategory && existingCategory.id !== parseInt(id)] *)
Definition held_by_another (existingCategory : option Obj) (id : Value) : bool :=
  match existingCategory with
  | Some row => strictly_differs (field "id" row) (parseInt_value id)
  | None => false
  end.

(** [Category.update(id, data)].  As in [create], a validation failure is
    a plain [Error] and the catch block rethrows. *)
Definition update (id : Value) (data : CatData.t) : M (option Obj) :=
  let (details, value) := validate data in
  match details with
  | _ :: _ => throw (Error (join_messages details))
  | [] =>
      try_catch
        (existingCategory <- getByName (js_text (CatData.name value)) ;;
         if held_by_another existingCategory id
         then throw (Error "Ya existe una categoría con ese nombre")
         else
           fun w =>
             match getDatabaseType w with
             | postgresql =>
                 (result <- query (update_category postgresql)
                                  (category_params value ++ [id])%list ;;
                  if length_is_0 result
                  then throw (Error "Categoría no encontrada")
                  else ret (index_0 result)) w
             | sqlite =>
                 (result <- query (update_category sqlite)
                                  (category_params value ++ [id])%list ;;
                  if changes_is_0 result
                  then throw (Error "Categoría no encontrada")
                  else getById id) w
             end)
        (fun error => throw error)
  end.

Definition usageQuery (dt : DbType) : Sql :=
  Query [SELECT [Item COUNT_STAR "count"]; FROM "transactions";
         WHERE (Cmp (Col "category") EQ
                    (SELECT_name_FROM_categories_WHERE_id (placeholder dt 1)))].

(** [`${usageCount}`] *)
Definition js_of_Number (n : Number) : string :=
  match n with Num z => js_of_Z z | NaN => "NaN" end.

Definition in_use_message (usageCount : Number) : string :=
  "No se puede eliminar la categoría porque está siendo usada en "
  ++ js_of_Number usageCount ++ " transacción(es)".

(** [usageCount > 0], false on NaN. *)
Definition gt_0 (n : Number) : bool :=
  match n with Num z => 0 <? z | NaN => false end.

(** [result.rowCount > 0]: neither the [rows] array nor SQLite's
    descriptor has a [rowCount], and [undefined > 0] is false. *)
Definition rowCount_gt_0 (r : QueryResult) : bool := false.

(** [Category.delete(id)].  The PostgreSQL DELETE carries no RETURNING, so
    there [result] is the empty [rows] array. *)
Definition delete (id : Value) : M bool :=
  try_catch
    (fun w =>
       let dt := getDatabaseType w in
       (usageResult <- query (usageQuery dt) [id] ;;
        match index_0 usageResult with
        | None => throw (mkError "TypeError" "Cannot read properties of undefined" None)
        | Some row =>
            let usageCount := parseInt (field "count" row) in
            if gt_0 usageCount then throw (Error (in_use_message usageCount))
            else
              result <- query (Transaction.delete_by_id dt "categories" false) [id] ;;
              match dt with
              | postgresql => ret (length_gt_0 result || rowCount_gt_0 result)
              | sqlite => ret (changes_gt_0 result)
              end
        end) w)
    (fun error => throw error).

(** The array [defaultCategories] of [initializeDefaultCategories]. *)
Definition default (name type description color icon : string) : CatData.t :=
  CatData.mk (Some name) (Some type) (Some description) (Some color) (Some icon).

Definition defaultCategories : list CatData.t :=
  [default "Salario" "income" "Ingresos por trabajo" "#4CAF50" "💼";
   default "Freelance" "income" "Trabajos independientes" "#2196F3" "💻";
   default "Inversiones" "income" "Rendimientos de inversiones" "#FF9800" "📈";
   default "Bonos" "income" "Bonificaciones y premios" "#9C27B0" "🎁";
   default "Otros ingresos" "income" "Otros tipos de ingresos" "#607D8B" "💰";
   default "Alimentación" "expense" "Comida y bebidas" "#F44336" "🍽️";
   default "Transporte" "expense" "Transporte público, combustible, etc." "#FF5722" "🚗";
   default "Servicios" "expense" "Electricidad, agua, internet, etc." "#795548" "🏠";
   default "Entretenimiento" "expense" "Ocio y diversión" "#E91E63" "🎬";
   default "Salud" "expense" "Gastos médicos y farmacia" "#009688" "🏥";
   default "Educación" "expense" "Cursos, libros, etc." "#3F51B5" "📚";
   default "Ropa" "expense" "Vestimenta y calzado" "#673AB7" "👕";
   default "Hogar" "expense" "Artículos para el hogar" "#8BC34A" "🏡";
   default "Otros gastos" "expense" "Gastos varios" "#9E9E9E" "💸"].

(** The body of the loop: [getByName], then [create] when nothing was
    found; the inner catch block logs the error, or passes it over in
    silence, and the loop goes on. *)
Definition ensure_category (categoryData : CatData.t) : M unit :=
  try_catch
    (existing <- getByName (js_text (CatData.name categoryData)) ;;
     match existing with
     | None => _ <- create categoryData ;; ret tt
     | Some _ => ret tt
     end)
    (fun error => ret tt).

(** [for (const categoryData of defaultCategories) { ... }] *)
Fixpoint ensure_categories (l : list CatData.t) : M unit :=
  match l with
  | [] => ret tt
  | categoryData :: rest => _ <- ensure_category categoryData ;; ensure_categories rest
  end.

(** [Category.initializeDefaultCategories()] *)
Definition initializeDefaultCategories : M unit :=
  try_catch (ensure_categories defaultCategories) (fun error => throw error).

End Model.
End Category.

(** ** index.js: error middleware and the category DELETE route *)

Record Response := mkResponse {
  status : Z;
  json : list (string * string)
}.

Definition code_is (err : JsError) (c : string) : bool :=
  match code err with Some c' => String.eqb c' c | None => false end.

(** [errorHandler(err, req, res, next)] *)
Definition errorHandler (NODE_ENV : string) (err : JsError) : Response :=
  if String.eqb (name err) "ValidationError" then
    mkResponse 400 [("error", "Error de validación"); ("details", message err)]
  else if code_is err "SQLITE_CONSTRAINT" || code_is err "23505" then
    mkResponse 409 [("error", "Conflicto en la base de datos");
                    ("details", "El recurso ya existe o viola una restricción")]
  else
    mkResponse 500 [("error", "Error interno del servidor");
                    ("details", if String.eqb NODE_ENV "development"
                                then message err else "Algo salió mal")].

Section Routes.
Context `{SqlFunctions}.

(** [app.delete('/api/categories/:id', ...)]: [res.json] answers 200 unless
    [res.status] was set; [next(error)] reaches [errorHandler]. *)
Definition delete_category_route (NODE_ENV : string) (id : Value) (w : World)
  : Response * World :=
  match Category.delete id w with
  | (Ok deleted, w') =>
      if negb deleted
      then (mkResponse 404 [("error", "Categoría no encontrada")], w')
      else (mkResponse 200 [("message", "Categoría eliminada correctamente")], w')
  | (Throw error, w') => (errorHandler NODE_ENV error, w')
  end.

(** ** scripts/migrate.js *)

Record MigrationSet := mkMigrationSet {
  m_transactions : Sql;
  m_categories : Sql;
  m_indexes : list Sql;
  m_triggers : option (list Sql)
}.

Definition indexes : list Sql :=
  [CREATE_INDEX_IF_NOT_EXISTS "idx_transactions_type";
   CREATE_INDEX_IF_NOT_EXISTS "idx_transactions_date";
   CREATE_INDEX_IF_NOT_EXISTS "idx_transactions_category";
   CREATE_INDEX_IF_NOT_EXISTS "idx_transactions_created_at";
   CREATE_INDEX_IF_NOT_EXISTS "idx_categories_type";
   CREATE_INDEX_IF_NOT_EXISTS "idx_categories_name"].

(** [migrations]: only the PostgreSQL set has a [triggers] entry. *)
Definition migrations (dt : DbType) : MigrationSet :=
  match dt with
  | sqlite =>
      mkMigrationSet (CREATE_TABLE_IF_NOT_EXISTS "transactions")
                     (CREATE_TABLE_IF_NOT_EXISTS "categories") indexes None
  | postgresql =>
      mkMigrationSet (CREATE_TABLE_IF_NOT_EXISTS "transactions")
                     (CREATE_TABLE_IF_NOT_EXISTS "categories") indexes
                     (Some [CREATE_FUNCTION_update_updated_at_column;
                            CREATE_TRIGGER_update_updated_at "transactions";
                            CREATE_TRIGGER_update_updated_at "categories"])
  end.

(** [for (const q of queries) { await dbManager.query(q); }] *)
Fixpoint query_each (queries : list Sql) : M unit :=
  match queries with
  | [] => ret tt
  | q :: rest => _ <- query q [] ;; query_each rest
  end.

(** [try { m } finally { c }] *)
Definition finally {A : Type} (m : M A) (c : M unit) : M A :=
  fun w => match m w with
           | (r, w') => match c w' with
                        | (Ok _, w'') => (r, w'')
                        | (Throw e, w'') => (Throw e, w'')
                        end
           end.

(** [runMigrations()]; [process.exit(1)] in the catch block ends the
    process, rendered as the rejection it reacts to. *)
Definition runMigrations : M unit :=
  finally
    (try_catch
       (_ <- connect ;;
        fun w =>
          let dbType := getDatabaseType w in
          let migrationSet := migrations dbType in
          (_ <- query (m_transactions migrationSet) [] ;;
           _ <- query (m_categories migrationSet) [] ;;
           _ <- query_each (m_indexes migrationSet) ;;
           match dbType, m_triggers migrationSet with
           | postgresql, Some triggers => query_each triggers
           | _, _ => ret tt
           end) w)
       (fun error => throw error))
    close.

(** ** index.js: the routes *)

(** What a handler sends: [res.status(code).json(body)], 200 unless
    [res.status] was called. *)
Inductive Body :=
| Fields (o : list (string * string))
| OneRow (o : option Obj)
| ManyRows (r : QueryResult)
| MonthlyData (l : list MonthlyEntry).

Record Reply := mkReply {
  r_status : Z;
  r_body : Body
}.

(** [next(error)]: the error middleware answers. *)
Definition next (NODE_ENV : string) (error : JsError) : Reply :=
  let res := errorHandler NODE_ENV error in
  mkReply (status res) (Fields (json res)).

(** [try { const a = await m; answer } catch (error) { next(error); }] *)
Definition handle {A : Type} (NODE_ENV : string) (m : M A) (answer : A -> Reply)
  : World -> Reply * World :=
  fun w => match m w with
           | (Ok a, w') => (answer a, w')
           | (Throw error, w') => (next NODE_ENV error, w')
           end.

(** [app.get('/api/transactions/:id', ...)]; [req.params.id] is a string. *)
Definition get_transaction_route (NODE_ENV : string) (id : string) : World -> Reply * World :=
  handle NODE_ENV (Transaction.getById (VText id))
         (fun transaction =>
            match transaction with
            | None => mkReply 404 (Fields [("error", "Transacción no encontrada")])
            | Some _ => mkReply 200 (OneRow transaction)
            end).

(** [app.post('/api/transactions', ...)] *)
Definition post_transaction_route (NODE_ENV : string) (body : TxData.t)
  : World -> Reply * World :=
  handle NODE_ENV (Transaction.create body)
         (fun transaction => mkReply 201 (OneRow transaction)).

(** [app.put('/api/transactions/:id', ...)] *)
Definition put_transaction_route (NODE_ENV : string) (id : string) (body : TxData.t)
  : World -> Reply * World :=
  handle NODE_ENV (Transaction.update (VText id) body)
         (fun transaction => mkReply 200 (OneRow transaction)).

(** [app.delete('/api/transactions/:id', ...)] *)
Definition delete_transaction_route (NODE_ENV : string) (id : string)
  : World -> Reply * World :=
  handle NODE_ENV (Transaction.delete (VText id))
         (fun deleted =>
            if negb deleted
            then mkReply 404 (Fields [("error", "Transacción no encontrada")])
            else mkReply 200 (Fields [("message", "Transacción eliminada correctamente")])).

(** [app.get('/api/categories', ...)], [type] standing for
    [req.query.type]. *)
Definition get_categories_route (NODE_ENV : string) (type : option string)
  : World -> Reply * World :=
  handle NODE_ENV (Category.getAll type) (fun categories => mkReply 200 (ManyRows categories)).

(** [app.get('/api/categories/:id', ...)] *)
Definition get_category_route (NODE_ENV : string) (id : string) : World -> Reply * World :=
  handle NODE_ENV (Category.getById (VText id))
         (fun category =>
            match category with
            | None => mkReply 404 (Fields [("error", "Categoría no encontrada")])
            | Some _ => mkReply 200 (OneRow category)
            end).

(** [app.post('/api/categories', ...)] *)
Definition post_category_route (NODE_ENV : string) (body : CatData.t)
  : World -> Reply * World :=
  handle NODE_ENV (Category.create body) (fun category => mkReply 201 (OneRow category)).

(** [app.put('/api/categories/:id', ...)] *)
Definition put_category_route (NODE_ENV : string) (id : string) (body : CatData.t)
  : World -> Reply * World :=
  handle NODE_ENV (Category.update (VText id) body)
         (fun category => mkReply 200 (OneRow category)).

(** [app.get('/api/reports/monthly/:year', ...)]:
    [isNaN(yearInt) || yearInt < 2000 || yearInt > 2100] answers 400. *)
Definition monthly_report_route (NODE_ENV : string) (year : string)
  : World -> Reply * World :=
  match parseInt_text year with
  | Num yearInt =>
      if (yearInt <? 2000) || (2100 <? yearInt)
      then fun w => (mkReply 400 (Fields [("error", "Año inválido")]), w)
      else handle NODE_ENV (Transaction.getMonthlyData yearInt)
                  (fun monthlyData => mkReply 200 (MonthlyData monthlyData))
  | NaN => fun w => (mkReply 400 (Fields [("error", "Año inválido")]), w)
  end.

(** The paths of [app.get], in the order of registration.  A request is
    handled by the first route whose path matches; [:name] matches any one
    segment, ['*'] any path. *)
Inductive Segment :=
| Lit (s : string)
| Par (name : string).

Inductive RoutePath :=
| Segments (l : list Segment)
| Wildcard.

Inductive GetHandler :=
| GET_health
| GET_transactions
| GET_transactions_id
| GET_categories
| GET_categories_id
| GET_categories_stats
| GET_summary
| GET_reports_monthly_year
| GET_any.

Definition get_routes : list (RoutePath * GetHandler) :=
  [(Segments [Lit "api"; Lit "health"], GET_health);
   (Segments [Lit "api"; Lit "transactions"], GET_transactions);
   (Segments [Lit "api"; Lit "transactions"; Par "id"], GET_transactions_id);
   (Segments [Lit "api"; Lit "categories"], GET_categories);
   (Segments [Lit "api"; Lit "categories"; Par "id"], GET_categories_id);
   (Segments [Lit "api"; Lit "categories"; Lit "stats"], GET_categories_stats);
   (Segments [Lit "api"; Lit "summary"], GET_summary);
   (Segments [Lit "api"; Lit "reports"; Lit "monthly"; Par "year"], GET_reports_monthly_year);
   (Wildcard, GET_any)].

(** The parameters a path binds on a request, [None] when it does not
    match. *)
Fixpoint match_segments (p : list Segment) (request : list string)
  : option (list (string * string)) :=
  match p, request with
  | [], [] => Some []
  | Lit s :: p', x :: request' =>
      if String.eqb s x then match_segments p' request' else None
  | Par name :: p', x :: request' =>
      match x with
      | EmptyString => None
      | _ => option_map (cons (name, x)) (match_segments p' request')
      end
  | _, _ => None
  end.

Definition match_path (p : RoutePath) (request : list string)
  : option (list (string * string)) :=
  match p with
  | Segments l => match_segments l request
  | Wildcard => Some []
  end.

Fixpoint dispatch {H : Type} (routes : list (RoutePath * H)) (request : list string)
  : option (H * list (string * string)) :=
  match routes with
  | [] => None
  | (p, h) :: rest =>
      match match_path p request with
      | Some params => Some (h, params)
      | None => dispatch rest request
      end
  end.

(** [initializeDatabase()]; [process.exit(1)] in the catch block is
    rendered as the rejection it reacts to. *)
Definition initializeDatabase : M unit :=
  try_catch
    (_ <- connect ;;
     _ <- runMigrations ;;
     Category.initializeDefaultCategories)
    (fun error => throw error).

(** ** scripts/seed.js *)

Record ExistingData := mkExistingData {
  count_categories : Number;
  count_transactions : Number
}.

Definition count_query (t : string) : Sql :=
  Query [SELECT [Item COUNT_STAR "count"]; FROM t].

(** [parseInt(result[0].count)]; [result[0]] of an empty result is
    [undefined] and reading its [count] throws. *)
Definition count_of (result : QueryResult) : M Number :=
  match index_0 result with
  | Some row => ret (parseInt (field "count" row))
  | None => throw (mkError "TypeError" "Cannot read properties of undefined" None)
  end.

(** [checkExistingData()] *)
Definition checkExistingData : M ExistingData :=
  try_catch
    (categoriesResult <- query (count_query "categories") [] ;;
     categoriesCount <- count_of categoriesResult ;;
     transactionsResult <- query (count_query "transactions") [] ;;
     transactionsCount <- count_of transactionsResult ;;
     ret (mkExistingData categoriesCount transactionsCount))
    (fun error => ret (mkExistingData (Num 0) (Num 0))).

End Routes.

(** ** SQLite's lower(): the ASCII letters *)

Definition ascii_lower (c : ascii) : ascii :=
  let n := nat_of_ascii c in
  if ((65 <=? n) && (n <=? 90))%nat then ascii_of_nat (n + 32) else c.

Fixpoint lower (s : string) : string :=
  match s with
  | EmptyString => EmptyString
  | String c r => String (ascii_lower c) (lower r)
  end.

#[export] Instance sqlite_functions : SqlFunctions := {| sql_lower := lower |}.

(** * Vocabulary of the statements *)

(** The manager is connected and its driver object is open. *)
Definition connected (w : World) : Prop :=
  isConnected (dbManager w) = true /\ connection (dbManager w) = Some (mkConnection false).

(** The world with another content of table [transactions]. *)
Definition with_transactions (w : World) (rows : list Tx.row) : World :=
  mkWorld (dbManager w) (set_transactions (database w) rows (transactions_seq (database w))).

(** A manager that has connected to a database. *)
Definition connected_to (dt : DbType) (d : Database) : World :=
  mkWorld (mkManager dt (Some (mkConnection false)) true) d.

(** Sample rows: the spec's scenarios. *)
Definition salary : Tx.row :=
  Tx.mk 1 "income" 10000 "Salario mensual" "Salario" (mkDate 2024 3 5) 100 100.

Definition cinema : Tx.row :=
  Tx.mk 2 "expense" 2500 "Cine" "Ocio" (mkDate 2024 1 12) 101 101.

Definition dinner : Tx.row :=
  Tx.mk 3 "expense" 4000 "Cena" "Ocio" (mkDate 2024 1 12) 102 102.

Definition leisure : Cat.row :=
  Cat.mk 1 "Ocio" "expense" None None None 50 50.

Definition health : Cat.row :=
  Cat.mk 2 "Salud" "expense" None None None 51 51.

Definition sample : Database :=
  mkDatabase [salary; cinema; dinner] 3 [leisure; health] 2 [] 200.

(** A candidate the schema accepts. *)
Definition valid (data : TxData.t) : Prop :=
  fst (Transaction.validate data) = [].

(** The ids of table [transactions] were handed out by its sequence. *)
Definition ids_in_sequence (d : Database) : Prop :=
  Forall (fun r => Tx.id r <= transactions_seq d) (transactions d).

(** The amount fits the column: SQLite's REAL takes any, PostgreSQL's
    DECIMAL(12,2) takes amounts below 10^10, 10^12 cents. *)
Definition amount_in_range (dt : DbType) (data : TxData.t) : Prop :=
  match dt, TxData.amount data with
  | postgresql, Some a => a < 10 ^ 12
  | _, _ => True
  end.

Definition ten_billions : TxData.t :=
  TxData.mk (Some "income") (Some (10 ^ 12)) (Some "Premio") (Some "Bonos")
            (Some (mkDate 2024 5 5)).

Definition refund : TxData.t :=
  TxData.mk (Some "income") (Some 500) (Some "Reembolso") (Some "Salario")
            (Some (mkDate 2024 5 5)).


(** The tables on which the migration of a backend creates the
    [updated_at] trigger. *)
Definition migration_triggers (dt : DbType) : list string :=
  match m_triggers (migrations dt) with
  | Some l =>
      flat_map (fun q => match q with
                         | CREATE_TRIGGER_update_updated_at t => [t]
                         | _ => []
                         end) l
  | None => []
  end.


(** [a] is not after [b]. *)
Definition Date_leb (a b : Date) : bool :=
  match Date_compare a b with Gt => false | _ => true end.

(** A text filter as [getAll] reads it: absent or empty, it lets every row
    through. *)
Definition text_filter (o : option string) (v : string) : bool :=
  match o with
  | None | Some "" => true
  | Some s => String.eqb v s
  end.

(** The conjunction of the filters supplied. *)
Definition matches (f : Filters.t) (r : Tx.row) : bool :=
  text_filter (Filters.type f) (Tx.type r)
  && text_filter (Filters.category f) (Tx.category r)
  && match Filters.startDate f with Some d => Date_leb d (Tx.date r) | None => true end
  && match Filters.endDate f with Some d => Date_leb (Tx.date r) d | None => true end.

(** [a] may stand before [b]: later date first, then later creation. *)
Definition newest_first (a b : Tx.row) : bool :=
  match Date_compare (Tx.date a) (Tx.date b) with
  | Gt => true
  | Lt => false
  | Eq => Tx.created_at b <=? Tx.created_at a
  end.

(** The rows a limit lets through: all of them when the limit is absent
    or 0. *)
Definition capped {A : Type} (limit : option Z) (l : list A) : list A :=
  match limit with
  | None | Some 0 => l
  | Some z => firstn (Z.to_nat z) l
  end.

Definition date_order : list (string * Dir) := [("date", DESC); ("created_at", DESC)].

(** A category candidate the schema accepts. *)
Definition valid_category (data : CatData.t) : Prop :=
  fst (Category.validate data) = [].

Definition category_ids_in_sequence (d : Database) : Prop :=
  Forall (fun r => Cat.id r <= categories_seq d) (categories d).

(** Two names the engine's [LOWER] does not tell apart. *)
Definition same_ignoring_case `{SqlFunctions} (a b : string) : bool :=
  String.eqb (sql_lower a) (sql_lower b).

Definition food : CatData.t :=
  CatData.mk (Some "Alimentación") (Some "expense") (Some "Comida y bebidas")
             (Some "#F44336") None.

(** [c] is the category stored under id [i]. *)
Definition category_with_id (d : Database) (i : Z) (c : Cat.row) : Prop :=
  filter (fun r => Cat.id r =? i) (categories d) = [c].



(** The world with another content of table [categories]. *)
Definition with_categories (w : World) (rows : list Cat.row) : World :=
  mkWorld (dbManager w) (set_categories (database w) rows (categories_seq (database w))).

(** A database without rows. *)
Definition empty : Database := mkDatabase [] 0 [] 0 [] 0.

(** The one-row store of the monthly scenario: an income of 100.00 dated
    2024-03-05. *)
Definition march_income : Database :=
  mkDatabase [Tx.mk 1 "income" 10000 "Salario" "Salario" (mkDate 2024 3 5) 100 100]
             1 [] 0 [] 200.

Definition no_filter : Filters.t := Filters.mk None None None None None.

Definition january : Filters.t :=
  Filters.mk None None (Some (mkDate 2024 1 1)) (Some (mkDate 2024 1 31)) None.

(** [new DatabaseManager()] in front of a database. *)
Definition fresh (dt : DbType) (d : Database) : World :=
  mkWorld (new_DatabaseManager dt) d.

(** Grouping as GROUP BY does it, on typed rows. *)
Fixpoint group_from {K A : Type} (key : A -> K) (eqb : K -> K -> bool)
         (rows : list A) (gs : list (K * list A)) : list (K * list A) :=
  match rows with
  | [] => gs
  | r :: rest => group_from key eqb rest (add_to_group eqb (key r) r gs)
  end.

Definition group_by {K A : Type} (key : A -> K) (eqb : K -> K -> bool) (rows : list A)
  : list (K * list A) :=
  group_from key eqb rows [].

(** The sum of the amounts. *)
Fixpoint total (rows : list Tx.row) : Z :=
  match rows with
  | [] => 0
  | r :: rest => Tx.amount r + total rest
  end.

Definition of_kind (kind : string) (r : Tx.row) : bool :=
  String.eqb (Tx.type r) kind.

(** Larger total first. *)
Definition by_total_desc (a b : string * list Tx.row) : bool :=
  total (snd b) <=? total (snd a).

Definition category_entry (g : string * list Tx.row) : CategoryTotal :=
  mkCategoryTotal (Some (VText (fst g))) (Num (total (snd g))).

(** The breakdown of one kind: one entry per category with the sum of its
    amounts, larger totals first. *)
Definition breakdown_of (kind : string) (rows : list Tx.row) : list CategoryTotal :=
  map category_entry
      (sort_by by_total_desc (group_by Tx.category String.eqb (filter (of_kind kind) rows))).

(** What holds of the groups once the rows [done] are in: one group per
    key met, holding the rows of that key in scan order. *)
Definition grouped {K A : Type} (key : A -> K) (eqb : K -> K -> bool)
           (gs : list (K * list A)) (done : list A) : Prop :=
  NoDup (map fst gs)
  /\ (forall k g, In (k, g) gs -> g = filter (fun r => eqb (key r) k) done /\ g <> [])
  /\ (forall r, In r done -> In (key r) (map fst gs)).

(** A group of typed rows as the engine holds it: the key as values, the
    rows as objects. *)
Definition encode {K A : Type} (f : A -> Obj) (enc : K -> list Value) (kg : K * list A)
  : list Value * list Obj :=
  (enc (fst kg), map f (snd kg)).

(** The row the by-category query puts out for one group. *)
Definition category_out (kg : string * list Tx.row) : Obj :=
  [("category", VText (fst kg)); ("total", VNum (total (snd kg)))].

(** The key of the monthly query: month of the date and kind. *)
Definition month_kind (r : Tx.row) : Z * string := (month (Tx.date r), Tx.type r).

Definition month_kind_eqb (a b : Z * string) : bool :=
  (fst a =? fst b) && String.eqb (snd a) (snd b).

(** The rows of one year, of one category, of one month and kind. *)
Definition in_year (y : Z) (r : Tx.row) : bool := year (Tx.date r) =? y.

(** Earlier month first, then the kind in the order of the text. *)
Definition by_month_kind (a b : (Z * string) * list Tx.row) : bool :=
  match fst (fst a) ?= fst (fst b) with
  | Lt => true
  | Gt => false
  | Eq => String.leb (snd (fst a)) (snd (fst b))
  end.

(** The monthly totals of one year: one entry per month and kind met. *)
Definition month_entry (g : (Z * string) * list Tx.row) : MonthlyEntry :=
  mkMonthlyEntry (Num (fst (fst g))) (Some (VText (snd (fst g)))) (Num (total (snd g))).

Definition monthly_of (y : Z) (rows : list Tx.row) : list MonthlyEntry :=
  map month_entry
      (sort_by by_month_kind (group_by month_kind month_kind_eqb (filter (in_year y) rows))).

(** The row the monthly query puts out for one group, and the key of a
    group as values. *)
Definition month_out (kg : (Z * string) * list Tx.row) : Obj :=
  [("month", VNum (fst (fst kg))); ("type", VText (snd (fst kg)));
   ("total", VNum (total (snd kg)))].

Definition month_key (k : Z * string) : list Value := [VNum (fst k); VText (snd k)].

Definition in_category (name : string) (r : Tx.row) : bool :=
  String.eqb (Tx.category r) name.

Definition in_month_kind (m : Z) (kind : string) (r : Tx.row) : bool :=
  month_kind_eqb (month_kind r) (m, kind).

(** The order of the entries of a breakdown and of the monthly data. *)
Definition total_ge (a b : CategoryTotal) : Prop :=
  match ct_total a, ct_total b with
  | Num x, Num y => y <= x
  | _, _ => False
  end.

Definition month_then_kind (a b : MonthlyEntry) : Prop :=
  match me_month a, me_type a, me_month b, me_type b with
  | Num x, Some (VText s), Num y, Some (VText t) =>
      x < y \/ (x = y /\ String.leb s t = true)
  | _, _, _, _ => False
  end.

(** The filter of the spec's scenario, and a limit of 0. *)
Definition leisure_in_january : Filters.t :=
  Filters.mk (Some "expense") (Some "Ocio") (Some (mkDate 2024 1 1))
             (Some (mkDate 2024 1 31)) (Some 1).

Definition limit_0 : Filters.t := Filters.mk None None None None (Some 0).

(** Names in the order of their bytes, SQLite's BINARY collation. *)
Definition name_leb (a b : Cat.row) : bool := String.leb (Cat.name a) (Cat.name b).

Definition has_type (type : option string) (c : Cat.row) : bool :=
  text_filter type (Cat.type c).


(** An id as a caller hands it over: the number, or its decimal text, as
    [req.params.id] carries it. *)
Definition names_id (id : Value) (i : Z) : Prop :=
  id = VNum i \/ id = VText (js_of_Z i).

(** The row [x] as the PostgreSQL UPDATE leaves it: the five input columns
    taken from the candidate, [updated_at] set to the time of the
    statement, [id] and [created_at] as they are. *)
Definition restamped (data : TxData.t) (now : Z) (x : Tx.row) : Tx.row :=
  match data with
  | TxData.mk (Some t) (Some a) (Some ds) (Some c) (Some dd) =>
      Tx.mk (Tx.id x) t a ds c dd (Tx.created_at x) now
  | _ => x
  end.

(** The UNIQUE constraint of [categories.name] holds. *)
Definition names_unique (d : Database) : Prop :=
  NoDup (map Cat.name (categories d)).

(** [updated_at] of a row after an UPDATE: SQLite leaves it, PostgreSQL
    sets it to the time of the statement. *)
Definition updated_at_after (dt : DbType) (d : Database) (old : Z) : Z :=
  match dt with
  | sqlite => old
  | postgresql => clock d
  end.

(** The category row [x] as [Category.update] leaves it: name, type,
    description, color and icon are the candidate's (NULL where the
    candidate has none); [id] and [created_at] stay. *)
Definition rewritten_category (data : CatData.t) (dt : DbType) (d : Database) (x : Cat.row)
  : Cat.row :=
  match CatData.name data, CatData.type data with
  | Some n, Some t =>
      Cat.mk (Cat.id x) n t (CatData.description data) (CatData.color data)
             (CatData.icon data) (Cat.created_at x)
             (updated_at_after dt d (Cat.updated_at x))
  | _, _ => x
  end.

(** The SET list of the category UPDATE once its parameters are bound. *)
Definition category_sets (dt : DbType) (n t : string) (ds co ic : option string)
  : list (string * Expr) :=
  ([("name", Bound (VText n)); ("type", Bound (VText t)); ("description", Bound (js_text ds));
    ("color", Bound (js_text co)); ("icon", Bound (js_text ic))]
   ++ match dt with
      | postgresql => [("updated_at", NOW)]
      | sqlite => []
      end)%list.

(** A stored category bears the name, in some casing. *)
Definition present `{SqlFunctions} (n : string) (rows : list Cat.row) : bool :=
  existsb (fun r => same_ignoring_case (Cat.name r) n) rows.

(** The manager can run a query: it is marked connected and its driver
    object is open. *)
Definition usable (w : World) : bool :=
  isConnected (dbManager w)
  && match connection (dbManager w) with
     | Some c => negb (closed c)
     | None => false
     end.

(** The world with rows appended to table [categories], their ids taken
    from the sequence. *)
Definition with_added (w : World) (added : list Cat.row) : World :=
  mkWorld (dbManager w)
          (set_categories (database w) (categories (database w) ++ added)%list
                          (categories_seq (database w) + Z.of_nat (List.length added))).

(** The row [create] stores for a candidate: the next id, the candidate's
    fields, both timestamps the time of the statement. *)
Definition stored_category (d : Database) (data : CatData.t) : Cat.row :=
  Cat.mk (categories_seq d + 1)
         (match CatData.name data with Some n => n | None => "" end)
         (match CatData.type data with Some t => t | None => "" end)
         (CatData.description data) (CatData.color data) (CatData.icon data)
         (clock d) (clock d).

(** The stored row carries the fields of the candidate. *)
Definition stores (r : Cat.row) (data : CatData.t) : Prop :=
  CatData.name data = Some (Cat.name r) /\ CatData.type data = Some (Cat.type r)
  /\ CatData.description data = Cat.description r /\ CatData.color data = Cat.color r
  /\ CatData.icon data = Cat.icon r.

(** Candidates for the scenarios: a transaction and a category the schemas
    refuse, a category under a new name, and one under the name of
    [leisure] in capitals. *)
Definition withdrawal : TxData.t :=
  TxData.mk (Some "transfer") (Some (-500)) (Some "Retiro") None (Some (mkDate 2024 5 5)).

Definition red : CatData.t :=
  CatData.mk (Some "Viajes") (Some "expense") None (Some "rojo") None.

Definition travel : CatData.t :=
  CatData.mk (Some "Viajes") (Some "expense") None (Some "#00BCD4") None.

Definition LEISURE : CatData.t :=
  CatData.mk (Some "OCIO") (Some "expense") (Some "Ocio y diversión") None None.

(** The route answers 500 and leaves the world as it is. *)
Definition answers_500 (route : World -> Reply * World) (w : World) : Prop :=
  r_status (fst (route w)) = 500 /\ snd (route w) = w.

(** The row carries the candidate's type, amount, description and
    category. *)
Definition carries (data : TxData.t) (x : Tx.row) : Prop :=
  TxData.type data = Some (Tx.type x) /\ TxData.amount data = Some (Tx.amount x)
  /\ TxData.description data = Some (Tx.description x)
  /\ TxData.category data = Some (Tx.category x).

(** [x'] is the row [x] after an UPDATE with the candidate: same [id] and
    [created_at], the candidate's type, amount, description and category,
    and [updated_at] as [stamp] makes it.  The [date] column is left
    open. *)
Definition updated (data : TxData.t) (stamp : Z -> Z) (x x' : Tx.row) : Prop :=
  Tx.id x' = Tx.id x /\ carries data x'
  /\ Tx.created_at x' = Tx.created_at x /\ Tx.updated_at x' = stamp (Tx.updated_at x).

(** The table after an UPDATE of the rows of id [i]: row by row, in the
    same order, a row of that id is [updated], any other row is as it
    was. *)
Definition updates (data : TxData.t) (stamp : Z -> Z) (i : Z) (rows rows' : list Tx.row)
  : Prop :=
  Forall2 (fun x x' => if Tx.id x =? i then updated data stamp x x' else x' = x) rows rows'.

(** The columns an UPDATE statement assigns. *)
Definition set_columns (q : Sql) : list string :=
  match q with
  | UPDATE _ sets _ _ => map fst sets
  | _ => []
  end.

(** Amounts that doubles add and subtract without rounding: whole numbers
    of the currency unit, none negative, their sum a safe integer. *)
Definition whole_amounts (rows : list Tx.row) : Prop :=
  Forall (fun r => 0 <= Tx.amount r /\ (100 | Tx.amount r)) rows
  /\ total rows <= MAX_SAFE_CENTS.

(** The name of [food] in capitals. *)
Definition food_in_capitals : CatData.t :=
  CatData.mk (Some "ALIMENTACIÓN") (Some "expense") None None None.

(** * Properties *)

(** Hypotheses at a concrete input: a connected manager, an inequality
    between numerals. *)
Ltac hyp_connected := split; reflexivity.

Ltac hyp_le := let E := fresh "E" in intro E; discriminate E.

(** The text forms the model relies on. *)
Example iso_example : iso (mkDate 2024 3 5) = "2024-03-05".
Proof. reflexivity. Qed.

Example js_length_example : js_length "Alimentación" = 12%nat.
Proof. reflexivity. Qed.


Section Properties.
Context `{SqlFunctions}.

Lemma query_connected (w : World) (sql : Sql) (params : list Value) :
  connected w ->
  query sql params w =
  match execute (getDatabaseType w) (database w) sql params with
  | Done (r, d') => (Ok r, mkWorld (dbManager w) d')
  | Fail e => (Throw (driver_error (getDatabaseType w) e), w)
  end.
Proof.
  intros [Hc Hh]. unfold query. rewrite Hc, Hh. reflexivity.
Qed.

Lemma connected_same_manager (w : World) (d : Database) :
  connected w -> connected (mkWorld (dbManager w) d).
Proof. intros Hc. exact Hc. Qed.

(** ** Sorting *)

Section Sorting.
Context {A : Type} (leb : A -> A -> bool).

Lemma insert_by_perm (x : A) (l : list A) : Permutation (insert_by leb x l) (x :: l).
Proof.
  induction l as [| y l IH]; simpl.
  - apply Permutation_refl.
  - destruct (leb x y).
    + apply Permutation_refl.
    + apply perm_trans with (y :: x :: l).
      * apply perm_skip. exact IH.
      * apply perm_swap.
Qed.

Lemma sort_by_perm (l : list A) : Permutation (sort_by leb l) l.
Proof.
  induction l as [| x l IH]; simpl.
  - apply perm_nil.
  - apply perm_trans with (x :: sort_by leb l).
    + apply insert_by_perm.
    + apply perm_skip. exact IH.
Qed.

Hypothesis leb_total : forall a b, leb a b = true \/ leb b a = true.
Hypothesis leb_trans : forall a b c, leb a b = true -> leb b c = true -> leb a c = true.

Lemma insert_by_sorted (x : A) (l : list A) :
  StronglySorted (fun a b => leb a b = true) l ->
  StronglySorted (fun a b => leb a b = true) (insert_by leb x l).
Proof.
  induction 1 as [| y l Hs IH Hall]; simpl.
  - constructor; constructor.
  - destruct (leb x y) eqn:E.
    + constructor.
      * constructor; assumption.
      * constructor; [exact E |].
        eapply Forall_impl; [| exact Hall].
        intros z Hz. eapply leb_trans; eassumption.
    + constructor; [exact IH |].
      assert (Hyx : leb y x = true) by (destruct (leb_total x y); congruence).
      eapply Permutation_Forall.
      * apply Permutation_sym. apply insert_by_perm.
      * constructor; assumption.
Qed.

Lemma sort_by_sorted (l : list A) :
  StronglySorted (fun a b => leb a b = true) (sort_by leb l).
Proof.
  induction l as [| x l IH]; simpl.
  - constructor.
  - apply insert_by_sorted. exact IH.
Qed.
End Sorting.

Lemma sort_by_map {A B : Type} (f : A -> B) (leb : A -> A -> bool) (leb' : B -> B -> bool)
      (l : list A) :
  (forall a b, leb' (f a) (f b) = leb a b) ->
  sort_by leb' (map f l) = map f (sort_by leb l).
Proof.
  intros Hf. induction l as [| x l IH]; simpl; [reflexivity |].
  rewrite IH. generalize (sort_by leb l) as s.
  induction s as [| y s IHs]; simpl; [reflexivity |].
  rewrite Hf. destruct (leb x y); simpl; [reflexivity |]. now rewrite IHs.
Qed.

Lemma sort_by_unordered {A : Type} (leb : A -> A -> bool) (l : list A) :
  (forall a b, leb a b = true) -> sort_by leb l = l.
Proof.
  intros Ht. induction l as [| x l IH]; simpl; [reflexivity |].
  rewrite IH. destruct l; simpl; [reflexivity |]. now rewrite Ht.
Qed.

(** ** WHERE over the rows of a table *)

Lemma keep_filter {R : Type} (f : R -> Obj) (dt : DbType) (d : Database)
      (cs : list Cond) (p : R -> bool) (rows : list R) :
  (forall r, eval_where dt d (f r) cs = Some (p r)) ->
  keep f dt d cs rows = Some (filter p rows).
Proof.
  intros Hp. induction rows as [| r rows IH]; simpl; [reflexivity |].
  rewrite Hp, IH. reflexivity.
Qed.

Lemma keep_map {R : Type} (f : R -> Obj) (dt : DbType) (d : Database)
      (cs : list Cond) (rows : list R) :
  keep (fun o => o) dt d cs (map f rows) = option_map (map f) (keep f dt d cs rows).
Proof.
  induction rows as [| r rows IH]; simpl; [reflexivity |].
  rewrite IH. destruct (eval_where dt d (f r) cs) as [b |]; [| reflexivity].
  destruct (keep f dt d cs rows); [| reflexivity].
  destruct b; reflexivity.
Qed.

Lemma output_rows_star (dt : DbType) (d : Database) (rows : list Obj) :
  output_rows dt d [Star] rows = Some rows.
Proof.
  induction rows as [| r rows IH]; simpl; [reflexivity |].
  rewrite IH. simpl. now rewrite app_nil_r.
Qed.

Lemma holds_EQ_Z (a b : Z) : holds EQ (Some (a ?= b)) = (a =? b).
Proof.
  unfold holds. destruct (Z.compare_spec a b) as [E | L | G].
  - subst. now rewrite Z.eqb_refl.
  - symmetry. apply Z.eqb_neq. lia.
  - symmetry. apply Z.eqb_neq. lia.
Qed.

Lemma string_compare_refl (s : string) : String.compare s s = Eq.
Proof.
  pose proof (String.compare_antisym s s) as Ha.
  destruct (String.compare s s); simpl in Ha; congruence.
Qed.

Lemma holds_EQ_text (a b : string) : holds EQ (Some (String.compare a b)) = String.eqb a b.
Proof.
  unfold holds. destruct (String.eqb_spec a b) as [E | N].
  - subst. now rewrite string_compare_refl.
  - destruct (String.compare a b) eqn:E; try reflexivity.
    apply String.compare_eq_iff in E. contradiction.
Qed.

(** The condition [id = ?] bound to the number [i], on a transaction. *)
Lemma id_cond_tx (dt : DbType) (d : Database) (i : Z) (r : Tx.row) :
  eval_where dt d (Tx.to_obj r) [Cmp (Col "id") EQ (Bound (VNum i))] = Some (Tx.id r =? i).
Proof.
  destruct dt; cbn -[holds Z.compare]; rewrite holds_EQ_Z; now rewrite andb_true_r.
Qed.

Lemma id_cond_cat (dt : DbType) (d : Database) (i : Z) (r : Cat.row) :
  eval_where dt d (Cat.to_obj r) [Cmp (Col "id") EQ (Bound (VNum i))] = Some (Cat.id r =? i).
Proof.
  destruct dt; cbn -[holds Z.compare]; rewrite holds_EQ_Z; now rewrite andb_true_r.
Qed.

Lemma delete_rows_where {R : Type} (T : Table R) (dt : DbType) (d : Database)
      (c : Cond) (p : R -> bool) (rows : list R) :
  (forall r, eval_where dt d (t_obj T r) [c] = Some (p r)) ->
  delete_rows T dt d c rows = Some (filter p rows, filter (fun r => negb (p r)) rows).
Proof.
  intros Hp. induction rows as [| r rows IH]; [reflexivity |].
  cbn [delete_rows filter]. rewrite Hp, IH. destruct (p r); reflexivity.
Qed.

Lemma existsb_filter_length {A : Type} (p : A -> bool) (l : list A) :
  (0 <? List.length (filter p l))%nat = existsb p l.
Proof.
  induction l as [| x l IH]; simpl; [reflexivity |].
  destruct (p x); simpl; [reflexivity | exact IH].
Qed.

Lemma existsb_filter_count {A : Type} (p : A -> bool) (l : list A) :
  (0 <? Z.of_nat (List.length (filter p l))) = existsb p l.
Proof.
  rewrite <- existsb_filter_length.
  destruct (List.length (filter p l)); simpl; reflexivity.
Qed.

Lemma filter_nothing {A : Type} (p : A -> bool) (l : list A) :
  filter p (filter (fun x => negb (p x)) l) = [].
Proof.
  induction l as [| x l IH]; simpl; [reflexivity |].
  destruct (p x) eqn:E; simpl; [exact IH |]. now rewrite E.
Qed.

Lemma filter_idem {A : Type} (p : A -> bool) (l : list A) :
  filter p (filter p l) = filter p l.
Proof.
  induction l as [| x l IH]; simpl; [reflexivity |].
  destruct (p x) eqn:E; simpl; [| exact IH]. now rewrite E, IH.
Qed.

(** ** Transaction.delete *)

Lemma delete_runs (w : World) (i : Z) :
  connected w ->
  Transaction.delete (VNum i) w =
  (Ok (existsb (fun r => Tx.id r =? i) (transactions (database w))),
   with_transactions w (filter (fun r => negb (Tx.id r =? i)) (transactions (database w)))).
Proof.
  intros Hc. unfold Transaction.delete, try_catch, bind.
  destruct (getDatabaseType w) eqn:Edt; rewrite (query_connected _ _ _ Hc), Edt;
    cbn -[delete_rows]; unfold run_delete;
    rewrite (delete_rows_where transactions_table _ _ _ (fun r => Tx.id r =? i))
      by (intros r; apply id_cond_tx);
    cbn.
  - now rewrite existsb_filter_count.
  - rewrite length_map, <- existsb_filter_length. reflexivity.
Qed.

Lemma existsb_filter_negb {A : Type} (p : A -> bool) (l : list A) :
  existsb p (filter (fun x => negb (p x)) l) = false.
Proof.
  induction l as [| x l IH]; simpl; [reflexivity |].
  destruct (p x) eqn:E; simpl; [exact IH |]. now rewrite E, IH.
Qed.

Lemma filter_negb_idem {A : Type} (p : A -> bool) (l : list A) :
  filter (fun x => negb (p x)) (filter (fun x => negb (p x)) l)
  = filter (fun x => negb (p x)) l.
Proof. apply filter_idem. Qed.

(** ** Joi's verdict on a transaction candidate *)

Lemma rule_nil (ok : bool) (msg : string) : rule ok msg = [] -> ok = true.
Proof. destruct ok; simpl; [reflexivity | discriminate]. Qed.

Lemma string_rules_nil (label : string) (o : option string) (max : nat) (m1 m2 : string) :
  string_rules label o max m1 m2 = [] ->
  exists s, o = Some s /\ (js_length s <= max)%nat.
Proof.
  destruct o as [s |]; simpl; [| discriminate].
  destruct s as [| c s]; [discriminate |].
  intros Hr. apply rule_nil in Hr. apply Nat.leb_le in Hr. eauto.
Qed.

Lemma valid_inv (data : TxData.t) :
  valid data ->
  exists t a ds c dd,
    data = TxData.mk (Some t) (Some a) (Some ds) (Some c) (Some dd)
    /\ (t = "income" \/ t = "expense") /\ 0 < a
    /\ (js_length ds <= 255)%nat /\ (js_length c <= 100)%nat.
Proof.
  unfold valid, Transaction.validate, transactionSchema. simpl. intros Hv.
  apply app_eq_nil in Hv as [Ht Hv]. apply app_eq_nil in Hv as [Ha Hv].
  apply app_eq_nil in Hv as [Hd Hv]. apply app_eq_nil in Hv as [Hc Hdate].
  destruct data as [t a ds c dd]; simpl in *.
  destruct t as [t |]; [| discriminate].
  destruct a as [a |]; [| discriminate].
  destruct dd as [dd |]; [| discriminate].
  apply string_rules_nil in Hd as [ds' [-> Hds]].
  apply string_rules_nil in Hc as [c' [-> Hcl]].
  exists t, a, ds', c', dd. split; [reflexivity |].
  apply rule_nil in Ht. apply orb_true_iff in Ht.
  unfold amount_rules in Ha. destruct (MAX_SAFE_CENTS <? Z.abs a); [discriminate |].
  apply rule_nil in Ha. apply Z.ltb_lt in Ha.
  repeat split; trivial.
  destruct Ht as [Ht | Ht]; apply String.eqb_eq in Ht; auto.
Qed.

Lemma char_length_le (s : string) : (char_length s <= js_length s)%nat.
Proof.
  induction s as [| c s IH]; simpl; [lia |].
  unfold starts_char, utf16_units. generalize (nat_of_ascii c) as n. intros n.
  destruct (Nat.ltb_spec n 128), (Nat.ltb_spec n 192), (Nat.leb_spec 192 n),
    (Nat.ltb_spec n 240); simpl; lia.
Qed.

(** ** SELECT * FROM a table WHERE ... *)

Lemma order_keys_none (out : list Obj) : order_keys_known [] out = true.
Proof. induction out; simpl; auto. Qed.

Lemma select_all_transactions (dt : DbType) (d : Database) (cs : list Cond)
      (p : Tx.row -> bool) :
  (forall r, eval_where dt d (Tx.to_obj r) cs = Some (p r)) ->
  run_select dt d (mkSelect [Star] "transactions" cs None [] None)
  = Some (map Tx.to_obj (filter p (transactions d))).
Proof.
  intros Hp. unfold run_select. cbn [sel_table scan String.eqb sel_where].
  cbn. rewrite keep_map, (keep_filter _ _ _ _ p) by exact Hp. cbn [option_map].
  unfold select_output. cbn. rewrite output_rows_star.
  unfold order_and_limit. cbn. rewrite order_keys_none.
  rewrite sort_by_unordered by reflexivity. reflexivity.
Qed.

Lemma select_all_categories (dt : DbType) (d : Database) (cs : list Cond)
      (p : Cat.row -> bool) :
  (forall r, eval_where dt d (Cat.to_obj r) cs = Some (p r)) ->
  run_select dt d (mkSelect [Star] "categories" cs None [] None)
  = Some (map Cat.to_obj (filter p (categories d))).
Proof.
  intros Hp. unfold run_select. cbn.
  rewrite keep_map, (keep_filter _ _ _ _ p) by exact Hp. cbn [option_map].
  unfold select_output. cbn. rewrite output_rows_star.
  unfold order_and_limit. cbn. rewrite order_keys_none.
  rewrite sort_by_unordered by reflexivity. reflexivity.
Qed.

(** [transactions.length > 0 ? transactions[0] : null] *)
Lemma first_or_null (l : list Obj) :
  (if length_gt_0 (Rows l) then index_0 (Rows l) else None) = hd_error l.
Proof. destruct l; reflexivity. Qed.

Lemma getById_runs (w : World) (i : Z) :
  connected w ->
  Transaction.getById (VNum i) w
  = (Ok (hd_error (map Tx.to_obj (filter (fun r => Tx.id r =? i) (transactions (database w))))), w).
Proof.
  intros Hc. unfold Transaction.getById, try_catch, bind.
  rewrite (query_connected _ _ _ Hc).
  destruct (getDatabaseType w); cbn -[run_select];
    rewrite (select_all_transactions _ _ _ (fun r => Tx.id r =? i))
      by (intros r; apply id_cond_tx);
    unfold ret; rewrite first_or_null; destruct w; reflexivity.
Qed.

Lemma fresh_id_not_taken (rows : list Tx.row) (seq : Z) (r : Tx.row) :
  Forall (fun r' => Tx.id r' <= seq) rows -> Tx.id r = seq + 1 ->
  existsb (taken transactions_table rows r) ["id"] = false.
Proof.
  intros Hids Hr. cbn [existsb]. rewrite orb_false_r. unfold taken.
  induction Hids as [| r' rows Hle _ IH]; [reflexivity |].
  cbn [existsb]. rewrite IH, orb_false_r. cbn. apply Z.eqb_neq. lia.
Qed.

Lemma check_valid (i : Z) (t : string) (a : Z) (ds c : string) (dd : Date) (ca ua : Z) :
  (t = "income" \/ t = "expense") -> 0 < a ->
  Tx.check (Tx.mk i t a ds c dd ca ua) = true.
Proof.
  intros Ht Ha. unfold Tx.check. cbn [Tx.type Tx.amount].
  apply andb_true_iff. split; [| now apply Z.ltb_lt].
  destruct Ht as [-> | ->]; reflexivity.
Qed.

Lemma fits_valid (i : Z) (t : string) (a : Z) (ds c : string) (dd : Date) (ca ua : Z) :
  (t = "income" \/ t = "expense") -> a < 10 ^ 12 ->
  (js_length ds <= 255)%nat -> (js_length c <= 100)%nat ->
  Tx.fits (Tx.mk i t a ds c dd ca ua) = true.
Proof.
  intros Ht Ha Hds Hc. unfold Tx.fits.
  cbn [Tx.type Tx.amount Tx.description Tx.category].
  pose proof (char_length_le ds). pose proof (char_length_le c).
  repeat (apply andb_true_iff; split).
  - destruct Ht as [-> | ->]; reflexivity.
  - now apply Z.ltb_lt.
  - apply Nat.leb_le. lia.
  - apply Nat.leb_le. lia.
Qed.

Lemma insert_transaction_runs (dt : DbType) (d : Database)
      (t : string) (a : Z) (ds c : string) (dd : Date) :
  (t = "income" \/ t = "expense") -> 0 < a ->
  (js_length ds <= 255)%nat -> (js_length c <= 100)%nat ->
  (dt = postgresql -> a < 10 ^ 12) ->
  ids_in_sequence d ->
  execute dt d (Transaction.insert_transaction dt)
          (Transaction.transaction_params (TxData.mk (Some t) (Some a) (Some ds) (Some c) (Some dd)))
  = let r := Tx.mk (transactions_seq d + 1) t a ds c dd (clock d) (clock d) in
    Done (write_result dt true [Tx.to_obj r] (transactions_seq d + 1) 1,
          set_transactions d (transactions d ++ [r])%list (transactions_seq d + 1)).
Proof.
  intros Ht Ha Hds Hc Hfit Hids.
  destruct dt; cbn -[Z.pow Z.add Z.ltb char_length existsb Tx.check Tx.fits];
    unfold run_insert, insert_row;
    cbn -[Z.pow Z.add Z.ltb char_length existsb Tx.check Tx.fits taken];
    rewrite (fresh_id_not_taken _ (transactions_seq d)) by (trivial; reflexivity);
    rewrite check_valid by assumption; cbn [negb].
  - reflexivity.
  - rewrite fits_valid by auto. reflexivity.
Qed.

Lemma filter_new_id (rows : list Tx.row) (seq : Z) (r : Tx.row) :
  Forall (fun r' => Tx.id r' <= seq) rows -> Tx.id r = seq + 1 ->
  filter (fun r' => Tx.id r' =? seq + 1) (rows ++ [r])%list = [r].
Proof.
  intros Hids Hr. induction Hids as [| r' rows Hle _ IH]; simpl.
  - rewrite Hr, Z.eqb_refl. reflexivity.
  - replace (Tx.id r' =? seq + 1) with false by (symmetry; apply Z.eqb_neq; lia).
    exact IH.
Qed.

(** The sequence stays ahead of the ids through [delete]. *)
Lemma delete_keeps_ids_in_sequence (w : World) (i : Z) :
  connected w ->
  ids_in_sequence (database w) ->
  ids_in_sequence (database (snd (Transaction.delete (VNum i) w))).
Proof.
  intros Hc Hids. rewrite delete_runs by exact Hc.
  cbn [snd with_transactions database]. unfold ids_in_sequence.
  cbn [set_transactions transactions transactions_seq].
  apply Forall_forall. intros r Hin. apply filter_In in Hin as [Hin _].
  unfold ids_in_sequence in Hids. rewrite Forall_forall in Hids. now apply Hids.
Qed.

(** ** Rows rewritten by an UPDATE *)


Lemma filter_finds {A : Type} (p : A -> bool) (l : list A) (x : A) :
  In x l -> p x = true -> exists y rest, filter p l = y :: rest /\ In y l /\ p y = true.
Proof.
  intros Hin Hp. assert (Hf : In x (filter p l)) by (apply filter_In; auto).
  destruct (filter p l) as [| y rest] eqn:E; [contradiction |].
  exists y, rest. split; [reflexivity |].
  assert (Hy : In y (filter p l)) by (rewrite E; now left).
  apply filter_In in Hy. exact Hy.
Qed.


(** The SQLite migration leaves the database without trigger. *)
Lemma sqlite_migration_creates_no_trigger (w : World) :
  getDatabaseType w = sqlite ->
  triggers (database (snd (runMigrations w))) = triggers (database w).
Proof.
  destruct w as [[dt c ic] d]. cbn [getDatabaseType dbManager dbType]. intros ->.
  reflexivity.
Qed.

(** ** The order of dates *)

Lemma Date_compare_Lt (a b : Date) :
  Date_compare a b = Lt <->
  year a < year b \/ (year a = year b /\ (month a < month b \/ (month a = month b /\ day a < day b))).
Proof.
  unfold Date_compare.
  destruct (Z.compare_spec (year a) (year b)), (Z.compare_spec (month a) (month b)),
    (Z.compare_spec (day a) (day b)); split; intros Hx; try discriminate; try reflexivity; lia.
Qed.

Lemma Date_compare_Gt (a b : Date) :
  Date_compare a b = Gt <->
  year b < year a \/ (year a = year b /\ (month b < month a \/ (month a = month b /\ day b < day a))).
Proof.
  unfold Date_compare.
  destruct (Z.compare_spec (year a) (year b)), (Z.compare_spec (month a) (month b)),
    (Z.compare_spec (day a) (day b)); split; intros Hx; try discriminate; try reflexivity; lia.
Qed.

Lemma Date_compare_Eq (a b : Date) :
  Date_compare a b = Eq <-> year a = year b /\ month a = month b /\ day a = day b.
Proof.
  unfold Date_compare.
  destruct (Z.compare_spec (year a) (year b)), (Z.compare_spec (month a) (month b)),
    (Z.compare_spec (day a) (day b)); split; intros Hx; try discriminate; try reflexivity; lia.
Qed.

Lemma newest_first_spec (a b : Tx.row) :
  newest_first a b = true <->
  Date_compare (Tx.date a) (Tx.date b) = Gt
  \/ (Date_compare (Tx.date a) (Tx.date b) = Eq /\ Tx.created_at b <= Tx.created_at a).
Proof.
  unfold newest_first. destruct (Date_compare (Tx.date a) (Tx.date b)); split; intros Hx.
  - right. split; [reflexivity | now apply Z.leb_le].
  - destruct Hx as [Hx | [_ Hx]]; [discriminate | now apply Z.leb_le].
  - discriminate.
  - destruct Hx as [Hx | [Hx _]]; discriminate.
  - now left.
  - reflexivity.
Qed.

Lemma newest_first_total (a b : Tx.row) :
  newest_first a b = true \/ newest_first b a = true.
Proof.
  rewrite !newest_first_spec, !Date_compare_Gt, !Date_compare_Eq. lia.
Qed.

Lemma newest_first_trans (a b c : Tx.row) :
  newest_first a b = true -> newest_first b c = true -> newest_first a c = true.
Proof.
  rewrite !newest_first_spec, !Date_compare_Gt, !Date_compare_Eq. lia.
Qed.

(** ORDER BY date DESC, created_at DESC on transactions. *)
Lemma order_leb_transactions (a b : Tx.row) :
  order_leb date_order (Tx.to_obj a) (Tx.to_obj b) = newest_first a b.
Proof.
  unfold order_leb, newest_first. cbn -[Date_compare Z.compare].
  destruct (Date_compare (Tx.date a) (Tx.date b)); cbn -[Z.compare]; try reflexivity.
  destruct (Z.compare_spec (Tx.created_at a) (Tx.created_at b)); cbn;
    symmetry; first [apply Z.leb_le; lia | apply Z.leb_gt; lia].
Qed.

Lemma order_keys_transactions (rows : list Tx.row) :
  order_keys_known date_order (map Tx.to_obj rows) = true.
Proof. induction rows as [| r rows IH]; [reflexivity |]. cbn. exact IH. Qed.

Lemma select_ordered_transactions (dt : DbType) (d : Database) (cs : list Cond)
      (p : Tx.row -> bool) (lim : option Expr) :
  (forall r, eval_where dt d (Tx.to_obj r) cs = Some (p r)) ->
  run_select dt d (mkSelect [Star] "transactions" cs None date_order lim)
  = let sorted := map Tx.to_obj (sort_by newest_first (filter p (transactions d))) in
    match lim with
    | None => Some sorted
    | Some e =>
        match eval dt d [] e with
        | Some n => apply_limit dt n sorted
        | None => None
        end
    end.
Proof.
  intros Hp. unfold run_select. cbn -[date_order].
  rewrite keep_map, (keep_filter _ _ _ _ p) by exact Hp. cbn [option_map].
  unfold select_output. cbn -[date_order]. rewrite output_rows_star.
  unfold order_and_limit. cbn -[date_order]. rewrite order_keys_transactions.
  rewrite (sort_by_map Tx.to_obj newest_first) by apply order_leb_transactions.
  reflexivity.
Qed.

Lemma Date_compare_antisym (a b : Date) :
  Date_compare b a = CompOpp (Date_compare a b).
Proof.
  unfold Date_compare.
  rewrite (Z.compare_antisym (year a) (year b)), (Z.compare_antisym (month a) (month b)),
    (Z.compare_antisym (day a) (day b)).
  destruct (year a ?= year b), (month a ?= month b), (day a ?= day b); reflexivity.
Qed.

Lemma holds_GE_date (a b : Date) : holds GE (Some (Date_compare a b)) = Date_leb b a.
Proof.
  unfold Date_leb. rewrite (Date_compare_antisym a b).
  destruct (Date_compare a b); reflexivity.
Qed.

Lemma holds_LE_date (a b : Date) : holds LE (Some (Date_compare a b)) = Date_leb a b.
Proof. unfold Date_leb. destruct (Date_compare a b); reflexivity. Qed.

(** The statement [getAll] sends, parsed and bound: its WHERE clause is the
    conjunction of the filters, its LIMIT the limit when it is not 0. *)
Lemma getAll_statement (dt : DbType) (f : Filters.t) :
  exists (s0 : SelectStmt) (cs : list Cond),
    parse (Transaction.b_query (Transaction.getAll_query dt f)) = Some s0
    /\ bind_select dt (Transaction.b_params (Transaction.getAll_query dt f)) s0
       = Some (mkSelect [Star] "transactions" cs None date_order
                        (option_map Bound (truthy_num (Filters.limit f))))
    /\ forall d r, eval_where dt d (Tx.to_obj r) cs = Some (matches f r).
Proof.
  destruct f as [ty ca sd ed li].
  destruct dt;
    destruct ty as [[| c1 s1] |]; destruct ca as [[| c2 s2] |];
    destruct sd as [sd |]; destruct ed as [ed |];
    destruct li as [[| z | z] |];
    (eexists; eexists; split; [reflexivity | split; [reflexivity |]]);
    intros d r; unfold matches, text_filter;
    cbn -[holds String.compare Date_compare];
    rewrite ?holds_EQ_text, ?holds_GE_date, ?holds_LE_date, ?andb_true_r;
    cbn [andb]; rewrite ?andb_assoc; reflexivity.
Qed.

Lemma getAll_runs (w : World) (f : Filters.t) :
  connected w ->
  (forall z, Filters.limit f = Some z -> 0 <= z) ->
  Transaction.getAll f w
  = (Ok (Rows (map Tx.to_obj
                   (capped (Filters.limit f)
                           (sort_by newest_first
                                    (filter (matches f) (transactions (database w))))))), w).
Proof.
  intros Hc Hlim. unfold Transaction.getAll, try_catch, bind.
  rewrite (query_connected _ _ _ Hc). unfold execute.
  destruct (getAll_statement (getDatabaseType w) f) as (s0 & cs & Hp & Hb & Hw).
  rewrite Hp, Hb.
  rewrite (select_ordered_transactions _ _ _ (matches f)) by apply Hw.
  cbv zeta. destruct w as [m d]. cbn [database dbManager].
  destruct (Filters.limit f) as [[| z | z] |]; cbn -[sort_by filter firstn Z.to_nat].
  - reflexivity.
  - rewrite <- firstn_map. reflexivity.
  - specialize (Hlim _ eq_refl). lia.
  - reflexivity.
Qed.

(** C5, amended.  On a connected manager, for every filter object whose
    limit is not negative, [getAll] returns the rows that satisfy all
    filters supplied with a truthy value (an empty string counts as not
    supplied), ordered by date descending, then creation time descending,
    cut to the first [limit] rows when a limit other than 0 is supplied
    (a limit of 0 counts as not supplied); when no row matches it returns
    the empty sequence. *)
Theorem getAll_filters_orders_caps (w : World) (f : Filters.t) :
  connected w ->
  (forall z, Filters.limit f = Some z -> 0 <= z) ->
  exists l : list Tx.row,
    Transaction.getAll f w = (Ok (Rows (map Tx.to_obj (capped (Filters.limit f) l))), w)
    /\ Permutation l (filter (matches f) (transactions (database w)))
    /\ StronglySorted (fun a b => newest_first a b = true) l
    /\ (filter (matches f) (transactions (database w)) = [] ->
        Transaction.getAll f w = (Ok (Rows []), w)).
Proof.
  intros Hc Hlim.
  exists (sort_by newest_first (filter (matches f) (transactions (database w)))).
  split; [apply getAll_runs; assumption |].
  split; [apply sort_by_perm |].
  split; [apply sort_by_sorted; [apply newest_first_total | apply newest_first_trans] |].
  intros Hnone. rewrite getAll_runs by assumption. rewrite Hnone.
  destruct (Filters.limit f) as [[| z | z] |]; cbn; rewrite ?firstn_nil; reflexivity.
Qed.

(** ** Category.getByName and Category.create *)

Lemma name_cond_cat (dt : DbType) (d : Database) (n : string) (r : Cat.row) :
  eval_where dt d (Cat.to_obj r) [Cmp (LOWER (Col "name")) EQ (LOWER (Bound (VText n)))]
  = Some (same_ignoring_case (Cat.name r) n).
Proof.
  unfold same_ignoring_case.
  destruct dt; cbn -[holds String.compare]; rewrite holds_EQ_text; now rewrite andb_true_r.
Qed.

Lemma getByName_runs (w : World) (n : string) :
  connected w ->
  Category.getByName (VText n) w
  = (Ok (hd_error (map Cat.to_obj
                       (filter (fun r => same_ignoring_case (Cat.name r) n)
                               (categories (database w))))), w).
Proof.
  intros Hc. unfold Category.getByName, try_catch, bind.
  rewrite (query_connected _ _ _ Hc).
  destruct (getDatabaseType w); cbn -[run_select];
    rewrite (select_all_categories _ _ _ (fun r => same_ignoring_case (Cat.name r) n))
      by (intros r; apply name_cond_cat);
    unfold ret; rewrite first_or_null; destruct w; reflexivity.
Qed.

Lemma category_getById_runs (w : World) (i : Z) :
  connected w ->
  Category.getById (VNum i) w
  = (Ok (hd_error (map Cat.to_obj (filter (fun r => Cat.id r =? i) (categories (database w))))), w).
Proof.
  intros Hc. unfold Category.getById, try_catch, bind.
  rewrite (query_connected _ _ _ Hc).
  destruct (getDatabaseType w); cbn -[run_select];
    rewrite (select_all_categories _ _ _ (fun r => Cat.id r =? i))
      by (intros r; apply id_cond_cat);
    unfold ret; rewrite first_or_null; destruct w; reflexivity.
Qed.

Lemma optional_string_rules_nil (label : string) (o : option string) (max : nat) (m : string) :
  optional_string_rules label o max m = [] ->
  match o with Some s => (js_length s <= max)%nat | None => True end.
Proof.
  destruct o as [s |]; simpl; [| trivial].
  destruct s as [| c s]; [discriminate |].
  intros Hr. apply rule_nil in Hr. now apply Nat.leb_le in Hr.
Qed.

Lemma char_length_le_length (s : string) : (char_length s <= String.length s)%nat.
Proof.
  induction s as [| c s IH]; [simpl; lia |].
  cbn [char_length String.length]. destruct (starts_char c); lia.
Qed.

Lemma color_rules_nil (o : option string) :
  color_rules o = [] ->
  match o with Some s => (char_length s <= 7)%nat | None => True end.
Proof.
  destruct o as [s |]; simpl; [| trivial].
  destruct s as [| c s]; [discriminate |].
  intros Hr. apply rule_nil in Hr. unfold color_pattern in Hr.
  destruct c as [[] [] [] [] [] [] [] []]; try discriminate.
  apply andb_true_iff in Hr as [Hl _]. apply Nat.eqb_eq in Hl.
  pose proof (char_length_le_length s). cbn [char_length].
  replace (starts_char "#") with true by reflexivity. lia.
Qed.

Lemma valid_category_inv (data : CatData.t) :
  valid_category data ->
  exists n t,
    CatData.name data = Some n /\ CatData.type data = Some t
    /\ (t = "income" \/ t = "expense")
    /\ Cat.fits (Cat.mk 0 n t (CatData.description data) (CatData.color data)
                        (CatData.icon data) 0 0) = true.
Proof.
  unfold valid_category, Category.validate, categorySchema. simpl. intros Hv.
  apply app_eq_nil in Hv as [Hn Hv]. apply app_eq_nil in Hv as [Ht Hv].
  apply app_eq_nil in Hv as [Hd Hv]. apply app_eq_nil in Hv as [Hc Hi].
  destruct data as [n t ds co ic]; simpl in *.
  apply string_rules_nil in Hn as [n' [-> Hn]].
  destruct t as [t |]; [| discriminate].
  apply rule_nil in Ht. apply orb_true_iff in Ht.
  assert (Ht' : t = "income" \/ t = "expense").
  { destruct Ht as [Ht | Ht]; apply String.eqb_eq in Ht; auto. }
  exists n', t. repeat split; trivial.
  apply color_rules_nil in Hc. apply optional_string_rules_nil in Hi.
  unfold Cat.fits. cbn [Cat.name Cat.type Cat.color Cat.icon].
  pose proof (char_length_le n').
  repeat (apply andb_true_iff; split).
  - apply Nat.leb_le. lia.
  - destruct Ht' as [-> | ->]; reflexivity.
  - destruct co as [s |]; [apply Nat.leb_le; exact Hc | reflexivity].
  - destruct ic as [s |]; [| reflexivity]. cbn. apply Nat.leb_le.
    pose proof (char_length_le s). lia.
Qed.

Lemma name_not_taken (rows : list Cat.row) (seq : Z) (r : Cat.row) :
  Forall (fun r' => Cat.id r' <= seq) rows -> Cat.id r = seq + 1 ->
  (forall r', In r' rows -> Cat.name r' <> Cat.name r) ->
  existsb (taken categories_table rows r) ["id"; "name"] = false.
Proof.
  intros Hids Hr Hnames. cbn [existsb]. rewrite orb_false_r. unfold taken.
  apply orb_false_iff. split.
  - clear Hnames. induction Hids as [| r' rows Hle _ IH]; [reflexivity |].
    cbn [existsb]. rewrite IH, orb_false_r. cbn. apply Z.eqb_neq. lia.
  - clear Hids. induction rows as [| r' rows IH]; [reflexivity |].
    cbn [existsb]. rewrite IH by (intros x Hx; apply Hnames; now right).
    rewrite orb_false_r. cbn. apply String.eqb_neq. apply Hnames. now left.
Qed.

Lemma insert_category_runs (dt : DbType) (d : Database)
      (n t : string) (ds co ic : option string) :
  (t = "income" \/ t = "expense") ->
  Cat.fits (Cat.mk 0 n t ds co ic 0 0) = true ->
  category_ids_in_sequence d ->
  (forall r, In r (categories d) -> Cat.name r <> n) ->
  execute dt d (Category.insert_category dt)
          (Category.category_params (CatData.mk (Some n) (Some t) ds co ic))
  = let r := Cat.mk (categories_seq d + 1) n t ds co ic (clock d) (clock d) in
    Done (write_result dt true [Cat.to_obj r] (categories_seq d + 1) 1,
          set_categories d (categories d ++ [r])%list (categories_seq d + 1)).
Proof.
  intros Ht Hfit Hids Hnames.
  assert (Hcheck : forall i ca ua, Cat.check (Cat.mk i n t ds co ic ca ua) = true).
  { intros. unfold Cat.check. cbn [Cat.type]. destruct Ht as [-> | ->]; reflexivity. }
  destruct dt; destruct ds, co, ic;
    cbn -[Z.add existsb Cat.check Cat.fits];
    unfold run_insert, insert_row;
    cbn -[Z.add existsb Cat.check Cat.fits taken];
    rewrite (name_not_taken _ (categories_seq d)) by (trivial; reflexivity);
    rewrite Hcheck; cbn [negb]; try reflexivity;
    unfold Cat.fits in *; cbn [Cat.name Cat.type Cat.color Cat.icon] in *;
    rewrite Hfit; reflexivity.
Qed.

Lemma filter_none {A : Type} (p : A -> bool) (l : list A) :
  (forall x, In x l -> p x = false) -> filter p l = [].
Proof.
  intros Hp. induction l as [| x l IH]; [reflexivity |].
  cbn [filter]. rewrite (Hp x) by now left. apply IH. intros y Hy. apply Hp. now right.
Qed.

Lemma filter_new_category_id (rows : list Cat.row) (seq : Z) (r : Cat.row) :
  Forall (fun r' => Cat.id r' <= seq) rows -> Cat.id r = seq + 1 ->
  filter (fun r' => Cat.id r' =? seq + 1) (rows ++ [r])%list = [r].
Proof.
  intros Hids Hr. induction Hids as [| r' rows Hle _ IH]; simpl.
  - rewrite Hr, Z.eqb_refl. reflexivity.
  - replace (Cat.id r' =? seq + 1) with false by (symmetry; apply Z.eqb_neq; lia).
    exact IH.
Qed.

Lemma same_ignoring_case_refl (n : string) : same_ignoring_case n n = true.
Proof. unfold same_ignoring_case. apply String.eqb_refl. Qed.

(** With the engine's LOWER as the measure: once [Category.create] has
    stored a category under a name (which it does for a candidate the
    schema accepts when LOWER tells the new name from every stored one),
    [getByName] returns that category's row for every name that LOWER does
    not tell from it, and [null] for a name that LOWER tells from every
    stored name. *)
Lemma getByName_follows_lower (w : World) (data : CatData.t) (n : string) :
  connected w ->
  category_ids_in_sequence (database w) ->
  valid_category data ->
  CatData.name data = Some n ->
  (forall r, In r (categories (database w)) -> same_ignoring_case (Cat.name r) n = false) ->
  exists (row : Obj) (w1 : World),
    Category.create data w = (Ok (Some row), w1)
    /\ field "name" row = Some (VText n)
    /\ (forall n', same_ignoring_case n' n = true ->
                   Category.getByName (VText n') w1 = (Ok (Some row), w1))
    /\ (forall n', (forall r, In r (categories (database w1)) ->
                              same_ignoring_case (Cat.name r) n' = false) ->
                   Category.getByName (VText n') w1 = (Ok None, w1)).
Proof.
  intros Hc Hids Hv Hn Hfree.
  pose proof Hv as Hv'.
  apply valid_category_inv in Hv' as (n0 & t & Hn0 & Ht0 & Ht & Hfit).
  rewrite Hn in Hn0. injection Hn0 as <-.
  destruct data as [dn dt' ds co ic]. cbn [CatData.name CatData.type] in *. subst dn dt'.
  cbn [CatData.description CatData.color CatData.icon] in Hfit.
  unfold valid_category, Category.validate in Hv. cbn [fst] in Hv.
  set (d := database w) in *.
  set (r := Cat.mk (categories_seq d + 1) n t ds co ic (clock d) (clock d)).
  set (d1 := set_categories d (categories d ++ [r])%list (categories_seq d + 1)).
  assert (Hc1 : connected (mkWorld (dbManager w) d1)) by exact Hc.
  assert (Hnames : forall r', In r' (categories d) -> Cat.name r' <> n).
  { intros r' Hin E. specialize (Hfree r' Hin). rewrite E, same_ignoring_case_refl in Hfree.
    discriminate. }
  exists (Cat.to_obj r), (mkWorld (dbManager w) d1).
  split; [| split; [reflexivity | split]].
  - unfold Category.create, Category.validate. rewrite Hv.
    unfold try_catch, bind at 1. cbn [CatData.name js_text].
    rewrite getByName_runs by exact Hc. fold d.
    rewrite filter_none by exact Hfree. cbn [map hd_error].
    unfold bind.
    destruct (getDatabaseType w) eqn:Edt;
      rewrite (query_connected _ _ _ Hc), Edt; fold d;
      rewrite insert_category_runs by auto;
      cbn [write_result lastID index_0]; fold r d1.
    + rewrite category_getById_runs by exact Hc1.
      cbn [database d1 set_categories categories].
      rewrite (filter_new_category_id _ _ r) by (trivial; reflexivity). reflexivity.
    + reflexivity.
  - intros n' Hvar. rewrite getByName_runs by exact Hc1.
    cbn [database d1 set_categories categories].
    apply String.eqb_eq in Hvar.
    rewrite filter_app, filter_none.
    + cbn [filter app]. unfold same_ignoring_case at 1. cbn [Cat.name r].
      rewrite Hvar, String.eqb_refl. reflexivity.
    + intros x Hx. unfold same_ignoring_case. rewrite Hvar. apply (Hfree x Hx).
  - intros n' Hnone. rewrite getByName_runs by exact Hc1.
    rewrite filter_none by exact Hnone. reflexivity.
Qed.

(** ** Category.delete *)

Lemma is_id_number (dt : DbType) (i : Z) (r : Cat.row) :
  is_id dt (VNum i) r = (Cat.id r =? i).
Proof.
  unfold is_id. destruct dt; cbn -[holds Z.compare]; apply holds_EQ_Z.
Qed.


Lemma usage_cond_none (dt : DbType) (d : Database) (i : Z) (t : Tx.row) :
  filter (fun r => Cat.id r =? i) (categories d) = [] ->
  eval_where dt d (Tx.to_obj t)
             [Cmp (Col "category") EQ (SELECT_name_FROM_categories_WHERE_id (Bound (VNum i)))]
  = Some false.
Proof.
  intros Hc. cbn [eval_where eval_cond eval field Tx.to_obj].
  cbn -[holds String.compare filter compare_values].
  rewrite (filter_ext _ (fun r => Cat.id r =? i)) by (intros r; apply is_id_number).
  rewrite Hc. destruct dt; reflexivity.
Qed.

(** SELECT COUNT(star) as count FROM transactions WHERE ... *)
Lemma select_count_transactions (dt : DbType) (d : Database) (cs : list Cond)
      (p : Tx.row -> bool) :
  (forall r, eval_where dt d (Tx.to_obj r) cs = Some (p r)) ->
  run_select dt d (mkSelect [Item COUNT_STAR "count"] "transactions" cs None [] None)
  = Some [[("count", VNum (Z.of_nat (List.length (filter p (transactions d)))))]].
Proof.
  intros Hp. unfold run_select. cbn -[Z.of_nat].
  rewrite keep_map, (keep_filter _ _ _ _ p) by exact Hp. cbn [option_map].
  unfold select_output. cbn -[Z.of_nat]. rewrite length_map. reflexivity.
Qed.




(** ** Transaction.getStatistics *)

(** A second WHERE after the WHERE on [type] is not a statement. *)
Lemma two_wheres_malformed (dt : DbType) (d : Database) (filters : Filters.t)
      (sd ed : Date) (q : Sql) :
  Filters.startDate filters = Some sd -> Filters.endDate filters = Some ed ->
  In q (Transaction.statistics_queries (fst (Transaction.dateFilter dt filters))) ->
  execute dt d q (snd (Transaction.dateFilter dt filters)) = Fail Malformed.
Proof.
  intros Hs He. unfold Transaction.dateFilter. rewrite Hs, He. cbn [truthy_date option_map].
  destruct dt; cbn [fst snd]; intros [<- | [<- | [<- | [<- | []]]]]; reflexivity.
Qed.

Lemma query_fails (w : World) (sql : Sql) (params : list Value) :
  execute (getDatabaseType w) (database w) sql params = Fail Malformed ->
  exists e, query sql params w = (Throw e, w).
Proof.
  intros Hx. unfold query.
  destruct (isConnected (dbManager w)); [| eexists; reflexivity].
  destruct (connection (dbManager w)) as [c |]; [| eexists; reflexivity].
  destruct (closed c); [eexists; reflexivity |].
  rewrite Hx. eexists. reflexivity.
Qed.

(** C1, as the code runs.  With both [startDate] and [endDate] supplied
    [getStatistics] rejects with 'Error al obtener las estadísticas',
    whatever the store holds and whichever the backend: the date
    condition is spliced in as a second WHERE behind the WHERE on [type],
    and neither engine takes the statement.  The totals and breakdowns of
    the claim are never returned. *)
Theorem getStatistics_rejects_date_range (w : World) (filters : Filters.t) (sd ed : Date) :
  Filters.startDate filters = Some sd ->
  Filters.endDate filters = Some ed ->
  Transaction.getStatistics filters w
  = (Throw (Error "Error al obtener las estadísticas"), w).
Proof.
  intros Hs He. unfold Transaction.getStatistics, try_catch.
  pose proof (two_wheres_malformed (getDatabaseType w) (database w) filters sd ed) as Hq.
  specialize (Hq (Transaction.total_query "total_income" "income"
                    (fst (Transaction.dateFilter (getDatabaseType w) filters))) Hs He).
  destruct (Transaction.dateFilter (getDatabaseType w) filters) as [df params].
  cbn [fst snd] in Hq.
  destruct (query_fails w _ _ (Hq (or_introl eq_refl))) as [e Hthrow].
  unfold Transaction.statistics_queries. cbn [Transaction.query_all].
  unfold bind at 1. unfold bind at 1. rewrite Hthrow. reflexivity.
Qed.

(** Without a date range and without rows the totals are 0 and the
    breakdowns empty. *)
Lemma getStatistics_no_rows (w : World) (filters : Filters.t) :
  connected w ->
  Filters.startDate filters = None \/ Filters.endDate filters = None ->
  transactions (database w) = [] ->
  Transaction.getStatistics filters w
  = (Ok (mkStatistics (Num 0) (Num 0) (Num 0) [] []), w).
Proof.
  intros Hc Hf Hrows. unfold Transaction.getStatistics, try_catch.
  assert (Hdf : forall dt, Transaction.dateFilter dt filters = ([], [])).
  { intros dt. unfold Transaction.dateFilter.
    destruct Hf as [-> | ->]; [reflexivity |].
    destruct (truthy_date (Filters.startDate filters)); reflexivity. }
  rewrite Hdf. clear Hdf Hf.
  destruct w as [[dt c ic] [txs seq cats cseq trg clk]].
  destruct Hc as [Hic Hconn]. cbn in Hrows, Hic, Hconn. subst txs ic c.
  destruct dt; reflexivity.
Qed.

(** ** Transaction.getMonthlyData on SQLite *)

(** [strftime('%Y', date)] is a text and the year bound to [?] a number:
    with no affinity on either side SQLite compares them by storage class
    and they are never equal. *)
Lemma sqlite_year_cond (d : Database) (y : Z) (r : Tx.row) :
  eval_where sqlite d (Tx.to_obj r) [Cmp (STRFTIME "%Y" (Col "date")) EQ (Bound (VNum y))]
  = Some false.
Proof. reflexivity. Qed.

Lemma filter_false {A : Type} (l : list A) : filter (fun _ => false) l = [].
Proof. induction l; simpl; auto. Qed.

Lemma sqlite_monthly_always_empty (w : World) (y : Z) :
  connected w ->
  getDatabaseType w = sqlite ->
  Transaction.getMonthlyData y w = (Ok [], w).
Proof.
  intros Hc Edt. unfold Transaction.getMonthlyData, try_catch, bind.
  rewrite (query_connected _ _ _ Hc), Edt.
  cbn -[run_select]. unfold run_select. cbn -[keep].
  rewrite keep_map, (keep_filter _ _ _ _ (fun _ => false)) by (intros r; apply sqlite_year_cond).
  rewrite filter_false. destruct w. reflexivity.
Qed.

(** ** GROUP BY

    The engine groups in one scan: a row joins the group of its key or
    opens a new one behind the others. *)

Section Grouping.
Context {K A : Type} (key : A -> K) (eqb : K -> K -> bool).
Hypothesis eqb_eq : forall a b, eqb a b = true <-> a = b.

Lemma add_to_group_keys (k : K) (x : A) (gs : list (K * list A)) :
  map fst (add_to_group eqb k x gs)
  = if existsb (eqb k) (map fst gs) then map fst gs else (map fst gs ++ [k])%list.
Proof.
  induction gs as [| [k' xs] gs IH]; [reflexivity |].
  cbn [add_to_group map fst existsb]. destruct (eqb k k') eqn:E; cbn [orb map fst].
  - reflexivity.
  - rewrite IH. destruct (existsb (eqb k) (map fst gs)); reflexivity.
Qed.

Lemma existsb_eqb_In (k : K) (l : list K) : existsb (eqb k) l = true <-> In k l.
Proof.
  rewrite existsb_exists. split.
  - intros [y [Hin Hy]]. apply eqb_eq in Hy. now subst.
  - intros Hin. exists k. split; [exact Hin | now apply eqb_eq].
Qed.

Lemma add_to_group_In (k : K) (x : A) (gs : list (K * list A)) (k0 : K) (g0 : list A) :
  NoDup (map fst gs) ->
  In (k0, g0) (add_to_group eqb k x gs) ->
  (k0 <> k /\ In (k0, g0) gs)
  \/ (k0 = k /\ ((exists g, In (k, g) gs /\ g0 = (g ++ [x])%list)
                 \/ (~ In k (map fst gs) /\ g0 = [x]))).
Proof.
  induction gs as [| [k' xs] gs IH]; intros Hnd Hin.
  - cbn in Hin. destruct Hin as [E | []]. injection E as <- <-.
    right. split; [reflexivity |]. right. split; [intros [] | reflexivity].
  - cbn [add_to_group] in Hin. cbn [map fst] in Hnd. inversion Hnd as [| ? ? Hnotin Hnd']; subst.
    destruct (eqb k k') eqn:E.
    + apply eqb_eq in E. subst k'. destruct Hin as [E | Hin].
      * injection E as <- <-. right. split; [reflexivity |]. left. exists xs.
        split; [now left | reflexivity].
      * left. split; [| now right]. intros ->. apply Hnotin.
        apply in_map_iff. exists (k, g0). split; [reflexivity | exact Hin].
    + assert (Hne : k <> k') by (intros ->; rewrite (proj2 (eqb_eq k' k') eq_refl) in E; discriminate).
      destruct Hin as [E' | Hin].
      * injection E' as <- <-. left. split; [congruence | now left].
      * destruct (IH Hnd' Hin) as [[Hk Hin'] | [Hk [[g [Hg Hg0]] | [Hn Hg0]]]].
        -- left. split; [exact Hk | now right].
        -- right. split; [exact Hk |]. left. exists g. split; [now right | exact Hg0].
        -- right. split; [exact Hk |]. right. split; [| exact Hg0].
           cbn [map fst]. intros [E' | Hin']; [congruence | contradiction].
Qed.

Lemma filter_snoc (p : A -> bool) (l : list A) (x : A) :
  filter p (l ++ [x])%list = (filter p l ++ (if p x then [x] else []))%list.
Proof. rewrite filter_app. reflexivity. Qed.

(** The invariant of the scan. *)
Lemma grouped_add (gs : list (K * list A)) (done : list A) (x : A) :
  grouped key eqb gs done -> grouped key eqb (add_to_group eqb (key x) x gs) (done ++ [x])%list.
Proof.
  intros (Hnd & Hgroups & Hcover). split; [| split].
  - rewrite add_to_group_keys. destruct (existsb (eqb (key x)) (map fst gs)) eqn:E; [exact Hnd |].
    apply NoDup_app; try assumption.
    + constructor; [intros [] | constructor].
    + intros a Ha [<- | []]. apply existsb_eqb_In in Ha. congruence.
  - intros k g Hin. apply add_to_group_In in Hin; [| exact Hnd].
    rewrite filter_snoc.
    destruct Hin as [[Hk Hin] | [-> [[g' [Hg' ->]] | [Hn ->]]]].
    + destruct (Hgroups _ _ Hin) as [Hg Hne].
      destruct (eqb (key x) k) eqn:E; [apply eqb_eq in E; congruence |].
      rewrite app_nil_r. split; assumption.
    + destruct (Hgroups _ _ Hg') as [Hg Hne].
      rewrite (proj2 (eqb_eq (key x) (key x)) eq_refl), <- Hg.
      split; [reflexivity |]. destruct g'; discriminate.
    + rewrite (proj2 (eqb_eq (key x) (key x)) eq_refl).
      assert (Hnone : filter (fun r => eqb (key r) (key x)) done = []).
      { apply filter_none. intros r Hr.
        destruct (eqb (key r) (key x)) eqn:E; [| reflexivity].
        apply eqb_eq in E. exfalso. apply Hn. rewrite <- E. now apply Hcover. }
      rewrite Hnone. split; [reflexivity | discriminate].
  - intros r Hr. rewrite add_to_group_keys. apply in_app_or in Hr.
    destruct (existsb (eqb (key x)) (map fst gs)) eqn:E.
    + destruct Hr as [Hr | [<- | []]]; [now apply Hcover | now apply existsb_eqb_In].
    + apply in_or_app. destruct Hr as [Hr | [<- | []]]; [left; now apply Hcover | right; now left].
Qed.

Lemma grouped_from (rows : list A) (gs : list (K * list A)) (done : list A) :
  grouped key eqb gs done -> grouped key eqb (group_from key eqb rows gs) (done ++ rows)%list.
Proof.
  revert gs done. induction rows as [| r rows IH]; intros gs done Hg.
  - cbn. now rewrite app_nil_r.
  - cbn [group_from]. replace (done ++ r :: rows)%list with ((done ++ [r]) ++ rows)%list
      by (rewrite <- app_assoc; reflexivity).
    apply IH. now apply grouped_add.
Qed.

Lemma grouped_by (rows : list A) : grouped key eqb (group_by key eqb rows) rows.
Proof.
  apply (grouped_from rows [] []). split; [constructor | split]; intros; contradiction.
Qed.

End Grouping.

(** Grouping the objects of typed rows by the values of a typed key is
    grouping the typed rows by that key. *)
Section EngineGroups.
Context {K A : Type} (f : A -> Obj) (key : A -> K) (eqb : K -> K -> bool)
        (enc : K -> list Value).
Hypothesis enc_eqb : forall a b, key_eqb (enc a) (enc b) = eqb a b.

Lemma add_to_group_encode (k : K) (x : A) (gs : list (K * list A)) :
  add_to_group key_eqb (enc k) (f x) (map (encode f enc) gs)
  = map (encode f enc) (add_to_group eqb k x gs).
Proof.
  induction gs as [| [k' xs] gs IH]; [reflexivity |].
  cbn [map add_to_group]. unfold encode at 1. cbn [fst snd]. rewrite enc_eqb.
  destruct (eqb k k'); cbn [map].
  - unfold encode at 2. cbn [fst snd]. now rewrite map_app.
  - rewrite <- IH. reflexivity.
Qed.

Lemma group_rows_encode (dt : DbType) (d : Database) (es : list Expr)
      (rows : list A) (gs : list (K * list A)) :
  (forall r, eval_key dt d (f r) es = Some (enc (key r))) ->
  group_rows dt d es (map f rows) (map (encode f enc) gs)
  = Some (map (encode f enc) (group_from key eqb rows gs)).
Proof.
  intros Hkey. revert gs. induction rows as [| r rows IH]; intros gs; [reflexivity |].
  cbn [map group_rows group_from]. rewrite Hkey, add_to_group_encode. apply IH.
Qed.

Lemma output_groups_encode (dt : DbType) (d : Database) (items : list SelItem)
      (out : K * list A -> Obj) (gs : list (K * list A)) :
  (forall kg, In kg gs -> output_group dt d (map f (snd kg)) items = Some (out kg)) ->
  output_groups dt d items (map (encode f enc) gs) = Some (map out gs).
Proof.
  induction gs as [| kg gs IH]; intros Hout; [reflexivity |].
  cbn [map output_groups encode]. rewrite (Hout kg) by now left.
  rewrite IH by (intros x Hx; apply Hout; now right). reflexivity.
Qed.

End EngineGroups.

(** ** Transaction.getStatistics without a date range *)

(** SUM over no row is NULL. *)
Lemma sum_amounts (dt : DbType) (d : Database) (g : list Tx.row) :
  eval_sel dt d (map Tx.to_obj g) (SUM (Col "amount"))
  = Some (match g with [] => VNull | _ => VNum (total g) end).
Proof.
  cbn [eval_sel].
  assert (Hall : eval_all dt d (Col "amount") (map Tx.to_obj g)
                 = Some (map (fun r => VNum (Tx.amount r)) g)).
  { induction g as [| r g IH]; [reflexivity |]. cbn [map eval_all]. rewrite IH. reflexivity. }
  rewrite Hall. clear Hall.
  induction g as [| r g IH]; [reflexivity |].
  cbn [map sum_values total]. rewrite IH. destruct g; [cbn; now rewrite Z.add_0_r | reflexivity].
Qed.

Lemma type_cond (dt : DbType) (d : Database) (kind : string) (r : Tx.row) :
  eval_where dt d (Tx.to_obj r) [Cmp (Col "type") EQ (Str kind)] = Some (of_kind kind r).
Proof.
  unfold of_kind.
  destruct dt; cbn -[holds String.compare]; rewrite holds_EQ_text; now rewrite andb_true_r.
Qed.

Lemma category_key_eqb (a b : string) : key_eqb [VText a] [VText b] = String.eqb a b.
Proof. cbn. now rewrite andb_true_r. Qed.

Lemma order_leb_total (a b : string * list Tx.row) :
  order_leb [("total", DESC)] (category_out a) (category_out b) = by_total_desc a b.
Proof.
  unfold order_leb, by_total_desc. cbn -[Z.compare total].
  destruct (Z.compare_spec (total (snd a)) (total (snd b))); cbn;
    symmetry; first [apply Z.leb_le; lia | apply Z.leb_gt; lia].
Qed.

Lemma order_keys_total (gs : list (string * list Tx.row)) :
  order_keys_known [("total", DESC)] (map category_out gs) = true.
Proof. induction gs as [| g gs IH]; [reflexivity |]. cbn. exact IH. Qed.

Lemma category_group_output (dt : DbType) (d : Database) (rows : list Tx.row)
      (kg : string * list Tx.row) :
  In kg (group_by Tx.category String.eqb rows) ->
  output_group dt d (map Tx.to_obj (snd kg))
               [Item (Scalar (Col "category")) "category"; Item (SUM (Col "amount")) "total"]
  = Some (category_out kg).
Proof.
  intros Hin. destruct kg as [k g].
  destruct (grouped_by Tx.category String.eqb String.eqb_eq rows) as (_ & Hgroups & _).
  destruct (Hgroups _ _ Hin) as [Hg Hne].
  cbn [output_group snd]. rewrite sum_amounts.
  destruct g as [| r g']; [contradiction |].
  assert (Hr : Tx.category r = k).
  { assert (Hin' : In r (filter (fun r => String.eqb (Tx.category r) k) rows))
      by (rewrite <- Hg; now left).
    apply filter_In in Hin' as [_ E]. now apply String.eqb_eq in E. }
  cbn -[total]. rewrite Hr. reflexivity.
Qed.

(** The by-category query: the categories of one kind with their sums,
    larger sums first. *)
Lemma by_category_runs (dt : DbType) (d : Database) (kind : string) :
  execute dt d (Transaction.by_category_query kind []) []
  = Done (Rows (map category_out
                    (sort_by by_total_desc
                             (group_by Tx.category String.eqb
                                       (filter (of_kind kind) (transactions d))))), d).
Proof.
  unfold execute, Transaction.by_category_query.
  cbn [app parse take_where take_ands take_group take_order take_limit].
  assert (Hb : bind_select dt []
                 (mkSelect [Item (Scalar (Col "category")) "category";
                            Item (SUM (Col "amount")) "total"]
                           "transactions" [Cmp (Col "type") EQ (Str kind)]
                           (Some [Col "category"]) [("total", DESC)] None)
               = Some (mkSelect [Item (Scalar (Col "category")) "category";
                                 Item (SUM (Col "amount")) "total"]
                                "transactions" [Cmp (Col "type") EQ (Str kind)]
                                (Some [Col "category"]) [("total", DESC)] None))
    by (destruct dt; reflexivity).
  rewrite Hb. clear Hb.
  unfold run_select. cbn [sel_table sel_where]. cbn [scan String.eqb Ascii.eqb Bool.eqb].
  rewrite keep_map, (keep_filter _ _ _ _ (of_kind kind)) by (intros r; apply type_cond).
  cbn [option_map]. unfold select_output. cbn [sel_group sel_items].
  change (@nil (list Value * list Obj))
    with (map (encode Tx.to_obj (fun c : string => [VText c])) []).
  rewrite (group_rows_encode Tx.to_obj Tx.category String.eqb (fun c => [VText c])
             category_key_eqb) by reflexivity.
  fold (group_by Tx.category String.eqb (filter (of_kind kind) (transactions d))).
  rewrite (output_groups_encode Tx.to_obj (fun c => [VText c]) dt d _ category_out)
    by (intros kg Hin; eapply category_group_output; exact Hin).
  unfold order_and_limit. cbn [sel_order sel_limit]. rewrite order_keys_total.
  rewrite (sort_by_map category_out by_total_desc) by apply order_leb_total.
  reflexivity.
Qed.

Lemma coalesce_sum (dt : DbType) (d : Database) (g : list Tx.row) :
  eval_sel dt d (map Tx.to_obj g) (COALESCE (SUM (Col "amount")) (Int 0))
  = Some (VNum (total g)).
Proof.
  pose proof (sum_amounts dt d g) as E. cbn [eval_sel] in E |- *. rewrite E.
  destruct g; reflexivity.
Qed.

(** The totals query: COALESCE turns the NULL of no row into 0. *)
Lemma total_runs (dt : DbType) (d : Database) (alias kind : string) :
  execute dt d (Transaction.total_query alias kind []) []
  = Done (Rows [[(alias, VNum (total (filter (of_kind kind) (transactions d))))]], d).
Proof.
  unfold execute, Transaction.total_query.
  cbn [app parse take_where take_ands take_group take_order take_limit].
  assert (Hb : forall s, sel_where s = [Cmp (Col "type") EQ (Str kind)] -> sel_limit s = None ->
                         bind_select dt [] s
                         = Some (mkSelect (sel_items s) (sel_table s) (sel_where s)
                                          (sel_group s) (sel_order s) None)).
  { intros s Hw Hl. unfold bind_select. rewrite Hw, Hl. destruct dt; reflexivity. }
  rewrite Hb by reflexivity. clear Hb.
  unfold run_select. cbn [sel_table sel_where]. cbn [scan String.eqb Ascii.eqb Bool.eqb].
  rewrite keep_map, (keep_filter _ _ _ _ (of_kind kind)) by (intros r; apply type_cond).
  cbn [option_map]. unfold select_output. cbn [sel_group sel_items aggregates existsb is_aggregate orb].
  cbn [output_group]. rewrite coalesce_sum. cbn [option_map].
  unfold order_and_limit. cbn [sel_order sel_limit order_keys_known forallb andb sort_by insert_by].
  reflexivity.
Qed.

Lemma parseFloat_or_0 (z : Z) : parseFloat (or_0 (Some (VNum z))) = Num z.
Proof. destruct z; reflexivity. Qed.

Lemma breakdown_rows (gs : list (string * list Tx.row)) :
  Transaction.breakdown (Some (Rows (map category_out gs))) = map category_entry gs.
Proof.
  unfold Transaction.breakdown. cbn [rows_or_empty]. rewrite map_map.
  apply map_ext. intros kg. reflexivity.
Qed.

(** Without a date range the statistics are the sums over the store. *)
Lemma getStatistics_sums (w : World) (filters : Filters.t) :
  connected w ->
  Filters.startDate filters = None \/ Filters.endDate filters = None ->
  let rows := transactions (database w) in
  let income := total (filter (of_kind "income") rows) in
  let expenses := total (filter (of_kind "expense") rows) in
  Transaction.getStatistics filters w
  = (Ok (mkStatistics (Num income) (Num expenses) (Num (income - expenses))
                      (breakdown_of "expense" rows) (breakdown_of "income" rows)), w).
Proof.
  intros Hc Hf rows income expenses. unfold Transaction.getStatistics, try_catch.
  assert (Hdf : forall dt, Transaction.dateFilter dt filters = ([], [])).
  { intros dt. unfold Transaction.dateFilter.
    destruct Hf as [-> | ->]; [reflexivity |].
    destruct (truthy_date (Filters.startDate filters)); reflexivity. }
  rewrite Hdf. clear Hdf Hf.
  assert (Hq : forall sql out,
             execute (getDatabaseType w) (database w) sql [] = Done (Rows out, database w) ->
             query sql [] w = (Ok (Rows out), w)).
  { intros sql out Hx. rewrite (query_connected _ _ _ Hc), Hx. destruct w; reflexivity. }
  unfold Transaction.statistics_queries. cbn [Transaction.query_all]. unfold bind.
  rewrite (Hq _ _ (total_runs _ _ _ _)), (Hq _ _ (total_runs _ _ _ _)),
    (Hq _ _ (by_category_runs _ _ _)), (Hq _ _ (by_category_runs _ _ _)).
  unfold ret. cbn [Transaction.result nth_error].
  rewrite !breakdown_rows.
  cbn [Transaction.first_row_field index_0 field String.eqb Ascii.eqb Bool.eqb].
  rewrite !parseFloat_or_0. reflexivity.
Qed.

(** ** Transaction.getMonthlyData on PostgreSQL *)

Lemma month_kind_eqb_eq (a b : Z * string) : month_kind_eqb a b = true <-> a = b.
Proof.
  unfold month_kind_eqb. destruct a as [m s], b as [n t]. cbn [fst snd].
  rewrite andb_true_iff, Z.eqb_eq, String.eqb_eq. split.
  - intros [-> ->]. reflexivity.
  - intros E. injection E as -> ->. split; reflexivity.
Qed.

Lemma month_key_eqb (a b : Z * string) :
  key_eqb (month_key a) (month_key b) = month_kind_eqb a b.
Proof. unfold month_kind_eqb. cbn. now rewrite andb_true_r. Qed.

(** [EXTRACT(YEAR FROM date) = $1] compares two numbers. *)
Lemma postgresql_year_cond (d : Database) (y : Z) (r : Tx.row) :
  eval_where postgresql d (Tx.to_obj r) [Cmp (EXTRACT "YEAR" (Col "date")) EQ (Bound (VNum y))]
  = Some (in_year y r).
Proof.
  unfold in_year. cbn -[holds Z.compare]. rewrite holds_EQ_Z. now rewrite andb_true_r.
Qed.

Lemma order_leb_month (a b : (Z * string) * list Tx.row) :
  order_leb [("month", ASC); ("type", ASC)] (month_out a) (month_out b) = by_month_kind a b.
Proof.
  unfold order_leb, by_month_kind, String.leb. cbn -[Z.compare String.compare total].
  destruct (fst (fst a) ?= fst (fst b)); try reflexivity.
  destruct (String.compare (snd (fst a)) (snd (fst b))); reflexivity.
Qed.

Lemma order_keys_month (gs : list ((Z * string) * list Tx.row)) :
  order_keys_known [("month", ASC); ("type", ASC)] (map month_out gs) = true.
Proof. induction gs as [| g gs IH]; [reflexivity |]. cbn. exact IH. Qed.

Lemma month_group_output (d : Database) (rows : list Tx.row)
      (kg : (Z * string) * list Tx.row) :
  In kg (group_by month_kind month_kind_eqb rows) ->
  output_group postgresql d (map Tx.to_obj (snd kg))
               [Item (Scalar (EXTRACT "MONTH" (Col "date"))) "month";
                Item (Scalar (Col "type")) "type";
                Item (SUM (Col "amount")) "total"]
  = Some (month_out kg).
Proof.
  intros Hin. destruct kg as [k g].
  destruct (grouped_by month_kind month_kind_eqb month_kind_eqb_eq rows) as (_ & Hgroups & _).
  destruct (Hgroups _ _ Hin) as [Hg Hne].
  cbn [output_group snd]. rewrite sum_amounts.
  destruct g as [| r g']; [contradiction |].
  assert (Hr : month_kind r = k).
  { assert (Hin' : In r (filter (fun r => month_kind_eqb (month_kind r) k) rows))
      by (rewrite <- Hg; now left).
    apply filter_In in Hin' as [_ E]. now apply month_kind_eqb_eq in E. }
  subst k. cbn -[total]. reflexivity.
Qed.

(** On PostgreSQL the monthly data are the sums per month and kind of the
    rows of the year, by month then kind. *)
Lemma postgresql_monthly_runs (w : World) (y : Z) :
  connected w ->
  getDatabaseType w = postgresql ->
  Transaction.getMonthlyData y w = (Ok (monthly_of y (transactions (database w))), w).
Proof.
  intros Hc Edt. unfold Transaction.getMonthlyData, try_catch, bind.
  rewrite (query_connected _ _ _ Hc), Edt.
  cbn -[run_select]. unfold run_select. cbn [sel_table sel_where].
  cbn [scan String.eqb Ascii.eqb Bool.eqb].
  rewrite keep_map, (keep_filter _ _ _ _ (in_year y)) by (intros r; apply postgresql_year_cond).
  cbn [option_map]. unfold select_output. cbn [sel_group sel_items].
  change (@nil (list Value * list Obj)) with (map (encode Tx.to_obj month_key) []).
  rewrite (group_rows_encode Tx.to_obj month_kind month_kind_eqb month_key month_key_eqb)
    by reflexivity.
  fold (group_by month_kind month_kind_eqb (filter (in_year y) (transactions (database w)))).
  rewrite (output_groups_encode Tx.to_obj month_key postgresql _ _ month_out)
    by (intros kg Hin; eapply month_group_output; exact Hin).
  unfold order_and_limit. cbn [sel_order sel_limit]. rewrite order_keys_month.
  rewrite (sort_by_map month_out by_month_kind) by apply order_leb_month.
  unfold ret. cbn [rows_or_empty]. rewrite map_map.
  destruct w. reflexivity.
Qed.

(** ** What the breakdowns and the monthly data hold *)

Section Entries.
Context {K A : Type} (key : A -> K) (eqb : K -> K -> bool).
Hypothesis eqb_eq : forall a b, eqb a b = true <-> a = b.

Lemma grouped_In_iff (gs : list (K * list A)) (done : list A) (k : K) (g : list A) :
  grouped key eqb gs done ->
  In (k, g) gs <-> g = filter (fun r => eqb (key r) k) done /\ g <> [].
Proof.
  intros (Hnd & Hgroups & Hcover). split; [apply Hgroups |].
  intros [Hg Hne]. destruct g as [| r g']; [contradiction |].
  assert (Hr : In r (filter (fun r => eqb (key r) k) done)) by (rewrite <- Hg; now left).
  apply filter_In in Hr as [Hin E]. apply eqb_eq in E.
  specialize (Hcover r Hin). rewrite E in Hcover.
  apply in_map_iff in Hcover as ([k' g''] & Ek & Hin'). cbn in Ek. subst k'.
  destruct (Hgroups _ _ Hin') as [Hg'' _]. rewrite Hg. rewrite <- Hg''. exact Hin'.
Qed.

Lemma group_by_In_iff (rows : list A) (k : K) (g : list A) :
  In (k, g) (group_by key eqb rows)
  <-> g = filter (fun r => eqb (key r) k) rows /\ g <> [].
Proof. apply grouped_In_iff. apply grouped_by. exact eqb_eq. Qed.

Lemma filter_not_nil (p : A -> bool) (l : list A) :
  filter p l <> [] <-> exists r, In r l /\ p r = true.
Proof.
  split.
  - intros Hne. destruct (filter p l) as [| r g] eqn:E; [contradiction |].
    exists r. apply filter_In. rewrite E. now left.
  - intros (r & Hr) E. apply filter_In in Hr. rewrite E in Hr. exact Hr.
Qed.
End Entries.

Lemma filter_filter {A : Type} (p q : A -> bool) (l : list A) :
  filter q (filter p l) = filter (fun r => p r && q r) l.
Proof.
  induction l as [| x l IH]; [reflexivity |]. cbn.
  destruct (p x); cbn; [destruct (q x) |]; now rewrite IH.
Qed.

Lemma StronglySorted_map {A B : Type} (f : A -> B) (R : B -> B -> Prop) (l : list A) :
  StronglySorted (fun a b => R (f a) (f b)) l -> StronglySorted R (map f l).
Proof.
  induction 1 as [| x l Hs IH Hall]; cbn; constructor; [exact IH |].
  apply Forall_map. exact Hall.
Qed.

(** An entry per category that has a row of the kind, carrying the sum of
    the amounts of those rows; no entry for any other category. *)
Lemma breakdown_of_entries (kind : string) (rows : list Tx.row) (name : string) (t : Z) :
  In (mkCategoryTotal (Some (VText name)) (Num t)) (breakdown_of kind rows)
  <-> (exists r, In r rows /\ of_kind kind r && in_category name r = true)
      /\ t = total (filter (fun r => of_kind kind r && in_category name r) rows).
Proof.
  unfold breakdown_of. rewrite in_map_iff. split.
  - intros ([k g] & E & Hin). unfold category_entry in E. cbn [fst snd] in E.
    injection E as -> <-.
    eapply Permutation_in in Hin; [| apply sort_by_perm].
    apply (group_by_In_iff Tx.category String.eqb String.eqb_eq) in Hin as [Hg Hne].
    fold (in_category name) in Hg. rewrite filter_filter in Hg. subst g.
    split; [| reflexivity]. now apply filter_not_nil.
  - intros [Hex ->].
    exists (name, filter (fun r => of_kind kind r && in_category name r) rows).
    split; [reflexivity |].
    eapply Permutation_in; [apply Permutation_sym, sort_by_perm |].
    apply (group_by_In_iff Tx.category String.eqb String.eqb_eq).
    fold (in_category name). rewrite filter_filter. split; [reflexivity |].
    now apply filter_not_nil.
Qed.

Lemma StronglySorted_impl {A : Type} (R S : A -> A -> Prop) (l : list A) :
  (forall a b, R a b -> S a b) -> StronglySorted R l -> StronglySorted S l.
Proof.
  intros HRS. induction 1 as [| x l Hs IH Hall]; constructor; [exact IH |].
  eapply Forall_impl; [| exact Hall]. intros b. apply HRS.
Qed.

(** Larger totals first, and no category twice. *)
Lemma breakdown_of_sorted (kind : string) (rows : list Tx.row) :
  StronglySorted total_ge (breakdown_of kind rows).
Proof.
  unfold breakdown_of. apply StronglySorted_map.
  apply StronglySorted_impl with (R := fun a b => by_total_desc a b = true).
  - intros a b E. unfold total_ge, category_entry. cbn. unfold by_total_desc in E.
    now apply Z.leb_le.
  - apply (sort_by_sorted by_total_desc).
    + intros a b. unfold by_total_desc. rewrite !Z.leb_le. lia.
    + intros a b c. unfold by_total_desc. rewrite !Z.leb_le. lia.
Qed.

Lemma breakdown_of_categories (kind : string) (rows : list Tx.row) :
  NoDup (map ct_category (breakdown_of kind rows)).
Proof.
  unfold breakdown_of. rewrite map_map.
  match goal with
  | |- NoDup (map _ ?l) =>
      replace (map (fun x => ct_category (category_entry x)) l)
        with (map (fun s => Some (VText s)) (map fst l))
        by (rewrite map_map; reflexivity)
  end.
  apply Finite.Injective_map_NoDup.
  - intros a b E. now injection E.
  - eapply Permutation_NoDup.
    + apply Permutation_map. apply Permutation_sym. apply sort_by_perm.
    + apply (grouped_by Tx.category String.eqb String.eqb_eq).
Qed.

Lemma by_month_kind_total (a b : (Z * string) * list Tx.row) :
  by_month_kind a b = true \/ by_month_kind b a = true.
Proof.
  unfold by_month_kind. rewrite (Z.compare_antisym (fst (fst a)) (fst (fst b))).
  destruct (fst (fst a) ?= fst (fst b)); cbn; auto.
  unfold String.leb. rewrite (String.compare_antisym (snd (fst a)) (snd (fst b))).
  destruct (String.compare (snd (fst b)) (snd (fst a))); cbn; auto.
Qed.

Section Adjacent.
Context {A : Type} (leb : A -> A -> bool).
Hypothesis leb_total : forall a b, leb a b = true \/ leb b a = true.

Lemma insert_by_adjacent (x : A) (l : list A) :
  Sorted (fun a b => leb a b = true) l ->
  Sorted (fun a b => leb a b = true) (insert_by leb x l).
Proof.
  induction 1 as [| y l Hs IH Hhd]; simpl.
  - constructor; constructor.
  - destruct (leb x y) eqn:E.
    + constructor; [constructor; assumption | constructor; exact E].
    + assert (Hyx : leb y x = true) by (destruct (leb_total x y); congruence).
      constructor; [exact IH |].
      destruct l as [| z l]; simpl.
      * constructor. exact Hyx.
      * destruct (leb x z); constructor; [exact Hyx |].
        inversion Hhd. assumption.
Qed.

Lemma sort_by_adjacent (l : list A) : Sorted (fun a b => leb a b = true) (sort_by leb l).
Proof.
  induction l as [| x l IH]; simpl; [constructor |].
  apply insert_by_adjacent. exact IH.
Qed.
End Adjacent.

(** An entry per month and kind that has a row in the year, carrying the
    sum of the amounts of those rows; no entry for a month without rows. *)
Lemma monthly_of_entries (y : Z) (rows : list Tx.row) (m : Z) (kind : string) (t : Z) :
  In (mkMonthlyEntry (Num m) (Some (VText kind)) (Num t)) (monthly_of y rows)
  <-> (exists r, In r rows /\ in_year y r && in_month_kind m kind r = true)
      /\ t = total (filter (fun r => in_year y r && in_month_kind m kind r) rows).
Proof.
  unfold monthly_of. rewrite in_map_iff. split.
  - intros ([[m' k'] g] & E & Hin). unfold month_entry in E. cbn [fst snd] in E.
    injection E as -> -> <-.
    eapply Permutation_in in Hin; [| apply sort_by_perm].
    apply (group_by_In_iff month_kind month_kind_eqb month_kind_eqb_eq) in Hin as [Hg Hne].
    fold (in_month_kind m kind) in Hg. rewrite filter_filter in Hg. subst g.
    split; [| reflexivity]. now apply filter_not_nil.
  - intros [Hex ->].
    exists ((m, kind), filter (fun r => in_year y r && in_month_kind m kind r) rows).
    split; [reflexivity |].
    eapply Permutation_in; [apply Permutation_sym, sort_by_perm |].
    apply (group_by_In_iff month_kind month_kind_eqb month_kind_eqb_eq).
    fold (in_month_kind m kind). rewrite filter_filter. split; [reflexivity |].
    now apply filter_not_nil.
Qed.

Lemma Sorted_map {A B : Type} (f : A -> B) (R : B -> B -> Prop) (l : list A) :
  Sorted (fun a b => R (f a) (f b)) l -> Sorted R (map f l).
Proof.
  induction 1 as [| x l Hs IH Hhd]; cbn; constructor; [exact IH |].
  destruct Hhd; cbn; constructor. assumption.
Qed.

Lemma Sorted_impl {A : Type} (R S : A -> A -> Prop) (l : list A) :
  (forall a b, R a b -> S a b) -> Sorted R l -> Sorted S l.
Proof.
  intros HRS. induction 1 as [| x l Hs IH Hhd]; constructor; [exact IH |].
  destruct Hhd; constructor. now apply HRS.
Qed.

(** By month, then by kind. *)
Lemma monthly_of_sorted (y : Z) (rows : list Tx.row) :
  Sorted month_then_kind (monthly_of y rows).
Proof.
  unfold monthly_of. apply Sorted_map.
  apply Sorted_impl with (R := fun a b => by_month_kind a b = true).
  - intros a b E. unfold month_then_kind, month_entry. cbn.
    unfold by_month_kind in E.
    destruct (fst (fst a) ?= fst (fst b)) eqn:C.
    + right. split; [now apply Z.compare_eq | exact E].
    + left. exact C.
    + discriminate E.
  - apply sort_by_adjacent. exact by_month_kind_total.
Qed.

(** ** DatabaseManager.close *)

(** The SQLite branch leaves [isConnected] as it was. *)
Lemma sqlite_close_keeps_flag (w : World) :
  getDatabaseType w = sqlite ->
  fst (close w) = Ok tt /\ isConnectionActive (snd (close w)) = isConnectionActive w.
Proof.
  destruct w as [[dt c ic] d]. cbn [getDatabaseType dbManager dbType]. intros ->.
  unfold close. cbn. destruct c; split; reflexivity.
Qed.

(** The PostgreSQL branch ends the pool once; a second [close] rejects. *)
Lemma postgresql_close_twice (w : World) (c : Connection) :
  getDatabaseType w = postgresql ->
  connection (dbManager w) = Some c ->
  closed c = false ->
  fst (close w) = Ok tt
  /\ isConnectionActive (snd (close w)) = false
  /\ fst (close (snd (close w))) = Throw (Error "Called end on pool more than once").
Proof.
  destruct w as [[dt c0 ic] d]. cbn [getDatabaseType dbManager dbType connection].
  intros -> -> Hopen. unfold close. cbn. rewrite Hopen. cbn. repeat split; reflexivity.
Qed.

(** ** The order of texts *)

Lemma ascii_compare_trans (a b c : ascii) :
  Ascii.compare a b = Lt -> Ascii.compare b c = Lt -> Ascii.compare a c = Lt.
Proof.
  unfold Ascii.compare. rewrite !N.compare_lt_iff. lia.
Qed.

Lemma ascii_compare_eq (a b : ascii) : Ascii.compare a b = Eq -> a = b.
Proof.
  unfold Ascii.compare. intros E. apply N.compare_eq in E.
  rewrite <- (ascii_N_embedding a), <- (ascii_N_embedding b). now rewrite E.
Qed.

Lemma string_compare_lt_trans (a b c : string) :
  String.compare a b = Lt -> String.compare b c = Lt -> String.compare a c = Lt.
Proof.
  revert b c. induction a as [| x a IH]; intros [| y b] [| z c]; cbn; try discriminate; trivial.
  destruct (Ascii.compare x y) eqn:Exy; try discriminate;
    destruct (Ascii.compare y z) eqn:Eyz; try discriminate; intros H1 H2.
  - apply ascii_compare_eq in Exy, Eyz. subst. rewrite (proj2 (N.compare_eq_iff _ _) eq_refl : Ascii.compare z z = Eq).
    eapply IH; eassumption.
  - apply ascii_compare_eq in Exy. subst. now rewrite Eyz.
  - apply ascii_compare_eq in Eyz. subst. now rewrite Exy.
  - now rewrite (ascii_compare_trans _ _ _ Exy Eyz).
Qed.

Lemma string_leb_trans (a b c : string) :
  String.leb a b = true -> String.leb b c = true -> String.leb a c = true.
Proof.
  unfold String.leb.
  destruct (String.compare a b) eqn:Eab; try discriminate;
    destruct (String.compare b c) eqn:Ebc; try discriminate; intros _ _.
  - apply String.compare_eq_iff in Eab, Ebc. subst. now rewrite string_compare_refl.
  - apply String.compare_eq_iff in Eab. subst. now rewrite Ebc.
  - apply String.compare_eq_iff in Ebc. subst. now rewrite Eab.
  - now rewrite (string_compare_lt_trans _ _ _ Eab Ebc).
Qed.

(** ** Category.getAll *)

Lemma order_leb_name (a b : Cat.row) :
  order_leb [("name", ASC)] (Cat.to_obj a) (Cat.to_obj b) = name_leb a b.
Proof.
  unfold order_leb, name_leb, String.leb. cbn -[String.compare].
  destruct (String.compare (Cat.name a) (Cat.name b)); reflexivity.
Qed.

Lemma order_keys_name (rows : list Cat.row) :
  order_keys_known [("name", ASC)] (map Cat.to_obj rows) = true.
Proof. induction rows as [| r rows IH]; [reflexivity |]. cbn. exact IH. Qed.

Lemma select_categories_by_name (dt : DbType) (d : Database) (cs : list Cond)
      (p : Cat.row -> bool) :
  (forall r, eval_where dt d (Cat.to_obj r) cs = Some (p r)) ->
  run_select dt d (mkSelect [Star] "categories" cs None [("name", ASC)] None)
  = Some (map Cat.to_obj (sort_by name_leb (filter p (categories d)))).
Proof.
  intros Hp. unfold run_select. cbn -[order_leb].
  rewrite keep_map, (keep_filter _ _ _ _ p) by exact Hp. cbn [option_map].
  unfold select_output. cbn -[order_leb]. rewrite output_rows_star.
  unfold order_and_limit. cbn [sel_order sel_limit]. rewrite order_keys_name.
  rewrite (sort_by_map Cat.to_obj name_leb) by apply order_leb_name.
  reflexivity.
Qed.

Lemma category_getAll_statement (dt : DbType) (type : option string) :
  exists (s0 : SelectStmt) (cs : list Cond),
    parse (Transaction.b_query (Category.getAll_query dt type)) = Some s0
    /\ bind_select dt (Transaction.b_params (Category.getAll_query dt type)) s0
       = Some (mkSelect [Star] "categories" cs None [("name", ASC)] None)
    /\ forall d r, eval_where dt d (Cat.to_obj r) cs = Some (has_type type r).
Proof.
  destruct dt; destruct type as [[| c s] |];
    (eexists; eexists; split; [reflexivity | split; [reflexivity |]]);
    intros d r; unfold has_type, text_filter;
    cbn -[holds String.compare]; rewrite ?holds_EQ_text, ?andb_true_r; reflexivity.
Qed.

Lemma category_getAll_runs (w : World) (type : option string) :
  connected w ->
  Category.getAll type w
  = (Ok (Rows (map Cat.to_obj (sort_by name_leb (filter (has_type type) (categories (database w)))))), w).
Proof.
  intros Hc. unfold Category.getAll, try_catch, bind.
  rewrite (query_connected _ _ _ Hc). unfold execute.
  destruct (category_getAll_statement (getDatabaseType w) type) as (s0 & cs & Hp & Hb & Hw).
  rewrite Hp, Hb.
  rewrite (select_categories_by_name _ _ _ (has_type type)) by apply Hw.
  destruct w. reflexivity.
Qed.

(** X1.  [Category.getAll(filters)] on a connected manager returns the
    categories whose type is [filters.type], all of them when the filter is
    absent or the empty string, and changes nothing; on SQLite, whose
    ORDER BY compares texts byte by byte, they come in ascending order of
    name. *)
Theorem category_getAll_lists (w : World) (type : option string) :
  connected w ->
  exists rows : list Cat.row,
    Category.getAll type w = (Ok (Rows (map Cat.to_obj rows)), w)
    /\ Permutation rows (filter (has_type type) (categories (database w)))
    /\ (getDatabaseType w = sqlite ->
        StronglySorted (fun a b => name_leb a b = true) rows).
Proof.
  intros Hc.
  exists (sort_by name_leb (filter (has_type type) (categories (database w)))).
  split; [now apply category_getAll_runs |].
  split; [apply sort_by_perm |]. intros _.
  apply sort_by_sorted.
  - intros a b. apply String.leb_total.
  - intros a b c. apply string_leb_trans.
Qed.


(** ** Decimal texts *)

Lemma Z_of_text_js_of_Z (z : Z) : Z_of_text (js_of_Z z) = Some z.
Proof.
  unfold Z_of_text, js_of_Z. rewrite NilZero.isi.
  - cbn [option_map]. now rewrite DecimalZ.of_to.
  - destruct z; cbn; try discriminate. intros E. injection E as E.
    now apply DecimalPos.Unsigned.to_uint_nonnil in E.
  - destruct z; cbn; try discriminate. intros E. injection E as E.
    now apply DecimalPos.Unsigned.to_uint_nonnil in E.
Qed.

Ltac eval_digit :=
  cbn [read_digits];
  match goal with
  | |- context [digit_value ?c] =>
      let v := eval vm_compute in (digit_value c) in change (digit_value c) with v
  end;
  cbv iota;
  match goal with
  | |- context [?v <? ?r] =>
      let b := eval vm_compute in (v <? r) in change (v <? r) with b
  end;
  cbv iota.

(** Reading back the digits of a decimal numeral. *)
Lemma read_digits_acc (d : Decimal.uint) (acc : positive) :
  read_digits 10 (Some (Z.pos acc)) (NilEmpty.string_of_uint d)
  = Some (Z.pos (Pos.of_uint_acc d acc)).
Proof.
  revert acc. induction d; intros acc; cbn [NilEmpty.string_of_uint Pos.of_uint_acc];
    [reflexivity | ..];
    eval_digit; rewrite <- IHd; f_equal; f_equal; lia.
Qed.

Lemma read_digits_zeros (d : Decimal.uint) :
  d <> Decimal.Nil ->
  (read_digits 10 None (NilEmpty.string_of_uint d) = Some (Z.of_N (Pos.of_uint d)))
  /\ (read_digits 10 (Some 0) (NilEmpty.string_of_uint d) = Some (Z.of_N (Pos.of_uint d))).
Proof.
  induction d; intros Hd; [contradiction | ..];
    cbn [NilEmpty.string_of_uint Pos.of_uint]; split; eval_digit;
    try (cbn [Z.of_N]; rewrite <- read_digits_acc; reflexivity).
  - destruct d; [reflexivity | ..]; apply IHd; discriminate.
  - change (0 * 10 + 0) with 0. destruct d; [reflexivity | ..]; apply IHd; discriminate.
Qed.

Lemma string_of_uint_head (d : Decimal.uint) :
  d <> Decimal.Nil ->
  exists c r, NilEmpty.string_of_uint d = String c r
              /\ (48 <= nat_of_ascii c <= 57)%nat.
Proof.
  destruct d; intros Hd; [contradiction | ..]; cbn [NilEmpty.string_of_uint];
    eexists; eexists; (split; [reflexivity | cbn; lia]).
Qed.

Lemma string_of_uint_digits (d : Decimal.uint) (c : ascii) (r : string) :
  NilEmpty.string_of_uint d = String c r ->
  (48 <= nat_of_ascii c <= 57)%nat /\ exists d', r = NilEmpty.string_of_uint d'.
Proof.
  destruct d; cbn [NilEmpty.string_of_uint]; intros E; try discriminate;
    injection E as <- <-; (split; [cbn; lia | eexists; reflexivity]).
Qed.

Lemma trim_start_printable (c : ascii) (r : string) :
  (33 <= nat_of_ascii c < 128)%nat -> trim_start (String c r) = String c r.
Proof.
  intros Hc. cbn [trim_start].
  replace ((9 <=? nat_of_ascii c) && (nat_of_ascii c <=? 13) || (nat_of_ascii c =? 32))%nat
    with false.
  2: { symmetry. apply orb_false_iff. split.
       - apply andb_false_iff. right. apply Nat.leb_gt. lia.
       - apply Nat.eqb_neq. lia. }
  destruct r as [| c1 r1]; [reflexivity |].
  replace (nat_of_ascii c =? 194)%nat with false by (symmetry; apply Nat.eqb_neq; lia).
  cbn [andb].
  destruct r1 as [| c2 r2]; [reflexivity |].
  replace (nat_of_ascii c =? 225)%nat with false by (symmetry; apply Nat.eqb_neq; lia).
  replace (nat_of_ascii c =? 226)%nat with false by (symmetry; apply Nat.eqb_neq; lia).
  replace (nat_of_ascii c =? 227)%nat with false by (symmetry; apply Nat.eqb_neq; lia).
  replace (nat_of_ascii c =? 239)%nat with false by (symmetry; apply Nat.eqb_neq; lia).
  reflexivity.
Qed.

Lemma parseInt_digits (d : Decimal.uint) :
  d <> Decimal.Nil ->
  parseInt_text (NilEmpty.string_of_uint d) = Num (Z.of_N (Pos.of_uint d)).
Proof.
  intros Hd. destruct (read_digits_zeros d Hd) as [Hr _].
  destruct (NilEmpty.string_of_uint d) as [| c r] eqn:E.
  - destruct d; try contradiction; discriminate.
  - destruct (string_of_uint_digits _ _ _ E) as [Hc Hr'].
    unfold parseInt_text.
    assert (Htrim : trim_start (String c r) = String c r) by (apply trim_start_printable; lia).
    rewrite Htrim. destruct Hr' as [d2 ->]. clear Htrim E.
    destruct c as [[] [] [] [] [] [] [] []]; cbn in Hc; try lia; clear Hc;
      try (cbv beta iota zeta; rewrite Hr; reflexivity).
    destruct d2; cbn [NilEmpty.string_of_uint] in *; cbv beta iota zeta; rewrite Hr; reflexivity.
Qed.

Lemma parseInt_text_js_of_Z (z : Z) : parseInt_text (js_of_Z z) = Num z.
Proof.
  unfold js_of_Z. rewrite <- (DecimalZ.of_to z) at 2.
  destruct z as [| p | p]; cbn [Z.to_int NilZero.string_of_int Z.of_int Z.of_uint].
  - reflexivity.
  - pose proof (DecimalPos.Unsigned.to_uint_nonnil p) as Hp.
    unfold NilZero.string_of_uint. destruct (Pos.to_uint p) eqn:E; try contradiction;
      rewrite <- E in *; now apply parseInt_digits.
  - pose proof (DecimalPos.Unsigned.to_uint_nonnil p) as Hp.
    assert (Hs : NilZero.string_of_uint (Pos.to_uint p) = NilEmpty.string_of_uint (Pos.to_uint p)).
    { unfold NilZero.string_of_uint. destruct (Pos.to_uint p); try contradiction; reflexivity. }
    rewrite Hs. pose proof (parseInt_digits _ Hp) as Hd.
    destruct (string_of_uint_head _ Hp) as (c & r & E & Hc).
    rewrite E in *. unfold parseInt_text in *.
    rewrite (trim_start_printable "-") by (cbn; lia).
    assert (Htrim : trim_start (String c r) = String c r) by (apply trim_start_printable; lia).
    rewrite Htrim in Hd. cbv beta iota zeta.
    destruct c as [[] [] [] [] [] [] [] []]; cbn in Hc; try lia; clear Hc.
    all: cbv beta iota zeta in Hd.
    all: try (destruct (read_digits 10 None _); [injection Hd as ->; reflexivity | discriminate]).
    destruct (string_of_uint_digits _ _ _ E) as [_ [d2 ->]].
    destruct d2; cbn [NilEmpty.string_of_uint] in *; cbv beta iota zeta in *;
      (destruct (read_digits 10 None _); [injection Hd as ->; reflexivity | discriminate]).
Qed.

(** ** Ids given as numbers or as text *)

Lemma parseInt_value_names (id : Value) (i : Z) :
  names_id id i -> parseInt_value id = Num i.
Proof.
  intros [-> | ->]; [reflexivity |]. apply parseInt_text_js_of_Z.
Qed.

Lemma id_cond_tx_names (dt : DbType) (d : Database) (id : Value) (i : Z) (r : Tx.row) :
  names_id id i ->
  eval_where dt d (Tx.to_obj r) [Cmp (Col "id") EQ (Bound id)] = Some (Tx.id r =? i).
Proof.
  intros [-> | ->]; [apply id_cond_tx |].
  destruct dt; cbn -[holds Z.compare js_of_Z Z_of_text];
    rewrite Z_of_text_js_of_Z; cbn -[holds Z.compare];
    rewrite holds_EQ_Z; now rewrite andb_true_r.
Qed.

Lemma id_cond_cat_names (dt : DbType) (d : Database) (id : Value) (i : Z) (r : Cat.row) :
  names_id id i ->
  eval_where dt d (Cat.to_obj r) [Cmp (Col "id") EQ (Bound id)] = Some (Cat.id r =? i).
Proof.
  intros [-> | ->]; [apply id_cond_cat |].
  destruct dt; cbn -[holds Z.compare js_of_Z Z_of_text];
    rewrite Z_of_text_js_of_Z; cbn -[holds Z.compare];
    rewrite holds_EQ_Z; now rewrite andb_true_r.
Qed.

Lemma getById_names (w : World) (id : Value) (i : Z) :
  connected w -> names_id id i ->
  Transaction.getById id w
  = (Ok (hd_error (map Tx.to_obj (filter (fun r => Tx.id r =? i) (transactions (database w))))), w).
Proof.
  intros Hc Hid. unfold Transaction.getById, try_catch, bind.
  rewrite (query_connected _ _ _ Hc).
  destruct (getDatabaseType w); cbn -[run_select];
    rewrite (select_all_transactions _ _ _ (fun r => Tx.id r =? i))
      by (intros r; now apply id_cond_tx_names);
    unfold ret; rewrite first_or_null; destruct w; reflexivity.
Qed.

Lemma category_getById_names (w : World) (id : Value) (i : Z) :
  connected w -> names_id id i ->
  Category.getById id w
  = (Ok (hd_error (map Cat.to_obj (filter (fun r => Cat.id r =? i) (categories (database w))))), w).
Proof.
  intros Hc Hid. unfold Category.getById, try_catch, bind.
  rewrite (query_connected _ _ _ Hc).
  destruct (getDatabaseType w); cbn -[run_select];
    rewrite (select_all_categories _ _ _ (fun r => Cat.id r =? i))
      by (intros r; now apply id_cond_cat_names);
    unfold ret; rewrite first_or_null; destruct w; reflexivity.
Qed.

Lemma delete_names (w : World) (id : Value) (i : Z) :
  connected w -> names_id id i ->
  Transaction.delete id w =
  (Ok (existsb (fun r => Tx.id r =? i) (transactions (database w))),
   with_transactions w (filter (fun r => negb (Tx.id r =? i)) (transactions (database w)))).
Proof.
  intros Hc Hid. unfold Transaction.delete, try_catch, bind.
  destruct (getDatabaseType w) eqn:Edt; rewrite (query_connected _ _ _ Hc), Edt;
    cbn -[delete_rows]; unfold run_delete;
    rewrite (delete_rows_where transactions_table _ _ _ (fun r => Tx.id r =? i))
      by (intros r; now apply id_cond_tx_names);
    cbn.
  - now rewrite existsb_filter_count.
  - rewrite length_map, <- existsb_filter_length. reflexivity.
Qed.


(** ** The transaction routes *)

Lemma create_runs (w : World) (t : string) (a : Z) (ds c : string) (dd : Date) :
  connected w ->
  ids_in_sequence (database w) ->
  valid (TxData.mk (Some t) (Some a) (Some ds) (Some c) (Some dd)) ->
  (getDatabaseType w = postgresql -> a < 10 ^ 12) ->
  let d := database w in
  let r := Tx.mk (transactions_seq d + 1) t a ds c dd (clock d) (clock d) in
  Transaction.create (TxData.mk (Some t) (Some a) (Some ds) (Some c) (Some dd)) w
  = (Ok (Some (Tx.to_obj r)),
     mkWorld (dbManager w)
             (set_transactions d (transactions d ++ [r])%list (transactions_seq d + 1))).
Proof.
  intros Hc Hids Hv Hrange d r.
  pose proof Hv as Hv'.
  apply valid_inv in Hv' as (t' & a' & ds' & c' & dd' & E & Ht & Ha & Hds & Hcl).
  injection E as <- <- <- <- <-.
  unfold valid, Transaction.validate in Hv. cbn [fst] in Hv.
  set (d1 := set_transactions d (transactions d ++ [r])%list (transactions_seq d + 1)).
  assert (Hc1 : connected (mkWorld (dbManager w) d1)) by exact Hc.
  unfold Transaction.create, Transaction.validate. rewrite Hv.
  unfold try_catch, bind.
  destruct (getDatabaseType w) eqn:Edt;
    rewrite (query_connected _ _ _ Hc), Edt;
    rewrite insert_transaction_runs by (auto; congruence);
    cbn [write_result lastID index_0]; fold d r d1.
  - rewrite getById_runs by exact Hc1. cbn [database d1 set_transactions transactions].
    rewrite (filter_new_id _ _ r) by (trivial; reflexivity). reflexivity.
  - reflexivity.
Qed.

(** C6, amended.  For every candidate the schema accepts whose amount fits
    the column, on a connected manager: [create] returns a record, and
    [getById] on its id, the number or its decimal text, returns the same
    record; the record carries the candidate's type, amount, description
    and category, the next id of the sequence, and both timestamps; the
    manager stays connected and the sequence ahead of the ids.  The [date]
    of the record is left open. *)
Theorem create_then_getById (w : World) (data : TxData.t) :
  connected w ->
  ids_in_sequence (database w) ->
  valid data ->
  amount_in_range (getDatabaseType w) data ->
  exists (record : Obj) (w1 : World),
    Transaction.create data w = (Ok (Some record), w1)
    /\ field "id" record = Some (VNum (transactions_seq (database w) + 1))
    /\ Transaction.getById (VNum (transactions_seq (database w) + 1)) w1
       = (Ok (Some record), w1)
    /\ Transaction.getById (VText (js_of_Z (transactions_seq (database w) + 1))) w1
       = (Ok (Some record), w1)
    /\ field "type" record = option_map VText (TxData.type data)
    /\ field "amount" record = option_map VNum (TxData.amount data)
    /\ field "description" record = option_map VText (TxData.description data)
    /\ field "category" record = option_map VText (TxData.category data)
    /\ field "created_at" record = Some (VNum (clock (database w)))
    /\ field "updated_at" record = Some (VNum (clock (database w)))
    /\ connected w1 /\ ids_in_sequence (database w1).
Proof.
  intros Hc Hids Hv Hr.
  pose proof Hv as Hv'.
  apply valid_inv in Hv' as (t & a & ds & c & dd & -> & Ht & Ha & Hds & Hcl).
  set (d := database w) in *.
  set (r := Tx.mk (transactions_seq d + 1) t a ds c dd (clock d) (clock d)).
  set (d1 := set_transactions d (transactions d ++ [r])%list (transactions_seq d + 1)).
  assert (Hc1 : connected (mkWorld (dbManager w) d1)) by exact Hc.
  assert (Hget : forall id, names_id id (transactions_seq d + 1) ->
            Transaction.getById id (mkWorld (dbManager w) d1)
            = (Ok (Some (Tx.to_obj r)), mkWorld (dbManager w) d1)).
  { intros id Hid. rewrite (getById_names _ _ (transactions_seq d + 1)) by (trivial; exact Hc1).
    cbn [database d1 set_transactions transactions].
    rewrite (filter_new_id _ _ r) by (trivial; reflexivity). reflexivity. }
  assert (Hrange : getDatabaseType w = postgresql -> a < 10 ^ 12).
  { intros E. unfold amount_in_range in Hr. rewrite E in Hr. exact Hr. }
  exists (Tx.to_obj r), (mkWorld (dbManager w) d1).
  split; [apply create_runs; assumption |].
  split; [reflexivity |]. split; [apply Hget; now left |]. split; [apply Hget; now right |].
  do 6 (split; [reflexivity |]). split; [exact Hc1 |].
  unfold ids_in_sequence. cbn [database d1 set_transactions transactions transactions_seq].
  apply Forall_app. split.
  - eapply Forall_impl; [| exact Hids]. cbn. intros x Hx. fold d in Hx. lia.
  - constructor; [| constructor]. cbn [Tx.id r]. lia.
Qed.

(** X2.  POST /api/transactions with a candidate the schema accepts answers
    201 with the stored row, whose id is the next of the sequence; GET
    /api/transactions/:id with that id then answers 200 with the same row. *)
Theorem post_then_get_transaction (w : World) (data : TxData.t) (NODE_ENV : string) :
  connected w ->
  ids_in_sequence (database w) ->
  valid data ->
  amount_in_range (getDatabaseType w) data ->
  exists (record : Obj) (w1 : World),
    post_transaction_route NODE_ENV data w = (mkReply 201 (OneRow (Some record)), w1)
    /\ field "id" record = Some (VNum (transactions_seq (database w) + 1))
    /\ get_transaction_route NODE_ENV (js_of_Z (transactions_seq (database w) + 1)) w1
       = (mkReply 200 (OneRow (Some record)), w1).
Proof.
  intros Hc Hids Hv Hr.
  pose proof Hv as Hv'.
  apply valid_inv in Hv' as (t & a & ds & c & dd & -> & Ht & Ha & Hds & Hcl).
  assert (Hrange : getDatabaseType w = postgresql -> a < 10 ^ 12).
  { intros E. unfold amount_in_range in Hr. rewrite E in Hr. exact Hr. }
  set (d := database w).
  set (r := Tx.mk (transactions_seq d + 1) t a ds c dd (clock d) (clock d)).
  set (d1 := set_transactions d (transactions d ++ [r])%list (transactions_seq d + 1)).
  exists (Tx.to_obj r), (mkWorld (dbManager w) d1).
  split; [| split; [reflexivity |]].
  - unfold post_transaction_route, handle. rewrite create_runs by assumption. reflexivity.
  - unfold get_transaction_route, handle.
    rewrite (getById_names _ _ (transactions_seq d + 1)) by (trivial; now right).
    cbn [database d1 set_transactions transactions].
    rewrite (filter_new_id _ _ r) by (trivial; reflexivity). reflexivity.
Qed.

(** X3.  DELETE /api/transactions/:id on the id of a stored row answers 200
    and removes the rows of that id; asked again it answers 404, and so
    does GET /api/transactions/:id. *)
Theorem delete_transaction_200_then_404 (w : World) (i : Z) (r : Tx.row) (NODE_ENV : string) :
  connected w ->
  In r (transactions (database w)) -> Tx.id r = i ->
  exists w1 : World,
    delete_transaction_route NODE_ENV (js_of_Z i) w
    = (mkReply 200 (Fields [("message", "Transacción eliminada correctamente")]), w1)
    /\ transactions (database w1)
       = filter (fun x => negb (Tx.id x =? i)) (transactions (database w))
    /\ delete_transaction_route NODE_ENV (js_of_Z i) w1
       = (mkReply 404 (Fields [("error", "Transacción no encontrada")]), w1)
    /\ get_transaction_route NODE_ENV (js_of_Z i) w1
       = (mkReply 404 (Fields [("error", "Transacción no encontrada")]), w1).
Proof.
  intros Hc Hin Hid.
  set (w1 := with_transactions w (filter (fun x => negb (Tx.id x =? i)) (transactions (database w)))).
  assert (Hc1 : connected w1) by exact Hc.
  assert (Hex : existsb (fun x => Tx.id x =? i) (transactions (database w)) = true).
  { apply existsb_exists. exists r. split; [exact Hin | now apply Z.eqb_eq]. }
  exists w1. split; [| split; [reflexivity | split]].
  - unfold delete_transaction_route, handle.
    rewrite (delete_names _ _ i) by (trivial; now right). rewrite Hex. reflexivity.
  - unfold delete_transaction_route, handle.
    rewrite (delete_names _ _ i) by (trivial; now right).
    cbn [w1 with_transactions database transactions set_transactions].
    rewrite existsb_filter_negb. cbn [negb]. rewrite filter_negb_idem.
    destruct w as [m d]. reflexivity.
  - unfold get_transaction_route, handle.
    rewrite (getById_names _ _ i) by (trivial; now right).
    cbn [w1 with_transactions database transactions set_transactions].
    rewrite filter_nothing. reflexivity.
Qed.

(** ** UPDATE that matches no row *)



Lemma same_categories (d : Database) :
  set_categories d (categories d) (categories_seq d) = d.
Proof. destruct d. reflexivity. Qed.

Lemma same_world (w : World) : mkWorld (dbManager w) (database w) = w.
Proof. destruct w. reflexivity. Qed.


(** An error that is neither a ValidationError nor a constraint error of
    the driver is answered with 500. *)
Lemma plain_error_500 (NODE_ENV msg : string) :
  r_status (next NODE_ENV (Error msg)) = 500.
Proof. reflexivity. Qed.



(** ** What an UPDATE of a transaction leaves *)

Lemma updates_map (data : TxData.t) (stamp : Z -> Z) (i : Z) (f : Tx.row -> Tx.row)
      (rows : list Tx.row) :
  (forall x, updated data stamp x (f x)) ->
  updates data stamp i rows (map (fun x => if Tx.id x =? i then f x else x) rows).
Proof.
  intros Hf. unfold updates. induction rows as [| x rows IH]; [constructor |].
  cbn [map]. constructor; [| exact IH].
  destruct (Tx.id x =? i); [apply Hf | reflexivity].
Qed.


Lemma restamped_updated (t : string) (a : Z) (ds c : string) (dd : Date) (now : Z)
      (x : Tx.row) :
  updated (TxData.mk (Some t) (Some a) (Some ds) (Some c) (Some dd)) (fun _ => now)
          x (restamped (TxData.mk (Some t) (Some a) (Some ds) (Some c) (Some dd)) now x).
Proof. repeat split. Qed.

(** ** Transaction.update on SQLite *)





(** ** Transaction.update on PostgreSQL *)

Lemma postgresql_update_rows (d : Database) (id : Value) (i : Z) (trig : bool)
      (t : string) (a : Z) (ds c : string) (dd : Date) (rows : list Tx.row) :
  names_id id i ->
  (t = "income" \/ t = "expense") -> 0 < a -> a < 10 ^ 12 ->
  (js_length ds <= 255)%nat -> (js_length c <= 100)%nat ->
  let data := TxData.mk (Some t) (Some a) (Some ds) (Some c) (Some dd) in
  update_rows transactions_table postgresql d
              [("type", Bound (VText t)); ("amount", Bound (VNum a));
               ("description", Bound (VText ds)); ("category", Bound (VText c));
               ("date", Bound (VDate dd)); ("updated_at", NOW)]
              (Cmp (Col "id") EQ (Bound id)) trig rows
  = Done (map (fun x => if Tx.id x =? i then restamped data (clock d) x else x) rows,
          map (restamped data (clock d)) (filter (fun x => Tx.id x =? i) rows)).
Proof.
  intros Hid Ht Ha Hfit Hds Hc data. induction rows as [| x rows IH]; [reflexivity |].
  cbn [update_rows map filter]. rewrite IH. unfold update_row.
  rewrite (id_cond_tx_names _ _ _ i) by exact Hid. destruct (Tx.id x =? i).
  - destruct trig; cbn -[Tx.check Tx.fits Z.pow];
      rewrite check_valid by assumption; cbn [negb];
      rewrite fits_valid by assumption; reflexivity.
  - reflexivity.
Qed.

(** X5.  On PostgreSQL [Transaction.update(id, data)], for a candidate the
    schema accepts whose amount fits the column and the id of a stored
    row, the number or its decimal text: every row of that id gets the
    candidate's type, amount, description and category and [updated_at]
    set to the time of the statement, and keeps its id and [created_at];
    what the driver writes into [date] is left open; every other row and
    the rest of the database stay as they are; the first rewritten row is
    returned. *)
Theorem postgresql_update_stamps (w : World) (id : Value) (i : Z) (data : TxData.t)
        (r : Tx.row) :
  connected w ->
  getDatabaseType w = postgresql ->
  names_id id i ->
  valid data ->
  amount_in_range postgresql data ->
  In r (transactions (database w)) -> Tx.id r = i ->
  exists (record : Obj) (w1 : World) (r0 : Tx.row),
    Transaction.update id data w = (Ok (Some record), w1)
    /\ In r0 (transactions (database w)) /\ Tx.id r0 = i
    /\ field "id" record = Some (VNum i)
    /\ field "created_at" record = Some (VNum (Tx.created_at r0))
    /\ field "updated_at" record = Some (VNum (clock (database w)))
    /\ field "type" record = option_map VText (TxData.type data)
    /\ field "amount" record = option_map VNum (TxData.amount data)
    /\ field "description" record = option_map VText (TxData.description data)
    /\ field "category" record = option_map VText (TxData.category data)
    /\ updates data (fun _ => clock (database w)) i
               (transactions (database w)) (transactions (database w1))
    /\ categories (database w1) = categories (database w)
    /\ connected w1
    /\ set_columns (Transaction.update_transaction postgresql)
       = ["type"; "amount"; "description"; "category"; "date"; "updated_at"].
Proof.
  intros Hc Edt Hid Hv Hr Hin Hrid.
  pose proof Hv as Hv'.
  apply valid_inv in Hv' as (t & a & ds & c & dd & -> & Ht & Ha & Hds & Hcl).
  unfold valid, Transaction.validate in Hv. cbn [fst] in Hv.
  cbn [amount_in_range TxData.amount] in Hr.
  pose (data := TxData.mk (Some t) (Some a) (Some ds) (Some c) (Some dd)).
  destruct (filter_finds (fun x => Tx.id x =? i) _ r Hin) as (r0 & rest & Hf & Hin0 & Hid0).
  { now apply Z.eqb_eq. }
  apply Z.eqb_eq in Hid0.
  set (now := clock (database w)).
  set (rows' := map (fun x => if Tx.id x =? i then restamped data now x else x)
                    (transactions (database w))).
  exists (Tx.to_obj (restamped data now r0)), (with_transactions w rows'), r0.
  split.
  - unfold Transaction.update, Transaction.validate. rewrite Hv.
    unfold try_catch, bind. rewrite Edt.
    rewrite (query_connected _ _ _ Hc), Edt.
    cbn -[update_rows has_trigger still_unique Z.pow]. unfold run_update.
    rewrite (postgresql_update_rows _ _ i) by assumption.
    cbn -[restamped]. rewrite Hf. reflexivity.
  - split; [exact Hin0 |]. split; [exact Hid0 |].
    split; [cbn; now rewrite Hid0 |].
    do 6 (split; [reflexivity |]).
    split; [apply updates_map; intros x; apply restamped_updated |].
    split; [reflexivity |]. split; [exact Hc | reflexivity].
Qed.

(** ** Candidates the schemas refuse *)

(** X6.  A transaction candidate the schema refuses: [create] and [update]
    reject with a ValidationError that carries the messages joined by
    ', ', before any query is sent, whatever the state of the manager; POST
    and PUT answer 400 with those messages. *)
Theorem refused_transaction_answers_400 (w : World) (id : string) (data : TxData.t)
        (NODE_ENV : string) :
  ~ valid data ->
  let details := join_messages (transactionSchema data) in
  Transaction.create data w = (Throw (ValidationError details), w)
  /\ Transaction.update (VText id) data w = (Throw (ValidationError details), w)
  /\ post_transaction_route NODE_ENV data w
     = (mkReply 400 (Fields [("error", "Error de validación"); ("details", details)]), w)
  /\ put_transaction_route NODE_ENV id data w
     = (mkReply 400 (Fields [("error", "Error de validación"); ("details", details)]), w).
Proof.
  intros Hv details. unfold valid, Transaction.validate in Hv. cbn [fst] in Hv.
  assert (Hc : Transaction.create data w = (Throw (ValidationError details), w)).
  { unfold Transaction.create, Transaction.validate.
    destruct (transactionSchema data) eqn:E; [contradiction | reflexivity]. }
  assert (Hu : Transaction.update (VText id) data w = (Throw (ValidationError details), w)).
  { unfold Transaction.update, Transaction.validate.
    destruct (transactionSchema data) eqn:E; [contradiction | reflexivity]. }
  split; [exact Hc |]. split; [exact Hu |]. split.
  - unfold post_transaction_route, handle. rewrite Hc. reflexivity.
  - unfold put_transaction_route, handle. rewrite Hu. reflexivity.
Qed.

(** X7.  A category candidate the schema refuses: [create] and [update]
    reject before any query is sent, with a plain [Error] (not a
    ValidationError), so POST and PUT /api/categories answer 500, and
    the messages reach the client only in development. *)
Theorem refused_category_answers_500 (w : World) (id : string) (data : CatData.t)
        (NODE_ENV : string) :
  ~ valid_category data ->
  let details := join_messages (categorySchema data) in
  let reply := mkReply 500 (Fields [("error", "Error interno del servidor");
                                    ("details", if String.eqb NODE_ENV "development"
                                                then details else "Algo salió mal")]) in
  Category.create data w = (Throw (Error details), w)
  /\ Category.update (VText id) data w = (Throw (Error details), w)
  /\ post_category_route NODE_ENV data w = (reply, w)
  /\ put_category_route NODE_ENV id data w = (reply, w).
Proof.
  intros Hv details reply. unfold valid_category, Category.validate in Hv. cbn [fst] in Hv.
  assert (Hc : Category.create data w = (Throw (Error details), w)).
  { unfold Category.create, Category.validate.
    destruct (categorySchema data) eqn:E; [contradiction | reflexivity]. }
  assert (Hu : Category.update (VText id) data w = (Throw (Error details), w)).
  { unfold Category.update, Category.validate.
    destruct (categorySchema data) eqn:E; [contradiction | reflexivity]. }
  split; [exact Hc |]. split; [exact Hu |]. split.
  - unfold post_category_route, handle. rewrite Hc. reflexivity.
  - unfold put_category_route, handle. rewrite Hu. reflexivity.
Qed.

(** ** Category.create on a name that is taken *)

Lemma hd_error_filter {A B : Type} (f : A -> B) (p : A -> bool) (l : list A) (x : A) :
  In x l -> p x = true ->
  exists y, hd_error (map f (filter p l)) = Some (f y) /\ In y l /\ p y = true.
Proof.
  intros Hin Hp. destruct (filter_finds p l x Hin Hp) as (y & rest & E & Hy & Hpy).
  exists y. rewrite E. auto.
Qed.


(** ** Category.update *)

Lemma category_update_rows (dt : DbType) (d : Database) (id : Value) (i : Z) (trig : bool)
      (n t : string) (ds co ic : option string) (rows : list Cat.row) :
  names_id id i ->
  (t = "income" \/ t = "expense") ->
  Cat.fits (Cat.mk 0 n t ds co ic 0 0) = true ->
  (dt = sqlite -> trig = false) ->
  let data := CatData.mk (Some n) (Some t) ds co ic in
  update_rows categories_table dt d (category_sets dt n t ds co ic)
              (Cmp (Col "id") EQ (Bound id)) trig rows
  = Done (map (fun x => if Cat.id x =? i then rewritten_category data dt d x else x) rows,
          map (rewritten_category data dt d) (filter (fun x => Cat.id x =? i) rows)).
Proof.
  intros Hid Ht Hfit Htrig data. induction rows as [| x rows IH]; [reflexivity |].
  cbn [update_rows map filter]. rewrite IH. unfold update_row.
  rewrite (id_cond_cat_names _ _ _ i) by exact Hid. destruct (Cat.id x =? i); [| reflexivity].
  assert (Hcheck : forall j ca ua, Cat.check (Cat.mk j n t ds co ic ca ua) = true).
  { intros. unfold Cat.check. cbn [Cat.type]. destruct Ht as [-> | ->]; reflexivity. }
  assert (Hfits : forall j ca ua, Cat.fits (Cat.mk j n t ds co ic ca ua) = true).
  { intros. exact Hfit. }
  destruct dt.
  - rewrite (Htrig eq_refl).
    destruct ds, co, ic; cbn -[Cat.check Cat.fits]; rewrite Hcheck; reflexivity.
  - destruct trig; destruct ds, co, ic; cbn -[Cat.check Cat.fits];
      rewrite Hcheck; cbn [negb]; rewrite Hfits; reflexivity.
Qed.

Lemma distinct_names (rows : list Cat.row) :
  NoDup (map Cat.name rows) ->
  distinct (map (fun r => field "name" (Cat.to_obj r)) rows) = true.
Proof.
  induction rows as [| x rows IH]; [reflexivity |].
  cbn [map]. intros Hnd. inversion Hnd as [| ? ? Hnotin Hnd']; subst.
  cbn [distinct]. rewrite IH by exact Hnd'. rewrite andb_true_r.
  apply negb_true_iff. clear IH Hnd Hnd'.
  induction rows as [| y rows IH]; [reflexivity |].
  cbn [map existsb]. rewrite IH by (intros Hin; apply Hnotin; now right).
  rewrite orb_false_r. cbn. apply String.eqb_neq. intros E. apply Hnotin. left. now rewrite E.
Qed.

Lemma still_unique_categories (dt : DbType) (n t : string) (ds co ic : option string)
      (rows : list Cat.row) :
  NoDup (map Cat.name rows) ->
  still_unique categories_table (category_sets dt n t ds co ic) rows = true.
Proof.
  intros Hnd. unfold still_unique. cbn [t_unique t_obj categories_table forallb].
  rewrite (distinct_names _ Hnd). rewrite !orb_true_r. destruct dt; reflexivity.
Qed.

Lemma map_untouched {A : Type} (p : A -> bool) (f : A -> A) (l : list A) :
  (forall x, In x l -> p x = false) ->
  map (fun x => if p x then f x else x) l = l.
Proof.
  induction l as [| x l IH]; intros Hp; [reflexivity |].
  cbn [map]. rewrite (Hp x) by now left.
  rewrite IH by (intros y Hy; apply Hp; now right). reflexivity.
Qed.

Lemma filter_nil_none {A : Type} (p : A -> bool) (l : list A) :
  filter p l = [] -> forall x, In x l -> p x = false.
Proof.
  intros E x Hin. destruct (p x) eqn:Hp; [| reflexivity].
  assert (Hf : In x (filter p l)) by (apply filter_In; auto).
  rewrite E in Hf. contradiction.
Qed.

Lemma rewritten_category_name (data : CatData.t) (dt : DbType) (d : Database) (n t : string)
      (x : Cat.row) :
  CatData.name data = Some n -> CatData.type data = Some t ->
  Cat.name (rewritten_category data dt d x) = n /\ Cat.id (rewritten_category data dt d x) = Cat.id x.
Proof. intros Hn Ht. unfold rewritten_category. rewrite Hn, Ht. split; reflexivity. Qed.

Lemma renamed_names_unique (data : CatData.t) (dt : DbType) (d : Database) (i : Z) (n t : string)
      (rows : list Cat.row) :
  CatData.name data = Some n -> CatData.type data = Some t ->
  NoDup (map Cat.name rows) ->
  (List.length (filter (fun x => (Cat.id x =? i)%Z) rows) <= 1)%nat ->
  (forall r, In r rows -> Cat.id r <> i -> Cat.name r <> n) ->
  NoDup (map Cat.name
             (map (fun x => if Cat.id x =? i then rewritten_category data dt d x else x) rows)).
Proof.
  intros Hn Ht. induction rows as [| x rows IH]; intros Hnd Hone Hfree; [constructor |].
  cbn [map] in Hnd. inversion Hnd as [| ? ? Hnotin Hnd']; subst.
  cbn [map filter] in *. destruct (Cat.id x =? i) eqn:E.
  - cbn [List.length] in Hone.
    assert (Hnone : filter (fun x => Cat.id x =? i) rows = []).
    { destruct (filter (fun x => Cat.id x =? i) rows); [reflexivity | cbn in Hone; lia]. }
    rewrite map_untouched by (apply filter_nil_none; exact Hnone).
    constructor; [| exact Hnd'].
    rewrite (proj1 (rewritten_category_name data dt d n t x Hn Ht)).
    intros Hin. apply in_map_iff in Hin as (y & Ey & Hy).
    apply (Hfree y); [now right | | exact Ey].
    apply Z.eqb_neq. now apply (filter_nil_none _ _ Hnone).
  - constructor.
    + intros Hin. apply in_map_iff in Hin as (y' & Ey & Hy).
      apply in_map_iff in Hy as (y & <- & Hy).
      destruct (Cat.id y =? i) eqn:Ey'.
      * rewrite (proj1 (rewritten_category_name data dt d n t y Hn Ht)) in Ey.
        apply (Hfree x); [now left | now apply Z.eqb_neq | now symmetry].
      * apply Hnotin. apply in_map_iff. exists y. auto.
    + apply IH; [exact Hnd' | exact Hone |]. intros r Hr. apply Hfree. now right.
Qed.

Lemma category_update_runs (w : World) (id : Value) (i : Z)
      (n t : string) (ds co ic : option string) :
  connected w -> names_id id i ->
  (t = "income" \/ t = "expense") ->
  Cat.fits (Cat.mk 0 n t ds co ic 0 0) = true ->
  (getDatabaseType w = sqlite -> has_trigger (database w) "categories" = false) ->
  let data := CatData.mk (Some n) (Some t) ds co ic in
  let dt := getDatabaseType w in
  let d := database w in
  let rows' := map (fun x => if Cat.id x =? i then rewritten_category data dt d x else x)
                   (categories d) in
  let changed := map (rewritten_category data dt d)
                     (filter (fun x => Cat.id x =? i) (categories d)) in
  NoDup (map Cat.name rows') ->
  query (Category.update_category dt) (Category.category_params data ++ [id])%list w
  = (Ok (write_result dt true (map Cat.to_obj changed) 0 (Z.of_nat (List.length changed))),
     with_categories w rows').
Proof.
  intros Hc Hid Ht Hfit Htrig data dt d rows' changed Hnd.
  rewrite (query_connected _ _ _ Hc).
  assert (Hrows := fun trig => category_update_rows dt d id i trig n t ds co ic (categories d)
                                                     Hid Ht Hfit).
  cbv zeta in Hrows. fold data rows' changed in Hrows.
  assert (Huniq := still_unique_categories dt n t ds co ic rows' Hnd).
  subst dt. destruct (getDatabaseType w) eqn:Edt.
  - cbn -[update_rows has_trigger still_unique]. unfold run_update.
    rewrite (Htrig eq_refl). fold d.
    change [("name", Bound (VText n)); ("type", Bound (VText t));
            ("description", Bound (js_text ds)); ("color", Bound (js_text co));
            ("icon", Bound (js_text ic))]
      with (category_sets sqlite n t ds co ic).
    rewrite Hrows by reflexivity. rewrite Huniq. reflexivity.
  - cbn -[update_rows has_trigger still_unique]. unfold run_update. fold d.
    change [("name", Bound (VText n)); ("type", Bound (VText t));
            ("description", Bound (js_text ds)); ("color", Bound (js_text co));
            ("icon", Bound (js_text ic)); ("updated_at", NOW)]
      with (category_sets postgresql n t ds co ic).
    rewrite Hrows by discriminate. rewrite Huniq. reflexivity.
Qed.

Lemma category_validated (data : CatData.t) (id : Value) :
  valid_category data ->
  exists n t,
    CatData.name data = Some n /\ CatData.type data = Some t
    /\ (t = "income" \/ t = "expense")
    /\ Cat.fits (Cat.mk 0 n t (CatData.description data) (CatData.color data)
                        (CatData.icon data) 0 0) = true
    /\ Category.update id data
       = try_catch
           (existingCategory <- Category.getByName (VText n) ;;
            if Category.held_by_another existingCategory id
            then throw (Error "Ya existe una categoría con ese nombre")
            else
              fun w =>
                match getDatabaseType w with
                | postgresql =>
                    (result <- query (Category.update_category postgresql)
                                     (Category.category_params data ++ [id])%list ;;
                     if length_is_0 result
                     then throw (Error "Categoría no encontrada")
                     else ret (index_0 result)) w
                | sqlite =>
                    (result <- query (Category.update_category sqlite)
                                     (Category.category_params data ++ [id])%list ;;
                     if changes_is_0 result
                     then throw (Error "Categoría no encontrada")
                     else Category.getById id) w
                end)
           (fun error => throw error).
Proof.
  intros Hv. destruct (valid_category_inv data Hv) as (n & t & Hn & Ht & Hty & Hfit).
  exists n, t. repeat (split; [assumption |]).
  unfold valid_category, Category.validate in Hv. cbn [fst] in Hv.
  unfold Category.update, Category.validate. rewrite Hv, Hn. reflexivity.
Qed.



(** X11.  [Category.update(id, data)] on the id of a stored category, for a
    candidate the schema accepts whose name no other category bears in any
    casing (the category's own name, in any casing, is allowed): the row
    gets the candidate's name, type, description, color and icon, the ones
    the candidate leaves out becoming NULL; it keeps its id and
    [created_at]; [updated_at] stays as it is on SQLite and becomes the
    time of the statement on PostgreSQL; the other rows stay as they are,
    names stay unique, and the rewritten row is returned. *)
Theorem update_category_rewrites (w : World) (id : Value) (i : Z) (data : CatData.t)
        (n : string) (c : Cat.row) :
  connected w -> names_id id i ->
  (getDatabaseType w = sqlite -> triggers (database w) = migration_triggers sqlite) ->
  names_unique (database w) ->
  valid_category data -> CatData.name data = Some n ->
  category_with_id (database w) i c ->
  (forall r, In r (categories (database w)) -> Cat.id r <> i ->
             same_ignoring_case (Cat.name r) n = false) ->
  let c' := rewritten_category data (getDatabaseType w) (database w) c in
  exists w1 : World,
    Category.update id data w = (Ok (Some (Cat.to_obj c')), w1)
    /\ categories (database w1)
       = map (fun x => if Cat.id x =? i then c' else x) (categories (database w))
    /\ transactions (database w1) = transactions (database w)
    /\ names_unique (database w1)
    /\ Cat.id c' = Cat.id c /\ Cat.created_at c' = Cat.created_at c
    /\ Cat.name c' = n /\ Some (Cat.type c') = CatData.type data
    /\ Cat.description c' = CatData.description data
    /\ Cat.color c' = CatData.color data /\ Cat.icon c' = CatData.icon data
    /\ Cat.updated_at c'
       = updated_at_after (getDatabaseType w) (database w) (Cat.updated_at c).
Proof.
  intros Hc Hid Htrig Huniq Hv Hn Hcat Hfree c'.
  destruct (category_validated data id Hv) as (n' & t & Hn' & Ht & Hty & Hfit & Hupd).
  rewrite Hn in Hn'. injection Hn' as <-.
  remember (getDatabaseType w) as dt eqn:Edt. set (d := database w) in *.
  set (rows' := map (fun x => if Cat.id x =? i then rewritten_category data dt d x else x)
                    (categories d)).
  assert (Hcid : Cat.id c = i).
  { assert (Hin : In c (filter (fun r => Cat.id r =? i) (categories d))).
    { unfold category_with_id in Hcat. rewrite Hcat. now left. }
    apply filter_In in Hin as [_ Hin]. now apply Z.eqb_eq. }
  assert (Hsame : rows' = map (fun x => if Cat.id x =? i then c' else x) (categories d)).
  { unfold rows'. apply map_ext_in. intros x Hx. destruct (Cat.id x =? i) eqn:E; [| reflexivity].
    assert (Hin : In x (filter (fun r => Cat.id r =? i) (categories d)))
      by (apply filter_In; auto).
    unfold category_with_id in Hcat. rewrite Hcat in Hin. destruct Hin as [<- | []].
    reflexivity. }
  assert (Hnames : forall r, In r (categories d) -> Cat.id r <> i -> Cat.name r <> n).
  { intros r Hin Hne E. specialize (Hfree r Hin Hne).
    rewrite E, same_ignoring_case_refl in Hfree. discriminate. }
  assert (Hnd : NoDup (map Cat.name rows')).
  { apply (renamed_names_unique data dt d i n t); trivial.
    unfold category_with_id in Hcat. rewrite Hcat. cbn. lia. }
  assert (Hnotrig : dt = sqlite -> has_trigger d "categories" = false).
  { intros E. unfold has_trigger. fold d in Htrig. rewrite Htrig by congruence. reflexivity. }
  assert (Hnotrig' : getDatabaseType w = sqlite -> has_trigger (database w) "categories" = false).
  { rewrite <- Edt. exact Hnotrig. }
  exists (with_categories w rows').
  split; [| split; [exact Hsame | split; [reflexivity | split; [exact Hnd |]]]].
  - rewrite Hupd. unfold try_catch, bind at 1. rewrite getByName_runs by exact Hc. fold d.
    assert (Hheld : Category.held_by_another
                      (hd_error (map Cat.to_obj
                                     (filter (fun r => same_ignoring_case (Cat.name r) n)
                                             (categories d)))) id = false).
    { destruct (filter (fun r => same_ignoring_case (Cat.name r) n) (categories d))
        as [| y rest] eqn:E; [reflexivity |].
      assert (Hy : In y (filter (fun r => same_ignoring_case (Cat.name r) n) (categories d)))
        by (rewrite E; now left).
      apply filter_In in Hy as [Hy Hys].
      cbn [map hd_error]. unfold Category.held_by_another.
      rewrite (parseInt_value_names _ _ Hid). cbn -[Z.eqb].
      apply negb_false_iff. apply Z.eqb_eq.
      destruct (Z.eq_dec (Cat.id y) i) as [Ey | Ey]; [exact Ey |].
      rewrite (Hfree y Hy Ey) in Hys. discriminate. }
    rewrite Hheld.
    destruct data as [dn dty ds co ic]. cbn [CatData.name CatData.type] in *. subst dn dty.
    cbn [CatData.description CatData.color CatData.icon] in Hfit.
    pose proof (category_update_runs w id i n t ds co ic Hc Hid Hty Hfit Hnotrig') as Hq.
    cbv zeta in Hq. rewrite <- Edt in Hq. fold d rows' in Hq. specialize (Hq Hnd).
    unfold category_with_id in Hcat. fold d in Hcat. rewrite Hcat in Hq.
    unfold bind. rewrite <- Edt. destruct dt; rewrite Hq.
    + cbn [write_result changes_is_0 map List.length Z.of_nat]. cbn [Z.eqb Pos.of_succ_nat].
      rewrite (category_getById_names _ _ i) by (trivial; exact Hc).
      cbn [with_categories database set_categories categories].
      rewrite Hsame.
      assert (Hf : filter (fun r => Cat.id r =? i)
                          (map (fun x => if Cat.id x =? i then c' else x) (categories d))
                   = [c']).
      { assert (Hc'id : (Cat.id c' =? i) = true).
        { apply Z.eqb_eq. unfold c', rewritten_category. cbn. exact Hcid. }
        clear - Hcat Hc'id. revert Hcat. generalize (categories d) as l.
        induction l as [| x l IH]; cbn [filter map]; [discriminate |].
        destruct (Cat.id x =? i) eqn:E.
        - intros Hl. injection Hl as _ Hl. rewrite Hc'id. f_equal.
          rewrite map_untouched by (apply filter_nil_none; exact Hl).
          exact Hl.
        - rewrite E. exact IH. }
      rewrite Hf. subst c'. reflexivity.
    + cbn [write_result length_is_0 map List.length Nat.eqb index_0]. subst c'. reflexivity.
  - unfold c', rewritten_category. rewrite Hn, Ht. cbn. repeat split; try reflexivity.
Qed.

(** ** Category.initializeDefaultCategories *)

Lemma connected_usable (w : World) : connected w <-> usable w = true.
Proof.
  unfold connected, usable. destruct w as [[dt [[[|]] |] [|]] d]; cbn; split;
    try (intros [E1 E2]; discriminate); try discriminate; auto.
Qed.

Lemma query_unusable (w : World) (sql : Sql) (params : list Value) :
  usable w = false -> exists e, query sql params w = (Throw e, w).
Proof.
  unfold usable, query. destruct w as [[dt [[[|]] |] [|]] d]; cbn; intros E;
    try discriminate; eexists; reflexivity.
Qed.

Lemma getByName_unusable (w : World) (name : Value) :
  usable w = false ->
  Category.getByName name w = (Throw (Error "Error al obtener la categoría"), w).
Proof.
  intros Hu. unfold Category.getByName, try_catch, bind.
  destruct (query_unusable w (Query (Category.by_name (getDatabaseType w))) [name] Hu) as [e ->].
  reflexivity.
Qed.

Lemma ensure_category_unusable (w : World) (data : CatData.t) :
  usable w = false -> Category.ensure_category data w = (Ok tt, w).
Proof.
  intros Hu. unfold Category.ensure_category, try_catch, bind.
  rewrite getByName_unusable by exact Hu. reflexivity.
Qed.

Lemma ensure_category_ok (w : World) (data : CatData.t) :
  exists w', Category.ensure_category data w = (Ok tt, w').
Proof.
  unfold Category.ensure_category, try_catch.
  match goal with |- context [match ?m w with _ => _ end] => destruct (m w) as [[[] | e] w'] end;
    eexists; reflexivity.
Qed.

Lemma ensure_categories_ok (l : list CatData.t) (w : World) :
  exists w', Category.ensure_categories l w = (Ok tt, w').
Proof.
  revert w. induction l as [| data l IH]; intros w; [eexists; reflexivity |].
  cbn [Category.ensure_categories]. unfold bind.
  destruct (ensure_category_ok w data) as [w1 ->]. apply IH.
Qed.

Lemma ensure_categories_unusable (l : list CatData.t) (w : World) :
  usable w = false -> Category.ensure_categories l w = (Ok tt, w).
Proof.
  intros Hu. induction l as [| data l IH]; [reflexivity |].
  cbn [Category.ensure_categories]. unfold bind.
  rewrite ensure_category_unusable by exact Hu. exact IH.
Qed.

(** X12.  [initializeDefaultCategories] never rejects: what goes wrong for
    one category is caught inside the loop.  On a manager that cannot run
    a query (not connected, or its driver object closed) it changes
    nothing and still resolves. *)
Theorem initializeDefaultCategories_never_rejects (w : World) :
  exists w' : World,
    Category.initializeDefaultCategories w = (Ok tt, w')
    /\ (usable w = false -> w' = w).
Proof.
  unfold Category.initializeDefaultCategories, try_catch.
  destruct (ensure_categories_ok Category.defaultCategories w) as [w' E].
  exists w'. rewrite E. split; [reflexivity |].
  intros Hu. rewrite ensure_categories_unusable in E by exact Hu. now injection E.
Qed.

Lemma present_false (n : string) (rows : list Cat.row) :
  present n rows = false ->
  forall r, In r rows -> same_ignoring_case (Cat.name r) n = false.
Proof.
  unfold present. intros E r Hin.
  destruct (same_ignoring_case (Cat.name r) n) eqn:Es; [| reflexivity].
  assert (Hex : existsb (fun r => same_ignoring_case (Cat.name r) n) rows = true).
  { apply existsb_exists. exists r. auto. }
  congruence.
Qed.

Lemma create_category_runs (w : World) (data : CatData.t) (n : string) :
  connected w ->
  category_ids_in_sequence (database w) ->
  valid_category data ->
  CatData.name data = Some n ->
  present n (categories (database w)) = false ->
  Category.create data w
  = (Ok (Some (Cat.to_obj (stored_category (database w) data))),
     with_added w [stored_category (database w) data]).
Proof.
  intros Hc Hids Hv Hn Hfree'.
  pose proof (present_false _ _ Hfree') as Hfree.
  pose proof Hv as Hv'.
  apply valid_category_inv in Hv' as (n0 & t & Hn0 & Ht0 & Ht & Hfit).
  rewrite Hn in Hn0. injection Hn0 as <-.
  destruct data as [dn dt' ds co ic]. cbn [CatData.name CatData.type] in *. subst dn dt'.
  cbn [CatData.description CatData.color CatData.icon] in Hfit.
  unfold valid_category, Category.validate in Hv. cbn [fst] in Hv.
  unfold with_added, stored_category.
  cbn [CatData.name CatData.type CatData.description CatData.color CatData.icon
       List.length Z.of_nat Pos.of_succ_nat].
  set (d := database w) in *.
  set (r := Cat.mk (categories_seq d + 1) n t ds co ic (clock d) (clock d)).
  set (d1 := set_categories d (categories d ++ [r])%list (categories_seq d + 1)).
  assert (Hc1 : connected (mkWorld (dbManager w) d1)) by exact Hc.
  assert (Hnames : forall r', In r' (categories d) -> Cat.name r' <> n).
  { intros r' Hin E. specialize (Hfree r' Hin). rewrite E, same_ignoring_case_refl in Hfree.
    discriminate. }
  unfold Category.create, Category.validate. rewrite Hv.
  unfold try_catch, bind at 1. cbn [CatData.name js_text].
  rewrite getByName_runs by exact Hc. fold d.
  rewrite filter_none by exact Hfree. cbn [map hd_error].
  unfold bind.
  destruct (getDatabaseType w) eqn:Edt;
    rewrite (query_connected _ _ _ Hc), Edt; fold d;
    rewrite insert_category_runs by auto;
    cbn [write_result lastID index_0]; fold r d1.
  - rewrite category_getById_runs by exact Hc1.
    cbn [database d1 set_categories categories].
    rewrite (filter_new_category_id _ _ r) by (trivial; reflexivity). reflexivity.
  - reflexivity.
Qed.

Lemma ensure_category_present (w : World) (data : CatData.t) (n : string) :
  connected w -> CatData.name data = Some n ->
  present n (categories (database w)) = true ->
  Category.ensure_category data w = (Ok tt, w).
Proof.
  intros Hc Hn Hp. unfold Category.ensure_category, try_catch, bind.
  rewrite Hn. cbn [js_text]. rewrite getByName_runs by exact Hc.
  unfold present in Hp. apply existsb_exists in Hp as (r & Hin & Hr).
  destruct (hd_error_filter Cat.to_obj (fun r => same_ignoring_case (Cat.name r) n)
                            _ r Hin Hr) as (y & -> & _).
  reflexivity.
Qed.

Lemma ensure_category_adds (w : World) (data : CatData.t) (n : string) :
  connected w -> category_ids_in_sequence (database w) ->
  valid_category data -> CatData.name data = Some n ->
  present n (categories (database w)) = false ->
  Category.ensure_category data w
  = (Ok tt, with_added w [stored_category (database w) data]).
Proof.
  intros Hc Hids Hv Hn Hp. unfold Category.ensure_category, try_catch, bind at 1.
  rewrite Hn. cbn [js_text]. rewrite getByName_runs by exact Hc.
  rewrite filter_none by (apply present_false; exact Hp). cbn [map hd_error].
  unfold bind. rewrite (create_category_runs w data n) by assumption. reflexivity.
Qed.

Lemma with_added_nil (w : World) : with_added w [] = w.
Proof.
  unfold with_added. cbn [List.length Z.of_nat]. rewrite List.app_nil_r, Z.add_0_r.
  rewrite same_categories. apply same_world.
Qed.

Lemma with_added_app (w : World) (a b : list Cat.row) :
  with_added (with_added w a) b = with_added w (a ++ b).
Proof.
  unfold with_added. cbn [database dbManager set_categories categories categories_seq
                          transactions transactions_seq triggers clock].
  rewrite <- List.app_assoc, List.length_app, Nat2Z.inj_add, Z.add_assoc. reflexivity.
Qed.

Lemma present_app (n : string) (a b : list Cat.row) :
  present n (a ++ b) = present n a || present n b.
Proof. unfold present. apply existsb_app. Qed.

Lemma ids_in_sequence_added (w : World) (data : CatData.t) :
  category_ids_in_sequence (database w) ->
  category_ids_in_sequence (database (with_added w [stored_category (database w) data])).
Proof.
  unfold category_ids_in_sequence, with_added. intros Hids.
  cbn [database set_categories categories categories_seq List.length Z.of_nat Pos.of_succ_nat].
  apply Forall_app. split.
  - eapply Forall_impl; [| exact Hids]. cbn. intros x Hx. lia.
  - constructor; [| constructor]. cbn [stored_category Cat.id]. lia.
Qed.

Lemma stored_category_stores (d : Database) (data : CatData.t) (n : string) :
  valid_category data -> CatData.name data = Some n ->
  stores (stored_category d data) data /\ Cat.name (stored_category d data) = n.
Proof.
  intros Hv Hn. destruct (valid_category_inv data Hv) as (n' & t & Hn' & Ht & _).
  unfold stores, stored_category. rewrite Hn, Ht. cbn. repeat split; reflexivity.
Qed.

Lemma ensure_categories_adds (l : list CatData.t) :
  Forall valid_category l ->
  forall w, connected w -> category_ids_in_sequence (database w) ->
  exists added : list Cat.row,
    Category.ensure_categories l w = (Ok tt, with_added w added)
    /\ (forall data n, In data l -> CatData.name data = Some n ->
                       present n (categories (database w) ++ added) = true)
    /\ Forall (fun r => present (Cat.name r) (categories (database w)) = false
                        /\ exists data, In data l /\ stores r data) added
    /\ category_ids_in_sequence (database (with_added w added)).
Proof.
  induction 1 as [| data l Hv Hl IH]; intros w Hc Hids.
  - exists []. rewrite with_added_nil. split; [reflexivity |].
    split; [intros ? ? [] |]. split; [constructor | exact Hids].
  - destruct (valid_category_inv data Hv) as (n & t & Hn & _).
    cbn [Category.ensure_categories]. unfold bind.
    destruct (present n (categories (database w))) eqn:Hp.
    + rewrite (ensure_category_present w data n) by assumption.
      destruct (IH w Hc Hids) as (added & E & Hall & Hadded & Hids').
      exists added. split; [exact E |]. split; [| split; [| exact Hids']].
      * intros data' n' [<- | Hin] Hn'.
        -- rewrite Hn in Hn'. injection Hn' as <-. rewrite present_app, Hp. reflexivity.
        -- now apply (Hall data').
      * eapply Forall_impl; [| exact Hadded]. cbn.
        intros r [Hr (data' & Hin & Hst)]. split; [exact Hr |]. exists data'. split; [now right | exact Hst].
    + rewrite (ensure_category_adds w data n) by assumption.
      set (r := stored_category (database w) data).
      assert (Hc1 : connected (with_added w [r])) by exact Hc.
      destruct (IH (with_added w [r]) Hc1 (ids_in_sequence_added w data Hids))
        as (added & E & Hall & Hadded & Hids').
      rewrite with_added_app in E, Hids'.
      cbn [with_added database set_categories categories] in Hall, Hadded.
      destruct (stored_category_stores (database w) data n Hv Hn) as [Hst Hname]. fold r in Hst, Hname.
      exists (r :: added). split; [exact E |]. split; [| split; [| exact Hids']].
      * intros data' n' [<- | Hin] Hn'.
        -- rewrite Hn in Hn'. injection Hn' as <-.
           rewrite !present_app. cbn [present existsb]. fold r. rewrite Hname.
           rewrite same_ignoring_case_refl. cbn. now rewrite orb_true_r.
        -- specialize (Hall data' n' Hin Hn'). rewrite <- List.app_assoc in Hall. exact Hall.
      * constructor.
        -- split; [now rewrite Hname |]. exists data. split; [now left | exact Hst].
        -- eapply Forall_impl; [| exact Hadded]. cbn.
           intros x [Hx (data' & Hin & Hst')]. rewrite present_app in Hx.
           apply orb_false_iff in Hx as [Hx _]. split; [exact Hx |].
           exists data'. split; [now right | exact Hst'].
Qed.

Lemma ensure_categories_present (l : list CatData.t) (w : World) :
  connected w ->
  (forall data, In data l ->
                exists n, CatData.name data = Some n
                          /\ present n (categories (database w)) = true) ->
  Category.ensure_categories l w = (Ok tt, w).
Proof.
  intros Hc. induction l as [| data l IH]; intros Hall; [reflexivity |].
  cbn [Category.ensure_categories]. unfold bind.
  destruct (Hall data (or_introl eq_refl)) as (n & Hn & Hp).
  rewrite (ensure_category_present w data n) by assumption.
  apply IH. intros x Hx. apply Hall. now right.
Qed.

Lemma defaults_valid : Forall valid_category Category.defaultCategories.
Proof. repeat constructor. Qed.

Lemma defaults_named (data : CatData.t) :
  In data Category.defaultCategories -> exists n, CatData.name data = Some n.
Proof.
  intros Hin. destruct (valid_category_inv data) as (n & _ & Hn & _).
  - pose proof defaults_valid as Hv. rewrite Forall_forall in Hv. now apply Hv.
  - now exists n.
Qed.

(** X13.  On a connected manager whose category ids were handed out by the
    sequence, [initializeDefaultCategories] resolves and afterwards every
    default name is borne by a stored category, in some casing; the
    categories stored before stay in place, each row appended carries the
    fields of a default whose name was borne by none, and the table of
    transactions is not touched. *)
Theorem initializeDefaultCategories_completes (w : World) :
  connected w ->
  category_ids_in_sequence (database w) ->
  exists added : list Cat.row,
    Category.initializeDefaultCategories w = (Ok tt, with_added w added)
    /\ (forall data n, In data Category.defaultCategories -> CatData.name data = Some n ->
                       present n (categories (database w) ++ added) = true)
    /\ Forall (fun r => present (Cat.name r) (categories (database w)) = false
                        /\ exists data, In data Category.defaultCategories /\ stores r data)
              added
    /\ transactions (database (with_added w added)) = transactions (database w)
    /\ connected (with_added w added)
    /\ category_ids_in_sequence (database (with_added w added)).
Proof.
  intros Hc Hids.
  destruct (ensure_categories_adds _ defaults_valid w Hc Hids) as (added & E & Hall & Hadded & Hids').
  exists added. unfold Category.initializeDefaultCategories, try_catch. rewrite E.
  split; [reflexivity |]. split; [exact Hall |]. split; [exact Hadded |].
  split; [reflexivity |]. split; [exact Hc | exact Hids'].
Qed.

(** X14.  [initializeDefaultCategories] is idempotent: on a connected
    manager whose category ids were handed out by the sequence, a second
    run right after the first resolves and changes nothing. *)
Theorem initializeDefaultCategories_twice (w : World) :
  connected w ->
  category_ids_in_sequence (database w) ->
  exists w1 : World,
    Category.initializeDefaultCategories w = (Ok tt, w1)
    /\ Category.initializeDefaultCategories w1 = (Ok tt, w1).
Proof.
  intros Hc Hids.
  destruct (ensure_categories_adds _ defaults_valid w Hc Hids) as (added & E & Hall & _).
  exists (with_added w added).
  unfold Category.initializeDefaultCategories, try_catch. rewrite E.
  split; [reflexivity |].
  rewrite ensure_categories_present; [reflexivity | exact Hc |].
  intros data Hin. destruct (defaults_named data Hin) as [n Hn].
  exists n. split; [exact Hn |]. now apply (Hall data).
Qed.

(** ** initializeDatabase *)

Lemma runMigrations_closes (w : World) :
  exists w' : World,
    runMigrations (snd (connect w)) = (Ok tt, w')
    /\ usable w' = false
    /\ categories (database w') = categories (database w)
    /\ transactions (database w') = transactions (database w).
Proof.
  destruct w as [[dt c ic] d]. destruct dt; eexists;
    (split; [reflexivity |]); repeat split; reflexivity.
Qed.

Lemma getAll_unusable (w : World) (f : Filters.t) :
  usable w = false ->
  Transaction.getAll f w = (Throw (Error "Error al obtener las transacciones"), w).
Proof.
  intros Hu. unfold Transaction.getAll, try_catch, bind.
  match goal with
  | |- context [query ?q ?p w] => destruct (query_unusable w q p Hu) as [e ->]
  end.
  reflexivity.
Qed.

(** X15.  [initializeDatabase] connects, runs the migrations, which connect
    again and close the connection when they are done, and only then
    initializes the default categories.  So, the database being
    reachable, from every state it resolves with a manager that cannot
    run a query: no default category has been
    stored, and every later query is rejected; [Transaction.getAll], for
    one, rejects with 'Error al obtener las transacciones'. *)
Theorem initializeDatabase_leaves_closed (w : World) :
  exists w' : World,
    initializeDatabase w = (Ok tt, w')
    /\ usable w' = false
    /\ categories (database w') = categories (database w)
    /\ transactions (database w') = transactions (database w)
    /\ (forall sql params, exists e, query sql params w' = (Throw e, w'))
    /\ (forall f, Transaction.getAll f w'
                  = (Throw (Error "Error al obtener las transacciones"), w')).
Proof.
  destruct (runMigrations_closes w) as (w' & Hm & Hu & Hcat & Htx).
  exists w'. split; [| split; [exact Hu | split; [exact Hcat | split; [exact Htx | split]]]].
  - unfold initializeDatabase, try_catch, bind.
    replace (connect w) with (Ok tt, snd (connect w)) by reflexivity.
    rewrite Hm. unfold Category.initializeDefaultCategories, try_catch.
    rewrite ensure_categories_unusable by exact Hu. reflexivity.
  - intros sql params. now apply query_unusable.
  - intros f. now apply getAll_unusable.
Qed.

(** ** GET /api/reports/monthly/:year *)

(** X16.  GET /api/reports/monthly/:year, the year written in decimal.  A
    year below 2000 or above 2100 is answered with 400 'Año inválido'
    without a query being sent.  A year from 2000 to 2100 is answered, on
    a connected manager, with 200 and the monthly data: on PostgreSQL the
    sums per month and kind of that year's transactions, on SQLite the
    empty list whatever the table holds. *)
Theorem monthly_report_answers (w : World) (y : Z) (NODE_ENV : string) :
  (y < 2000 \/ 2100 < y ->
   monthly_report_route NODE_ENV (js_of_Z y) w
   = (mkReply 400 (Fields [("error", "Año inválido")]), w))
  /\ (2000 <= y <= 2100 -> connected w ->
      monthly_report_route NODE_ENV (js_of_Z y) w
      = (mkReply 200 (MonthlyData
                        match getDatabaseType w with
                        | sqlite => []
                        | postgresql => monthly_of y (transactions (database w))
                        end), w)).
Proof.
  unfold monthly_report_route. rewrite parseInt_text_js_of_Z. split.
  - intros Hy. replace ((y <? 2000) || (2100 <? y)) with true; [reflexivity |].
    symmetry. apply orb_true_iff. rewrite !Z.ltb_lt. exact Hy.
  - intros Hy Hc. replace ((y <? 2000) || (2100 <? y)) with false.
    2: { symmetry. apply orb_false_iff. rewrite !Z.ltb_ge. lia. }
    unfold handle. destruct (getDatabaseType w) eqn:Edt.
    + rewrite sqlite_monthly_always_empty by assumption. reflexivity.
    + rewrite postgresql_monthly_runs by assumption. reflexivity.
Qed.

(** ** The order of the GET routes *)

Lemma match_three_literals (a b c : string) (request : list string)
      (params : list (string * string)) :
  match_segments [Lit a; Lit b; Lit c] request = Some params -> request = [a; b; c].
Proof.
  destruct request as [| x [| y [| z [| u rest]]]]; cbn;
    repeat match goal with
           | |- context [if String.eqb ?p ?q then _ else _] =>
               let E := fresh "E" in destruct (String.eqb p q) eqn:E
           end; try discriminate.
  intros _. apply String.eqb_eq in E, E0, E1. now subst.
Qed.

(** X17.  GET /api/categories/stats never reaches its handler: the route
    '/api/categories/:id' is registered before it and takes the request
    with id 'stats'.  On SQLite, where the text 'stats' equals no integer
    id, the answer is 404 'Categoría no encontrada'. *)
Theorem categories_stats_is_shadowed :
  (forall request params, dispatch get_routes request <> Some (GET_categories_stats, params))
  /\ dispatch get_routes ["api"; "categories"; "stats"]
     = Some (GET_categories_id, [("id", "stats")])
  /\ (forall (w : World) (NODE_ENV : string),
        connected w -> getDatabaseType w = sqlite ->
        get_category_route NODE_ENV "stats" w
        = (mkReply 404 (Fields [("error", "Categoría no encontrada")]), w)).
Proof.
  split; [| split; [reflexivity |]].
  - intros request params Hd. cbn [dispatch get_routes] in Hd.
    repeat match type of Hd with
           | match match_path ?p request with _ => _ end = _ =>
               let E := fresh "E" in
               destruct (match_path p request) eqn:E; [try discriminate Hd |]
           end.
    + cbn [match_path] in *. apply match_three_literals in E4. subst request.
      discriminate E3.
    + discriminate Hd.
  - intros w NODE_ENV Hu Edt.
    unfold get_category_route, handle, Category.getById, try_catch, bind.
    rewrite (query_connected _ _ _ Hu), Edt. cbn -[run_select].
    rewrite (select_all_categories _ _ _ (fun _ => false)) by reflexivity.
    rewrite filter_false. destruct w. reflexivity.
Qed.

(** ** checkExistingData *)

Lemma filter_true {A : Type} (l : list A) : filter (fun _ => true) l = l.
Proof. induction l; cbn; congruence. Qed.

Lemma select_count_categories (dt : DbType) (d : Database) :
  run_select dt d (mkSelect [Item COUNT_STAR "count"] "categories" [] None [] None)
  = Some [[("count", VNum (Z.of_nat (List.length (categories d))))]].
Proof.
  unfold run_select. cbn -[Z.of_nat].
  rewrite keep_map, (keep_filter _ _ _ _ (fun _ => true)) by reflexivity. cbn [option_map].
  unfold select_output. cbn -[Z.of_nat]. rewrite length_map, filter_true. reflexivity.
Qed.

(** X18.  [checkExistingData] never rejects and changes nothing: on a
    connected manager it returns the numbers of rows of the two tables, and
    on a manager that cannot run a query it returns 0 and 0. *)
Theorem checkExistingData_counts (w : World) :
  (connected w ->
   checkExistingData w
   = (Ok (mkExistingData (Num (Z.of_nat (List.length (categories (database w)))))
                         (Num (Z.of_nat (List.length (transactions (database w)))))), w))
  /\ (usable w = false ->
      checkExistingData w = (Ok (mkExistingData (Num 0) (Num 0)), w)).
Proof.
  split.
  - intros Hc. unfold checkExistingData, try_catch, bind at 1.
    rewrite (query_connected _ _ _ Hc).
    assert (E1 : execute (getDatabaseType w) (database w) (count_query "categories") []
                 = Done (Rows [[("count", VNum (Z.of_nat (List.length (categories (database w)))))]],
                         database w)).
    { destruct (getDatabaseType w); cbn -[run_select]; rewrite select_count_categories;
        reflexivity. }
    assert (E2 : execute (getDatabaseType w) (database w) (count_query "transactions") []
                 = Done (Rows [[("count", VNum (Z.of_nat (List.length (transactions (database w)))))]],
                         database w)).
    { destruct (getDatabaseType w); cbn -[run_select];
        rewrite (select_count_transactions _ _ _ (fun _ => true)) by reflexivity;
        rewrite filter_true; reflexivity. }
    rewrite E1. rewrite same_world. unfold bind, count_of. cbn [index_0].
    cbn [field String.eqb Ascii.eqb Bool.eqb parseInt parseFloat ret].
    rewrite (query_connected _ _ _ Hc), E2. rewrite same_world.
    cbn [index_0 field String.eqb Ascii.eqb Bool.eqb parseInt parseFloat ret]. reflexivity.
  - intros Hu. unfold checkExistingData, try_catch, bind at 1.
    destruct (query_unusable w (count_query "categories") [] Hu) as [e ->]. reflexivity.
Qed.

(** ** The statistics without a date range, the monthly data on PostgreSQL *)

(** X19.  [getStatistics] with a filter that lacks a date (the other date,
    when given, is ignored), on a connected manager whose amounts doubles
    add without rounding (whole numbers of the currency unit, none
    negative, their sum a safe integer): the totals are the sums of the
    amounts of the incomes and of the expenses of the whole table, the
    balance their difference; each breakdown has one entry per category
    that has a row of the kind, carrying the sum of those rows' amounts, no
    category twice, larger totals first. *)
Theorem getStatistics_without_range (w : World) (filters : Filters.t) :
  connected w ->
  Filters.startDate filters = None \/ Filters.endDate filters = None ->
  whole_amounts (transactions (database w)) ->
  let rows := transactions (database w) in
  let income := total (filter (of_kind "income") rows) in
  let expenses := total (filter (of_kind "expense") rows) in
  exists s : Statistics,
    Transaction.getStatistics filters w = (Ok s, w)
    /\ totalIncome s = Num income /\ totalExpenses s = Num expenses
    /\ balance s = Num (income - expenses)
    /\ (forall name t,
          In (mkCategoryTotal (Some (VText name)) (Num t)) (expensesByCategory s)
          <-> (exists r, In r rows /\ of_kind "expense" r && in_category name r = true)
              /\ t = total (filter (fun r => of_kind "expense" r && in_category name r) rows))
    /\ (forall name t,
          In (mkCategoryTotal (Some (VText name)) (Num t)) (incomeByCategory s)
          <-> (exists r, In r rows /\ of_kind "income" r && in_category name r = true)
              /\ t = total (filter (fun r => of_kind "income" r && in_category name r) rows))
    /\ StronglySorted total_ge (expensesByCategory s)
    /\ StronglySorted total_ge (incomeByCategory s)
    /\ NoDup (map ct_category (expensesByCategory s))
    /\ NoDup (map ct_category (incomeByCategory s)).
Proof.
  intros Hc Hf _ rows income expenses.
  eexists. split; [apply getStatistics_sums; assumption |].
  cbn [totalIncome totalExpenses balance expensesByCategory incomeByCategory].
  do 3 (split; [reflexivity |]).
  split; [intros name t; apply breakdown_of_entries |].
  split; [intros name t; apply breakdown_of_entries |].
  split; [apply breakdown_of_sorted |]. split; [apply breakdown_of_sorted |].
  split; apply breakdown_of_categories.
Qed.

(** X20.  On PostgreSQL [getMonthlyData(year)], on a connected manager,
    returns one entry per month and kind that has a transaction dated in
    that year, carrying the sum of those transactions' amounts; a month
    without transactions has no entry; the entries are ordered by month,
    then by kind. *)
Theorem postgresql_monthly_data (w : World) (y : Z) :
  connected w ->
  getDatabaseType w = postgresql ->
  let rows := transactions (database w) in
  exists l : list MonthlyEntry,
    Transaction.getMonthlyData y w = (Ok l, w)
    /\ (forall m kind t,
          In (mkMonthlyEntry (Num m) (Some (VText kind)) (Num t)) l
          <-> (exists r, In r rows /\ in_year y r && in_month_kind m kind r = true)
              /\ t = total (filter (fun r => in_year y r && in_month_kind m kind r) rows))
    /\ Sorted month_then_kind l.
Proof.
  intros Hc Edt rows. exists (monthly_of y rows).
  split; [now apply postgresql_monthly_runs |].
  split; [intros m kind t; apply monthly_of_entries | apply monthly_of_sorted].
Qed.

(** ** POST /api/categories *)


(** ** The routes on a manager that cannot run a query *)

Lemma query_unusable_500 (w : World) (sql : Sql) (params : list Value) (NODE_ENV : string) :
  usable w = false ->
  exists e, query sql params w = (Throw e, w) /\ r_status (next NODE_ENV e) = 500.
Proof.
  unfold usable, query. destruct w as [[dt [[[|]] |] [|]] d]; cbn; intros E;
    try discriminate; try (eexists; split; reflexivity).
  destruct dt; eexists; split; reflexivity.
Qed.

(** X22.  On a manager that cannot run a query (not connected, or its driver
    object closed) the routes that read or write a table answer 500 and
    change nothing: GET, PUT and DELETE /api/transactions/:id, POST
    /api/transactions, GET /api/categories, GET, PUT and DELETE
    /api/categories/:id and POST /api/categories, the candidates being
    ones the schemas accept. *)
Theorem unusable_manager_answers_500 (w : World) (id : string) (type : option string)
        (body : TxData.t) (category : CatData.t) (NODE_ENV : string) :
  usable w = false -> valid body -> valid_category category ->
  answers_500 (get_transaction_route NODE_ENV id) w
  /\ answers_500 (post_transaction_route NODE_ENV body) w
  /\ answers_500 (put_transaction_route NODE_ENV id body) w
  /\ answers_500 (delete_transaction_route NODE_ENV id) w
  /\ answers_500 (get_categories_route NODE_ENV type) w
  /\ answers_500 (get_category_route NODE_ENV id) w
  /\ answers_500 (post_category_route NODE_ENV category) w
  /\ answers_500 (put_category_route NODE_ENV id category) w
  /\ status (fst (delete_category_route NODE_ENV (VText id) w)) = 500
  /\ snd (delete_category_route NODE_ENV (VText id) w) = w.
Proof.
  intros Hu Hv Hvc.
  pose proof (fun sql params => query_unusable_500 w sql params NODE_ENV Hu) as Hq.
  apply valid_inv in Hv as Hv'. destruct Hv' as (t & a & ds & c & dd & -> & _).
  unfold valid, Transaction.validate in Hv. cbn [fst] in Hv.
  destruct (category_validated category (VText id) Hvc) as (n & ct & Hn & _ & _ & _ & Hupd).
  unfold valid_category, Category.validate in Hvc. cbn [fst] in Hvc.
  unfold answers_500. repeat split.
  - unfold get_transaction_route, handle, Transaction.getById, try_catch, bind.
    match goal with |- context [query ?q ?p w] => destruct (Hq q p) as (e & -> & _) end.
    reflexivity.
  - unfold get_transaction_route, handle, Transaction.getById, try_catch, bind.
    match goal with |- context [query ?q ?p w] => destruct (Hq q p) as (e & -> & _) end.
    reflexivity.
  - unfold post_transaction_route, handle, Transaction.create, Transaction.validate.
    rewrite Hv. unfold try_catch, bind.
    destruct (getDatabaseType w);
      match goal with |- context [query ?q ?p w] => destruct (Hq q p) as (e & -> & _) end;
      reflexivity.
  - unfold post_transaction_route, handle, Transaction.create, Transaction.validate.
    rewrite Hv. unfold try_catch, bind.
    destruct (getDatabaseType w);
      match goal with |- context [query ?q ?p w] => destruct (Hq q p) as (e & -> & _) end;
      reflexivity.
  - unfold put_transaction_route, handle, Transaction.update, Transaction.validate.
    rewrite Hv. unfold try_catch, bind.
    destruct (getDatabaseType w);
      match goal with |- context [query ?q ?p w] => destruct (Hq q p) as (e & -> & He) end;
      exact He.
  - unfold put_transaction_route, handle, Transaction.update, Transaction.validate.
    rewrite Hv. unfold try_catch, bind.
    destruct (getDatabaseType w);
      match goal with |- context [query ?q ?p w] => destruct (Hq q p) as (e & -> & He) end;
      reflexivity.
  - unfold delete_transaction_route, handle, Transaction.delete, try_catch, bind.
    destruct (getDatabaseType w);
      match goal with |- context [query ?q ?p w] => destruct (Hq q p) as (e & -> & _) end;
      reflexivity.
  - unfold delete_transaction_route, handle, Transaction.delete, try_catch, bind.
    destruct (getDatabaseType w);
      match goal with |- context [query ?q ?p w] => destruct (Hq q p) as (e & -> & _) end;
      reflexivity.
  - unfold get_categories_route, handle, Category.getAll, try_catch, bind.
    match goal with |- context [query ?q ?p w] => destruct (Hq q p) as (e & -> & _) end.
    reflexivity.
  - unfold get_categories_route, handle, Category.getAll, try_catch, bind.
    match goal with |- context [query ?q ?p w] => destruct (Hq q p) as (e & -> & _) end.
    reflexivity.
  - unfold get_category_route, handle, Category.getById, try_catch, bind.
    match goal with |- context [query ?q ?p w] => destruct (Hq q p) as (e & -> & _) end.
    reflexivity.
  - unfold get_category_route, handle, Category.getById, try_catch, bind.
    match goal with |- context [query ?q ?p w] => destruct (Hq q p) as (e & -> & _) end.
    reflexivity.
  - unfold post_category_route, handle, Category.create, Category.validate.
    rewrite Hvc. unfold try_catch, bind. rewrite getByName_unusable by exact Hu. reflexivity.
  - unfold post_category_route, handle, Category.create, Category.validate.
    rewrite Hvc. unfold try_catch, bind. rewrite getByName_unusable by exact Hu. reflexivity.
  - unfold put_category_route, handle. rewrite Hupd.
    unfold try_catch, bind. rewrite getByName_unusable by exact Hu. reflexivity.
  - unfold put_category_route, handle. rewrite Hupd.
    unfold try_catch, bind. rewrite getByName_unusable by exact Hu. reflexivity.
  - unfold delete_category_route, Category.delete, try_catch, bind.
    match goal with |- context [query ?q ?p w] => destruct (Hq q p) as (e & -> & He) end.
    exact He.
  - unfold delete_category_route, Category.delete, try_catch, bind.
    match goal with |- context [query ?q ?p w] => destruct (Hq q p) as (e & -> & He) end.
    reflexivity.
Qed.

End Properties.

(** * The statements at concrete inputs

    SQLite's LOWER is the instance in force below. *)

(** ** Transaction.getAll *)

(** A limit of 0 is supplied and three rows come back. *)
Lemma getAll_limit_0_returns_all :
  connected (connected_to sqlite sample)
  /\ Filters.limit limit_0 = Some 0
  /\ fst (Transaction.getAll limit_0 (connected_to sqlite sample))
     = Ok (Rows (map Tx.to_obj [salary; dinner; cinema])).
Proof. split; [hyp_connected | split; reflexivity]. Qed.

Lemma getAll_filters_orders_caps_witness :
  connected (connected_to postgresql sample)
  /\ (forall z, Filters.limit leisure_in_january = Some z -> 0 <= z)
  /\ exists l : list Tx.row,
       Transaction.getAll leisure_in_january (connected_to postgresql sample)
       = (Ok (Rows (map Tx.to_obj (capped (Some 1) l))), connected_to postgresql sample)
       /\ Permutation l (filter (matches leisure_in_january) (transactions sample))
       /\ StronglySorted (fun a b => newest_first a b = true) l.
Proof.
  assert (Hl : forall z, Filters.limit leisure_in_january = Some z -> 0 <= z).
  { intros z E. injection E as <-. hyp_le. }
  split; [hyp_connected | split; [exact Hl |]].
  destruct (getAll_filters_orders_caps (connected_to postgresql sample) leisure_in_january)
    as (l & Hrun & Hperm & Hsorted & _); [hyp_connected | exact Hl |].
  exists l. split; [exact Hrun | split; [exact Hperm | exact Hsorted]].
Defined.

(** A negative limit: no limit to SQLite, an error to PostgreSQL. *)
Example getAll_negative_limit :
  fst (Transaction.getAll (Filters.mk None None None None (Some (-1)))
                          (connected_to sqlite sample))
  = Ok (Rows (map Tx.to_obj [salary; dinner; cinema]))
  /\ fst (Transaction.getAll (Filters.mk None None None None (Some (-1)))
                             (connected_to postgresql sample))
     = Throw (Error "Error al obtener las transacciones").
Proof. split; reflexivity. Qed.

(** A filter given as the empty string is not applied. *)
Example getAll_empty_category :
  fst (Transaction.getAll (Filters.mk None (Some EmptyString) None None None)
                          (connected_to sqlite sample))
  = Ok (Rows (map Tx.to_obj [salary; dinner; cinema])).
Proof. reflexivity. Qed.

(** Without a connection every call rejects. *)
Example getAll_not_connected :
  fst (Transaction.getAll no_filter (fresh sqlite sample))
  = Throw (Error "Error al obtener las transacciones").
Proof. reflexivity. Qed.

(** ** Transaction.create and Transaction.getById *)

(** The schema accepts an amount of 10 000 000 000.00; the DECIMAL(12,2)
    column of the relational backend does not, and [create] rejects. *)
Lemma create_ten_billions_rejects :
  connected (connected_to postgresql sample)
  /\ ids_in_sequence sample
  /\ valid ten_billions
  /\ Transaction.create ten_billions (connected_to postgresql sample)
     = (Throw (Error "Error al crear la transacción"), connected_to postgresql sample).
Proof.
  split; [hyp_connected |]. split; [repeat constructor; hyp_le |]. split; reflexivity.
Qed.

Lemma create_then_getById_witness :
  connected (connected_to postgresql sample)
  /\ ids_in_sequence sample
  /\ valid refund
  /\ amount_in_range postgresql refund
  /\ exists (record : Obj) (w1 : World),
       Transaction.create refund (connected_to postgresql sample) = (Ok (Some record), w1)
       /\ Transaction.getById (VNum 4) w1 = (Ok (Some record), w1)
       /\ field "amount" record = Some (VNum 500)
       /\ field "created_at" record = Some (VNum 200).
Proof.
  assert (Hids : ids_in_sequence sample) by (repeat constructor; hyp_le).
  assert (Hv : valid refund) by reflexivity.
  assert (Hr : amount_in_range postgresql refund) by reflexivity.
  split; [hyp_connected |]. split; [exact Hids |]. split; [exact Hv |]. split; [exact Hr |].
  destruct (create_then_getById (connected_to postgresql sample) refund)
    as (record & w1 & Hcreate & Hid & Hget & _ & _ & Hamount & _ & _ & Hca & _);
    [hyp_connected | exact Hids | exact Hv | exact Hr |].
  exists record, w1. split; [exact Hcreate |].
  split; [exact Hget |]. split; [exact Hamount | exact Hca].
Defined.

(** ** Transaction.delete *)



(** ** Transaction.update *)


(** The same update on both backends: SQLite leaves [updated_at] at 101,
    the PostgreSQL statement sets it to the current time, 200. *)
Example update_on_both_backends :
  (exists (record : Obj) (w1 : World),
     Transaction.update (VNum 2) refund (connected_to sqlite sample) = (Ok (Some record), w1)
     /\ field "updated_at" record = Some (VNum 101))
  /\ (exists (record : Obj) (w1 : World),
        Transaction.update (VNum 2) refund (connected_to postgresql sample)
        = (Ok (Some record), w1)
        /\ field "updated_at" record = Some (VNum 200)).
Proof. split; do 2 eexists; split; reflexivity. Qed.

Example migrations_and_triggers :
  triggers (database (snd (runMigrations (fresh sqlite sample)))) = []
  /\ triggers (database (snd (runMigrations (fresh postgresql sample))))
     = ["categories"; "transactions"].
Proof. split; reflexivity. Qed.

(** ** Category.getByName *)

(** C4.  The claim's scenario on the embedded backend, whose [lower()]
    folds the ASCII letters only: once 'Alimentación' is created,
    [getByName] finds it under 'alimentación' but not under
    'ALIMENTACIÓN', a casing variant whose capital Ó [lower()] leaves as it
    is.  The duplicate check of [create] goes through [getByName], so a
    second category 'ALIMENTACIÓN' is stored beside the first. *)
Theorem getByName_misses_accented_capital :
  exists (row : Obj) (w1 : World),
    Category.create food (connected_to sqlite sample) = (Ok (Some row), w1)
    /\ field "name" row = Some (VText "Alimentación")
    /\ Category.getByName (VText "alimentación") w1 = (Ok (Some row), w1)
    /\ Category.getByName (VText "ALIMENTACIÓN") w1 = (Ok None, w1)
    /\ exists (second : Obj) (w2 : World),
         Category.create food_in_capitals w1 = (Ok (Some second), w2)
         /\ field "name" second = Some (VText "ALIMENTACIÓN")
         /\ map Cat.name (categories (database w2))
            = ["Ocio"; "Salud"; "Alimentación"; "ALIMENTACIÓN"].
Proof.
  do 2 eexists. split; [vm_compute; reflexivity |].
  split; [reflexivity |]. split; [vm_compute; reflexivity |].
  split; [vm_compute; reflexivity |].
  do 2 eexists. split; [vm_compute; reflexivity |].
  split; reflexivity.
Qed.

Lemma getByName_follows_lower_example :
  connected (connected_to sqlite sample)
  /\ category_ids_in_sequence sample
  /\ valid_category food
  /\ CatData.name food = Some "Alimentación"
  /\ (forall r, In r (categories sample) ->
                same_ignoring_case (Cat.name r) "Alimentación" = false)
  /\ exists (row : Obj) (w1 : World),
       Category.create food (connected_to sqlite sample) = (Ok (Some row), w1)
       /\ field "name" row = Some (VText "Alimentación")
       /\ Category.getByName (VText "alimentación") w1 = (Ok (Some row), w1)
       /\ Category.getByName (VText "ALIMENTACION") w1 = (Ok None, w1).
Proof.
  assert (Hids : category_ids_in_sequence sample) by (repeat constructor; hyp_le).
  assert (Hfree : forall r, In r (categories sample) ->
                            same_ignoring_case (Cat.name r) "Alimentación" = false).
  { intros r [<- | [<- | []]]; reflexivity. }
  split; [hyp_connected |]. split; [exact Hids |]. split; [reflexivity |].
  split; [reflexivity |]. split; [exact Hfree |].
  destruct (getByName_follows_lower (connected_to sqlite sample) food "Alimentación")
    as (row & w1 & Hcreate & Hname & Hvariant & Hnone);
    [hyp_connected | exact Hids | reflexivity | reflexivity | exact Hfree |].
  exists row, w1. split; [exact Hcreate |]. split; [exact Hname |].
  split; [apply Hvariant; reflexivity |].
  apply Hnone.
  assert (Ew : w1 = snd (Category.create food (connected_to sqlite sample)))
    by (rewrite Hcreate; reflexivity).
  assert (Erows : categories (database w1)
                  = [leisure; health;
                     Cat.mk 3 "Alimentación" "expense" (Some "Comida y bebidas")
                            (Some "#F44336") None 200 200])
    by (rewrite Ew; vm_compute; reflexivity).
  rewrite Erows. intros r [<- | [<- | [<- | []]]]; vm_compute; reflexivity.
Defined.

(** ** Category.delete *)



(** On the relational backend the DELETE returns no row: the category is
    removed, [delete] returns [false] and the route answers 404. *)
Example postgresql_category_delete_returns_false :
  fst (Category.delete (VNum 2) (connected_to postgresql sample)) = Ok false
  /\ categories (database (snd (Category.delete (VNum 2) (connected_to postgresql sample))))
     = [leisure]
  /\ status (fst (delete_category_route "production" (VNum 2) (connected_to postgresql sample)))
     = 404.
Proof. repeat split; reflexivity. Qed.

(** An id under which nothing is stored: nothing to count, nothing to
    remove, 404. *)
Example category_delete_unknown_id :
  fst (Category.delete (VNum 9) (connected_to sqlite sample)) = Ok false
  /\ status (fst (delete_category_route "production" (VNum 9) (connected_to sqlite sample)))
     = 404.
Proof. split; reflexivity. Qed.

(** The route hands the id over as text; both engines read it as the
    number. *)
Example category_delete_text_id :
  fst (Category.delete (VText "2") (connected_to sqlite sample)) = Ok true
  /\ fst (Category.delete (VText "1") (connected_to postgresql sample))
     = fst (Category.delete (VNum 1) (connected_to postgresql sample)).
Proof. split; reflexivity. Qed.

(** ** Transaction.getStatistics *)

Lemma getStatistics_rejects_date_range_witness :
  Filters.startDate january = Some (mkDate 2024 1 1)
  /\ Filters.endDate january = Some (mkDate 2024 1 31)
  /\ Transaction.getStatistics january (connected_to sqlite sample)
     = (Throw (Error "Error al obtener las estadísticas"), connected_to sqlite sample).
Proof.
  split; [reflexivity |]. split; [reflexivity |].
  apply (getStatistics_rejects_date_range (connected_to sqlite sample) january
           (mkDate 2024 1 1) (mkDate 2024 1 31)); reflexivity.
Defined.

(** The scenario of the spec without a date range: 25.00 and 40.00 spent on
    'Ocio', 100.00 earned. *)
Example getStatistics_sample :
  fst (Transaction.getStatistics no_filter (connected_to sqlite sample))
  = Ok (mkStatistics (Num 10000) (Num 6500) (Num 3500)
                     [mkCategoryTotal (Some (VText "Ocio")) (Num 6500)]
                     [mkCategoryTotal (Some (VText "Salario")) (Num 10000)]).
Proof. reflexivity. Qed.

(** C2, as the code runs.  On a store without rows [getStatistics] returns
    0, 0, 0 and two empty breakdowns when no date range is given; with a
    date range, under which no row matches either, it rejects on both
    backends instead. *)
Theorem getStatistics_without_rows :
  fst (Transaction.getStatistics no_filter (connected_to sqlite empty))
  = Ok (mkStatistics (Num 0) (Num 0) (Num 0) [] [])
  /\ fst (Transaction.getStatistics no_filter (connected_to postgresql empty))
     = Ok (mkStatistics (Num 0) (Num 0) (Num 0) [] [])
  /\ fst (Transaction.getStatistics january (connected_to sqlite empty))
     = Throw (Error "Error al obtener las estadísticas")
  /\ fst (Transaction.getStatistics january (connected_to postgresql empty))
     = Throw (Error "Error al obtener las estadísticas").
Proof. repeat split; reflexivity. Qed.

(** ** Transaction.getMonthlyData *)

(** C8, as the code runs.  With the single income of 100.00 dated
    2024-03-05 stored, [getMonthlyData(2024)] returns the one entry
    month 3, 'income', 100.00 on the relational backend and the empty
    sequence on the embedded backend, whose query compares the text of
    [strftime('%Y', date)] with the number 2024. *)
Theorem monthly_march_income :
  fst (Transaction.getMonthlyData 2024 (connected_to postgresql march_income))
  = Ok [mkMonthlyEntry (Num 3) (Some (VText "income")) (Num 10000)]
  /\ fst (Transaction.getMonthlyData 2024 (connected_to sqlite march_income)) = Ok [].
Proof. split; reflexivity. Qed.

Example monthly_sample_postgresql :
  fst (Transaction.getMonthlyData 2024 (connected_to postgresql sample))
  = Ok [mkMonthlyEntry (Num 1) (Some (VText "expense")) (Num 6500);
        mkMonthlyEntry (Num 3) (Some (VText "income")) (Num 10000)].
Proof. reflexivity. Qed.

(** ** DatabaseManager.close *)

(** C9, as the code runs.  After [connect()] and a first [close()]: on the
    embedded backend [isConnectionActive()] still answers [true], after
    the second [close()] as well; on the relational backend the manager is
    inactive and the second [close()] rejects, for [this.connection] still
    holds the ended pool. *)
Theorem close_twice :
  (let w1 := snd (connect (fresh sqlite empty)) in
   fst (close w1) = Ok tt
   /\ isConnectionActive (snd (close w1)) = true
   /\ fst (close (snd (close w1))) = Ok tt
   /\ isConnectionActive (snd (close (snd (close w1)))) = true)
  /\ (let w1 := snd (connect (fresh postgresql empty)) in
      fst (close w1) = Ok tt
      /\ isConnectionActive (snd (close w1)) = false
      /\ fst (close (snd (close w1))) = Throw (Error "Called end on pool more than once")).
Proof. repeat split; reflexivity. Qed.

(** A manager that never connected closes without effect, twice as once. *)
Example close_before_connect :
  close (fresh sqlite empty) = (Ok tt, fresh sqlite empty)
  /\ close (fresh postgresql empty) = (Ok tt, fresh postgresql empty).
Proof. split; reflexivity. Qed.

(** ** Category.getAll *)

Lemma category_getAll_lists_witness :
  connected (connected_to sqlite sample)
  /\ exists rows : list Cat.row,
       Category.getAll (Some "expense") (connected_to sqlite sample)
       = (Ok (Rows (map Cat.to_obj rows)), connected_to sqlite sample)
       /\ Permutation rows [leisure; health]
       /\ StronglySorted (fun a b => name_leb a b = true) rows.
Proof.
  split; [hyp_connected |].
  destruct (category_getAll_lists (connected_to sqlite sample) (Some "expense"))
    as (rows & Hrun & Hperm & Hsorted); [hyp_connected |].
  exists rows. split; [exact Hrun |]. split; [exact Hperm |].
  apply Hsorted. reflexivity.
Defined.

(** ** The transaction routes *)

Lemma post_then_get_transaction_witness :
  connected (connected_to postgresql sample)
  /\ ids_in_sequence sample
  /\ valid refund
  /\ amount_in_range postgresql refund
  /\ exists (record : Obj) (w1 : World),
       post_transaction_route "production" refund (connected_to postgresql sample)
       = (mkReply 201 (OneRow (Some record)), w1)
       /\ field "id" record = Some (VNum 4)
       /\ get_transaction_route "production" "4" w1 = (mkReply 200 (OneRow (Some record)), w1).
Proof.
  assert (Hids : ids_in_sequence sample) by (repeat constructor; hyp_le).
  assert (Hr : amount_in_range postgresql refund) by reflexivity.
  split; [hyp_connected |]. split; [exact Hids |]. split; [reflexivity |].
  split; [exact Hr |].
  destruct (post_then_get_transaction (connected_to postgresql sample) refund "production")
    as (record & w1 & Hpost & Hid & Hget);
    [hyp_connected | exact Hids | reflexivity | exact Hr |].
  exists record, w1. split; [exact Hpost |]. split; [exact Hid | exact Hget].
Defined.

Lemma delete_transaction_200_then_404_witness :
  connected (connected_to sqlite sample)
  /\ In cinema (transactions sample)
  /\ Tx.id cinema = 2
  /\ exists w1 : World,
       delete_transaction_route "production" "2" (connected_to sqlite sample)
       = (mkReply 200 (Fields [("message", "Transacción eliminada correctamente")]), w1)
       /\ transactions (database w1) = [salary; dinner]
       /\ delete_transaction_route "production" "2" w1
          = (mkReply 404 (Fields [("error", "Transacción no encontrada")]), w1)
       /\ get_transaction_route "production" "2" w1
          = (mkReply 404 (Fields [("error", "Transacción no encontrada")]), w1).
Proof.
  assert (Hin : In cinema (transactions sample)) by (right; left; reflexivity).
  split; [hyp_connected |]. split; [exact Hin |]. split; [reflexivity |].
  destruct (delete_transaction_200_then_404 (connected_to sqlite sample) 2 cinema "production")
    as (w1 & Hdel & Hrows & Hagain & Hget); [hyp_connected | exact Hin | reflexivity |].
  exists w1. split; [exact Hdel |]. split; [exact Hrows |]. split; [exact Hagain | exact Hget].
Defined.


Lemma postgresql_update_stamps_witness :
  connected (connected_to postgresql sample)
  /\ getDatabaseType (connected_to postgresql sample) = postgresql
  /\ names_id (VText "2") 2
  /\ valid refund
  /\ amount_in_range postgresql refund
  /\ In cinema (transactions sample)
  /\ Tx.id cinema = 2
  /\ exists (record : Obj) (w1 : World),
       Transaction.update (VText "2") refund (connected_to postgresql sample)
       = (Ok (Some record), w1)
       /\ field "type" record = Some (VText "income")
       /\ field "amount" record = Some (VNum 500)
       /\ field "created_at" record = Some (VNum 101)
       /\ field "updated_at" record = Some (VNum 200)
       /\ map Tx.updated_at (transactions (database w1)) = [100; 200; 102].
Proof.
  assert (Hin : In cinema (transactions sample)) by (right; left; reflexivity).
  assert (Hid : names_id (VText "2") 2) by (right; reflexivity).
  split; [hyp_connected |]. split; [reflexivity |]. split; [exact Hid |].
  split; [reflexivity |]. split; [reflexivity |]. split; [exact Hin |]. split; [reflexivity |].
  destruct (postgresql_update_stamps (connected_to postgresql sample) (VText "2") 2
                                     refund cinema)
    as (record & w1 & r0 & Hrun & Hin0 & Hid0 & _ & Hca & Hua & Hty & Ham & _ & _ & Hrows & _);
    [hyp_connected | reflexivity | exact Hid | reflexivity | reflexivity | exact Hin
     | reflexivity |].
  assert (E0 : r0 = cinema).
  { destruct Hin0 as [<- | [<- | [<- | []]]]; [discriminate Hid0 | reflexivity
                                                | discriminate Hid0]. }
  subst r0.
  exists record, w1. split; [exact Hrun |]. split; [exact Hty |]. split; [exact Ham |].
  split; [exact Hca |]. split; [exact Hua |].
  assert (Ew : w1 = snd (Transaction.update (VText "2") refund
                                            (connected_to postgresql sample)))
    by (rewrite Hrun; reflexivity).
  rewrite Ew. reflexivity.
Defined.


(** ** Candidates the schemas refuse *)

Lemma refused_transaction_answers_400_witness :
  ~ valid withdrawal
  /\ post_transaction_route "production" withdrawal (fresh sqlite empty)
     = (mkReply 400
          (Fields [("error", "Error de validación");
                   ("details",
                    "El tipo debe ser " ++ quoted "income" ++ " o " ++ quoted "expense"
                    ++ ", El monto debe ser mayor a 0, La categoría es requerida")]),
        fresh sqlite empty).
Proof.
  assert (Hv : ~ valid withdrawal) by (intro E; discriminate E).
  split; [exact Hv |].
  destruct (refused_transaction_answers_400 (fresh sqlite empty) "1" withdrawal "production" Hv)
    as (_ & _ & Hpost & _).
  exact Hpost.
Defined.

Lemma refused_category_answers_500_witness :
  ~ valid_category red
  /\ Category.create red (fresh sqlite empty)
     = (Throw (Error "El color debe ser un código hexadecimal válido (ej: #FF0000)"),
        fresh sqlite empty)
  /\ r_status (fst (post_category_route "production" red (fresh sqlite empty))) = 500.
Proof.
  assert (Hv : ~ valid_category red) by (intro E; discriminate E).
  split; [exact Hv |].
  destruct (refused_category_answers_500 (fresh sqlite empty) "1" red "production" Hv)
    as (Hcreate & _ & Hpost & _).
  split; [exact Hcreate |]. rewrite Hpost. reflexivity.
Defined.

(** ** Category.create and Category.update *)





Lemma update_category_rewrites_witness :
  connected (connected_to sqlite sample)
  /\ names_id (VText "1") 1
  /\ (getDatabaseType (connected_to sqlite sample) = sqlite ->
      triggers sample = migration_triggers sqlite)
  /\ names_unique sample
  /\ valid_category LEISURE
  /\ CatData.name LEISURE = Some "OCIO"
  /\ category_with_id sample 1 leisure
  /\ (forall r, In r (categories sample) -> Cat.id r <> 1 ->
                same_ignoring_case (Cat.name r) "OCIO" = false)
  /\ exists w1 : World,
       Category.update (VText "1") LEISURE (connected_to sqlite sample)
       = (Ok (Some (Cat.to_obj (Cat.mk 1 "OCIO" "expense" (Some "Ocio y diversión")
                                       None None 50 50))), w1)
       /\ categories (database w1)
          = [Cat.mk 1 "OCIO" "expense" (Some "Ocio y diversión") None None 50 50; health]
       /\ transactions (database w1) = transactions sample.
Proof.
  assert (Hid : names_id (VText "1") 1) by (right; reflexivity).
  assert (Huniq : names_unique sample).
  { repeat constructor; cbn; intuition discriminate. }
  assert (Hfree : forall r, In r (categories sample) -> Cat.id r <> 1 ->
                            same_ignoring_case (Cat.name r) "OCIO" = false).
  { intros r [<- | [<- | []]] Hne; [exfalso; apply Hne |]; reflexivity. }
  split; [hyp_connected |]. split; [exact Hid |]. split; [reflexivity |].
  split; [exact Huniq |]. split; [reflexivity |]. split; [reflexivity |].
  split; [reflexivity |]. split; [exact Hfree |].
  destruct (update_category_rewrites (connected_to sqlite sample) (VText "1") 1 LEISURE
                                     "OCIO" leisure)
    as (w1 & Hup & Hrows & Htx & _);
    [hyp_connected | exact Hid | reflexivity | exact Huniq | reflexivity | reflexivity
     | reflexivity | exact Hfree |].
  exists w1. split; [exact Hup |]. split; [exact Hrows | exact Htx].
Defined.

(** ** Category.initializeDefaultCategories *)

Lemma initializeDefaultCategories_completes_witness :
  connected (connected_to sqlite sample)
  /\ category_ids_in_sequence sample
  /\ exists added : list Cat.row,
       Category.initializeDefaultCategories (connected_to sqlite sample)
       = (Ok tt, with_added (connected_to sqlite sample) added)
       /\ present "Alimentación" (categories sample ++ added) = true
       /\ transactions (database (with_added (connected_to sqlite sample) added))
          = transactions sample.
Proof.
  assert (Hids : category_ids_in_sequence sample) by (repeat constructor; hyp_le).
  split; [hyp_connected |]. split; [exact Hids |].
  destruct (initializeDefaultCategories_completes (connected_to sqlite sample))
    as (added & Hrun & Hall & _ & Htx & _); [hyp_connected | exact Hids |].
  exists added. split; [exact Hrun |]. split; [| exact Htx].
  apply (Hall (Category.default "Alimentación" "expense" "Comida y bebidas" "#F44336" "🍽️"));
    [| reflexivity].
  do 5 right. left. reflexivity.
Defined.

Lemma initializeDefaultCategories_twice_witness :
  connected (connected_to postgresql sample)
  /\ category_ids_in_sequence sample
  /\ exists w1 : World,
       Category.initializeDefaultCategories (connected_to postgresql sample) = (Ok tt, w1)
       /\ Category.initializeDefaultCategories w1 = (Ok tt, w1).
Proof.
  assert (Hids : category_ids_in_sequence sample) by (repeat constructor; hyp_le).
  split; [hyp_connected |]. split; [exact Hids |].
  apply (initializeDefaultCategories_twice (connected_to postgresql sample));
    [hyp_connected | exact Hids].
Defined.

(** ** Statistics and monthly data *)

Lemma getStatistics_without_range_witness :
  connected (connected_to sqlite sample)
  /\ (Filters.startDate no_filter = None \/ Filters.endDate no_filter = None)
  /\ whole_amounts (transactions sample)
  /\ exists s : Statistics,
       Transaction.getStatistics no_filter (connected_to sqlite sample)
       = (Ok s, connected_to sqlite sample)
       /\ totalIncome s = Num 10000 /\ totalExpenses s = Num 6500
       /\ balance s = Num 3500.
Proof.
  assert (Hf : Filters.startDate no_filter = None \/ Filters.endDate no_filter = None)
    by (left; reflexivity).
  assert (Hw : whole_amounts (transactions sample)).
  { split; [| hyp_le].
    repeat constructor; try hyp_le; [exists 100 | exists 25 | exists 40]; reflexivity. }
  split; [hyp_connected |]. split; [exact Hf |]. split; [exact Hw |].
  destruct (getStatistics_without_range (connected_to sqlite sample) no_filter)
    as (s & Hrun & Hin & Hout & Hbal & _); [hyp_connected | exact Hf | exact Hw |].
  exists s. split; [exact Hrun |]. split; [exact Hin |]. split; [exact Hout | exact Hbal].
Defined.

Lemma postgresql_monthly_data_witness :
  connected (connected_to postgresql sample)
  /\ getDatabaseType (connected_to postgresql sample) = postgresql
  /\ exists l : list MonthlyEntry,
       Transaction.getMonthlyData 2024 (connected_to postgresql sample)
       = (Ok l, connected_to postgresql sample)
       /\ In (mkMonthlyEntry (Num 1) (Some (VText "expense")) (Num 6500)) l
       /\ Sorted month_then_kind l.
Proof.
  split; [hyp_connected |]. split; [reflexivity |].
  destruct (postgresql_monthly_data (connected_to postgresql sample) 2024)
    as (l & Hrun & Hentries & Hsorted); [hyp_connected | reflexivity |].
  exists l. split; [exact Hrun |]. split; [| exact Hsorted].
  apply Hentries. split; [| reflexivity].
  exists cinema. split; [right; left; reflexivity | reflexivity].
Defined.


(** ** The routes on a manager that cannot run a query *)

Lemma unusable_manager_answers_500_witness :
  usable (fresh postgresql sample) = false
  /\ valid refund
  /\ valid_category travel
  /\ answers_500 (get_transaction_route "production" "1") (fresh postgresql sample)
  /\ answers_500 (post_category_route "production" travel) (fresh postgresql sample).
Proof.
  split; [reflexivity |]. split; [reflexivity |]. split; [reflexivity |].
  destruct (unusable_manager_answers_500 (fresh postgresql sample) "1" None refund travel
                                         "production")
    as (Hget & _ & _ & _ & _ & _ & Hpost & _); [reflexivity | reflexivity | reflexivity |].
  split; [exact Hget | exact Hpost].
Defined.

(** ** The monthly report and the count of stored data *)

Lemma monthly_report_answers_witness :
  monthly_report_route "production" "1999" (fresh sqlite sample)
  = (mkReply 400 (Fields [("error", "Año inválido")]), fresh sqlite sample)
  /\ connected (connected_to postgresql sample)
  /\ monthly_report_route "production" "2024" (connected_to postgresql sample)
     = (mkReply 200 (MonthlyData (monthly_of 2024 (transactions sample))),
        connected_to postgresql sample).
Proof.
  destruct (monthly_report_answers (fresh sqlite sample) 1999 "production") as [Hlow _].
  destruct (monthly_report_answers (connected_to postgresql sample) 2024 "production")
    as [_ Hin].
  split; [apply Hlow; left; lia |]. split; [hyp_connected |].
  apply Hin; [lia | hyp_connected].
Defined.

Lemma checkExistingData_counts_witness :
  connected (connected_to sqlite sample)
  /\ usable (fresh sqlite sample) = false
  /\ checkExistingData (connected_to sqlite sample)
     = (Ok (mkExistingData (Num (Z.of_nat (List.length (categories sample))))
                           (Num (Z.of_nat (List.length (transactions sample))))),
        connected_to sqlite sample)
  /\ checkExistingData (fresh sqlite sample)
     = (Ok (mkExistingData (Num 0) (Num 0)), fresh sqlite sample).
Proof.
  destruct (checkExistingData_counts (connected_to sqlite sample)) as [Hc _].
  destruct (checkExistingData_counts (fresh sqlite sample)) as [_ Hu].
  split; [hyp_connected |]. split; [reflexivity |].
  split; [apply Hc; hyp_connected | apply Hu; reflexivity].
Defined.
